(** * DxeCapsuleProcessLib: capsule discovery, dispatch and reset decision

    A shallow embedding of
    [MdeModulePkg/Library/DxeCapsuleLibFmp/DxeCapsuleProcessLib.c]
    and the properties of its dispatcher, publisher, progress reporter
    and reset coordinator.

    Conventions of the embedding.
    - The target is a 64-bit build: [UINTN] and [EFI_STATUS] are 64-bit
      values carried as [Z]; pointers are addresses carried as [Z], with
      [0] for [NULL]; [sizeof (VOID * )] is 8.
    - The module's globals, the HOB list and the capsule images form the
      [State]; every function of the module is a state transformer in the
      monad [M], whose outcomes are: a normal return, a [Fault] (the C
      program dereferences [NULL] or indexes an array outside its
      allocation), or [NoReturn] (the platform is reset).
    - Functions that the file only declares or calls (validators, the
      image processor, boot services, the display library) are the
      fields of the class [Platform]. The validators only read the
      capsule image; every call of one of the others is written to the
      [trace] of the state together with its result.
    - Loop counters are natural numbers: [Index] stays below
      [mCapsuleTotalNumber], a [UINT32], and cannot wrap. The one
      counter that can wrap, [mCapsuleTotalNumber++], wraps.
    - Capsule images are not written to while the module runs, so a
      header field read through a capsule pointer has one value.
    - [DEBUG] prints are left out. *)

From Stdlib Require Import ZArith List Bool Lia.
From stdpp Require Import base list.
Import ListNotations.
Local Open Scope Z_scope.

(** ** Base types and constants *)

Definition EFI_STATUS := Z.

(** [MAX_BIT] and [ENCODE_ERROR] of [Base.h] for a 64-bit [UINTN]. *)
Definition MAX_BIT : Z := Z.shiftl 1 63.
Definition ENCODE_ERROR (StatusCode : Z) : EFI_STATUS := Z.lor MAX_BIT StatusCode.

Definition EFI_SUCCESS : EFI_STATUS := 0.
Definition EFI_INVALID_PARAMETER : EFI_STATUS := ENCODE_ERROR 2.
Definition EFI_UNSUPPORTED : EFI_STATUS := ENCODE_ERROR 3.
Definition EFI_NOT_READY : EFI_STATUS := ENCODE_ERROR 6.
Definition EFI_OUT_OF_RESOURCES : EFI_STATUS := ENCODE_ERROR 9.
Definition EFI_VOLUME_CORRUPTED : EFI_STATUS := ENCODE_ERROR 10.
Definition EFI_ABORTED : EFI_STATUS := ENCODE_ERROR 21.

(** [EFI_ERROR (s)] is [((INTN) s) < 0]: the top bit of the status. *)
Definition EFI_ERROR (Status : EFI_STATUS) : bool := Z.testbit Status 63.

Definition UINT32 (x : Z) : Z := x mod 2 ^ 32.

Record EFI_GUID : Type := mkGuid {
  Data1 : Z;
  Data2 : Z;
  Data3 : Z;
  Data4 : Z
}.

Definition CompareGuid (Guid1 Guid2 : EFI_GUID) : bool :=
  (Data1 Guid1 =? Data1 Guid2) && (Data2 Guid1 =? Data2 Guid2) &&
  (Data3 Guid1 =? Data3 Guid2) && (Data4 Guid1 =? Data4 Guid2).

Record EFI_CAPSULE_HEADER : Type := mkCapsuleHeader {
  CapsuleGuid : EFI_GUID;
  HeaderSize : Z;
  Flags : Z;
  CapsuleImageSize : Z
}.

Definition CAPSULE_FLAGS_PERSIST_ACROSS_RESET : Z := 0x00010000.
Definition CAPSULE_FLAGS_POPULATE_SYSTEM_TABLE : Z := 0x00020000.
Definition CAPSULE_FLAGS_INITIATE_RESET : Z := 0x00040000.

(** [EFI_CAPSULE_TABLE]: a count followed by that many capsule pointers. *)
Record EFI_CAPSULE_TABLE : Type := mkCapsuleTable {
  CapsuleArrayNumber : Z;
  CapsulePtr : list Z
}.

Definition EFI_HOB_TYPE_UEFI_CAPSULE : Z := 0x000B.
Definition EFI_HOB_TYPE_UNUSED : Z := 0xFFFE.

(** A HOB of the handoff list; for a capsule HOB, [BaseAddress] and
    [Length] locate the capsule image. *)
Record EFI_HOB : Type := mkHob {
  HobType : Z;
  BaseAddress : Z;
  Length : Z
}.

(** [EDKII_FIRMWARE_MANAGEMENT_PROGRESS_PROTOCOL], the two fields read here. *)
Record EDKII_FIRMWARE_MANAGEMENT_PROGRESS_PROTOCOL : Type := mkFmpProgress {
  WatchdogSeconds : Z;
  ProgressBarForegroundColor : Z
}.

Inductive EFI_RESET_TYPE : Type :=
  EfiResetCold | EfiResetWarm | EfiResetShutdown | EfiResetPlatformSpecific.

Inductive EFI_STATUS_CODE_TYPE : Type := EFI_PROGRESS_CODE | EFI_ERROR_CODE.

(** The status code values reported by this file. Each one stands for
    [EFI_SOFTWARE | PcdGet32 (PcdStatusCodeSubClassCapsule) |
     PcdGet32 (PcdCapsuleStatusCode<name>)]. *)
Inductive CapsuleStatusCode : Type :=
| ProcessCapsulesBegin
| UpdatingFirmware
| UpdateFirmwareFailed
| UpdateFirmwareSuccess
| ProcessCapsulesEnd
| ResettingSystem.

Inductive PoolKind : Type := ZeroPool | RuntimePool.

(** ** Calls that leave the module *)

Inductive Event : Type :=
| EvReportStatusCode (Type_ : EFI_STATUS_CODE_TYPE) (Value : CapsuleStatusCode)
| EvAllocatePool (Kind : PoolKind) (Size : Z) (Allocated : bool)
| EvFreePool
| EvInstallConfigurationTable (Guid : EFI_GUID) (Table : EFI_CAPSULE_TABLE)
    (Status : EFI_STATUS)
| EvProcessThisCapsuleImage (CapsuleHeader : Z) (WantReset : bool)
    (Status : EFI_STATUS) (ResetRequired : bool)
| EvLocateEsrtManagement (Status : EFI_STATUS)
| EvSyncEsrtFmp
| EvSetWatchdogTimer (Timeout : Z)
| EvDisplayUpdateProgress (Completion : Z) (Color : option Z)
    (Status : EFI_STATUS)
| EvResetSystemWithSubtype (ResetType : EFI_RESET_TYPE) (Subtype : EFI_GUID).

(** The functions, services and build constants the file takes from
    elsewhere. [W] is the state of everything outside the module.
    - The three validators inspect the capsule image a pointer refers
      to and nothing else.
    - What a service answers depends on the outside state [W]; after
      every call the outside state moves on by [env_step]. *)
Class Platform (W : Type) : Type := {
  gWindowsUxCapsuleGuid : EFI_GUID;
  gCapsuleUpdateCompleteResetGuid : EFI_GUID;
  PcdSystemRebootAfterCapsuleProcessFlag : Z;
  PcdCapsuleUpdateWatchdogTimeInSeconds : Z;
  IsValidCapsuleHeader : Z -> Z -> bool;
  IsFmpCapsule : Z -> bool;
  (** Status and the value left in [EmbeddedDriverCount], which the
      caller clears before the call. *)
  ValidateFmpCapsule : Z -> EFI_STATUS * Z;
  (** Status and the value left in [ResetRequired], which the caller
      clears before the call; the boolean argument tells whether the
      caller passed a [ResetRequired] pointer at all. *)
  ext_ProcessThisCapsuleImage : W -> Z -> bool -> EFI_STATUS * bool;
  ext_AllocatePool : W -> PoolKind -> Z -> bool;
  ext_InstallConfigurationTable : W -> EFI_GUID -> EFI_CAPSULE_TABLE -> EFI_STATUS;
  ext_LocateEsrtManagement : W -> EFI_STATUS;
  ext_DisplayUpdateProgress : W -> Z -> option Z -> EFI_STATUS;
  env_step : Event -> W -> W
}.

(** ** Module state *)

Record State (W : Type) : Type := mkState {
  mNeedReset : bool;
  mCapsulePtr : list Z;
  mCapsuleStatusArray : list EFI_STATUS;
  mCapsuleTotalNumber : Z;
  mFmpProgress : option EDKII_FIRMWARE_MANAGEMENT_PROGRESS_PROTOCOL;
  HobList : list EFI_HOB;
  CapsuleMemory : Z -> EFI_CAPSULE_HEADER;
  world : W;
  trace : list Event
}.
Arguments mkState {W}.
Arguments mNeedReset {W}.
Arguments mCapsulePtr {W}.
Arguments mCapsuleStatusArray {W}.
Arguments mCapsuleTotalNumber {W}.
Arguments mFmpProgress {W}.
Arguments HobList {W}.
Arguments CapsuleMemory {W}.
Arguments world {W}.
Arguments trace {W}.

Inductive Result (W A : Type) : Type :=
| Ok (a : A) (st : State W)
| Fault
| NoReturn (st : State W).
Arguments Ok {W A}.
Arguments Fault {W A}.
Arguments NoReturn {W A}.

Definition M (W A : Type) : Type := State W -> Result W A.

Definition ret {W A} (a : A) : M W A := fun st => Ok a st.

Definition bind {W A B} (m : M W A) (f : A -> M W B) : M W B :=
  fun st =>
    match m st with
    | Ok a st' => f a st'
    | Fault => Fault
    | NoReturn st' => NoReturn st'
    end.

Declare Scope capsule_scope.
Delimit Scope capsule_scope with capsule.
Notation "x <- c1 ;; c2" := (bind c1 (fun x => c2))
  (at level 100, c1 at next level, right associativity) : capsule_scope.
Notation "x ;; z" := (bind x (fun _ => z))
  (at level 100, z at level 200, only parsing, right associativity) : capsule_scope.
Local Open Scope capsule_scope.

Section Module.
Context {W : Type} {PF : Platform W}.

(** *** Field updates *)

Definition set_mNeedReset (b : bool) (st : State W) : State W :=
  mkState b (mCapsulePtr st) (mCapsuleStatusArray st) (mCapsuleTotalNumber st)
    (mFmpProgress st) (HobList st) (CapsuleMemory st) (world st) (trace st).

Definition set_mCapsulePtr (l : list Z) (st : State W) : State W :=
  mkState (mNeedReset st) l (mCapsuleStatusArray st) (mCapsuleTotalNumber st)
    (mFmpProgress st) (HobList st) (CapsuleMemory st) (world st) (trace st).

Definition set_mCapsuleStatusArray (l : list EFI_STATUS) (st : State W) : State W :=
  mkState (mNeedReset st) (mCapsulePtr st) l (mCapsuleTotalNumber st)
    (mFmpProgress st) (HobList st) (CapsuleMemory st) (world st) (trace st).

Definition set_mCapsuleTotalNumber (n : Z) (st : State W) : State W :=
  mkState (mNeedReset st) (mCapsulePtr st) (mCapsuleStatusArray st) n
    (mFmpProgress st) (HobList st) (CapsuleMemory st) (world st) (trace st).

Definition set_HobList (l : list EFI_HOB) (st : State W) : State W :=
  mkState (mNeedReset st) (mCapsulePtr st) (mCapsuleStatusArray st)
    (mCapsuleTotalNumber st) (mFmpProgress st) l (CapsuleMemory st)
    (world st) (trace st).

(** A call that leaves the module: logged, and the outside moves on. *)
Definition record (e : Event) (st : State W) : State W :=
  mkState (mNeedReset st) (mCapsulePtr st) (mCapsuleStatusArray st)
    (mCapsuleTotalNumber st) (mFmpProgress st) (HobList st) (CapsuleMemory st)
    (env_step e (world st)) (trace st ++ [e]).

(** *** Primitive actions *)

Definition gets {A} (f : State W -> A) : M W A := fun st => Ok (f st) st.
Definition modify (f : State W -> State W) : M W unit := fun st => Ok tt (f st).
Definition emit (e : Event) : M W unit := modify (record e).

(** [mCapsuleStatusArray [Index]] as an rvalue. *)
Definition ReadStatus (Index : nat) : M W EFI_STATUS := fun st =>
  match mCapsuleStatusArray st !! Index with
  | Some s => Ok s st
  | None => Fault
  end.

(** [mCapsuleStatusArray [Index] = Status]. *)
Definition WriteStatus (Index : nat) (Status : EFI_STATUS) : M W unit := fun st =>
  if (Index <? length (mCapsuleStatusArray st))%nat
  then Ok tt (set_mCapsuleStatusArray (<[Index := Status]> (mCapsuleStatusArray st)) st)
  else Fault.

(** [mCapsulePtr [Index]] as an rvalue. *)
Definition ReadCapsulePtr (Index : nat) : M W Z := fun st =>
  match mCapsulePtr st !! Index with
  | Some p => Ok p st
  | None => Fault
  end.

(** Reading a header field through [(EFI_CAPSULE_HEADER * ) p]. *)
Definition Deref (p : Z) : M W EFI_CAPSULE_HEADER := fun st =>
  if p =? 0 then Fault else Ok (CapsuleMemory st p) st.

Definition REPORT_STATUS_CODE (t : EFI_STATUS_CODE_TYPE) (v : CapsuleStatusCode) : M W unit :=
  emit (EvReportStatusCode t v).

Definition AllocatePool (Kind : PoolKind) (Size : Z) : M W bool := fun st =>
  let ok := ext_AllocatePool (world st) Kind Size in
  Ok ok (record (EvAllocatePool Kind Size ok) st).

Definition FreePool : M W unit := emit EvFreePool.

Definition SetWatchdogTimer (Timeout : Z) : M W unit :=
  emit (EvSetWatchdogTimer Timeout).

Definition DisplayUpdateProgress (Completion : Z) (Color : option Z) : M W EFI_STATUS :=
  fun st =>
    let s := ext_DisplayUpdateProgress (world st) Completion Color in
    Ok s (record (EvDisplayUpdateProgress Completion Color s) st).

Definition ProcessThisCapsuleImage (CapsuleHeader : Z) (WantReset : bool)
  : M W (EFI_STATUS * bool) := fun st =>
    let r := ext_ProcessThisCapsuleImage (world st) CapsuleHeader WantReset in
    Ok r (record (EvProcessThisCapsuleImage CapsuleHeader WantReset (fst r) (snd r)) st).

Definition InstallConfigurationTable (Guid : EFI_GUID) (Table : EFI_CAPSULE_TABLE)
  : M W EFI_STATUS := fun st =>
    let s := ext_InstallConfigurationTable (world st) Guid Table in
    Ok s (record (EvInstallConfigurationTable Guid Table s) st).

(** ** [UpdateImageProgress] *)

Definition UpdateImageProgress (Completion : Z) : M W EFI_STATUS :=
  if 100 <? Completion then ret EFI_INVALID_PARAMETER
  else
    fmp <- gets mFmpProgress;;
    let Seconds := match fmp with Some p => WatchdogSeconds p | None => 5 * 60 end in
    let Color := match fmp with Some p => Some (ProgressBarForegroundColor p) | None => None end in
    SetWatchdogTimer 0;;
    (if negb (Completion =? 100)
     then if negb (Seconds =? 0) then SetWatchdogTimer Seconds else ret tt
     else ret tt);;
    Status <- DisplayUpdateProgress Completion Color;;
    ret Status.

(** ** [Update_Image_Progress] *)

Definition Update_Image_Progress (Completion : Z) : M W EFI_STATUS :=
  let Color := UINT32 (Z.land (Z.shiftr Completion 8) 0xFFFFFF) in
  let Completion := Z.land Completion 0xFF in
  if 100 <? Completion then ret EFI_INVALID_PARAMETER
  else
    SetWatchdogTimer 0;;
    (if negb (Completion =? 100)
     then SetWatchdogTimer PcdCapsuleUpdateWatchdogTimeInSeconds
     else ret tt);;
    Status <- DisplayUpdateProgress Completion (Some Color);;
    ret Status.

Definition LocateEsrtManagement : M W EFI_STATUS := fun st =>
  let s := ext_LocateEsrtManagement (world st) in
  Ok s (record (EvLocateEsrtManagement s) st).

Definition SyncEsrtFmp : M W unit := emit EvSyncEsrtFmp.

(** [ResetSystemWithSubtype] followed by [CpuDeadLoop]: control does not
    come back, whether or not the reset service itself returns. *)
Definition ResetSystemWithSubtype (ResetType : EFI_RESET_TYPE) (Subtype : EFI_GUID)
  : M W unit := emit (EvResetSystemWithSubtype ResetType Subtype).

Definition CpuDeadLoop {A} : M W A := fun st => NoReturn st.

(** ** [InitCapsulePtr] *)

(** The first walk over the capsule HOBs: an invalid capsule HOB is
    retyped [EFI_HOB_TYPE_UNUSED], a valid one increments the [UINT32]
    counter. *)
Fixpoint MarkAndCountHobs (hobs : list EFI_HOB) (Total : Z) : list EFI_HOB * Z :=
  match hobs with
  | [] => ([], Total)
  | h :: rest =>
      if HobType h =? EFI_HOB_TYPE_UEFI_CAPSULE then
        if negb (IsValidCapsuleHeader (BaseAddress h) (Length h)) then
          let r := MarkAndCountHobs rest Total in
          (mkHob EFI_HOB_TYPE_UNUSED (BaseAddress h) (Length h) :: fst r, snd r)
        else
          let r := MarkAndCountHobs rest (UINT32 (Total + 1)) in
          (h :: fst r, snd r)
      else
        let r := MarkAndCountHobs rest Total in
        (h :: fst r, snd r)
  end.

(** [mCapsulePtr [Index] = p]. *)
Definition WriteCapsulePtr (Index : nat) (p : Z) : M W unit := fun st =>
  if (Index <? length (mCapsulePtr st))%nat
  then Ok tt (set_mCapsulePtr (<[Index := p]> (mCapsulePtr st)) st)
  else Fault.

(** The second walk: [mCapsulePtr [Index++] = BaseAddress] for every
    HOB still typed as a capsule. *)
Fixpoint FillCapsulePtr (hobs : list EFI_HOB) (Index : nat) : M W unit :=
  match hobs with
  | [] => ret tt
  | h :: rest =>
      if HobType h =? EFI_HOB_TYPE_UEFI_CAPSULE then
        WriteCapsulePtr Index (BaseAddress h);;
        FillCapsulePtr rest (S Index)
      else FillCapsulePtr rest Index
  end.

Definition InitCapsulePtr : M W unit :=
  hobs <- gets HobList;;
  Total <- gets mCapsuleTotalNumber;;
  modify (set_HobList (fst (MarkAndCountHobs hobs Total)));;
  modify (set_mCapsuleTotalNumber (snd (MarkAndCountHobs hobs Total)));;
  Total <- gets mCapsuleTotalNumber;;
  if Total =? 0 then ret tt
  else
    ok <- AllocatePool ZeroPool (8 * Total);;
    if negb ok then
      modify (set_mCapsulePtr []);;
      modify (set_mCapsuleTotalNumber 0)
    else
      modify (set_mCapsulePtr (replicate (Z.to_nat Total) 0));;
      ok <- AllocatePool ZeroPool (8 * Total);;
      if negb ok then
        modify (set_mCapsuleStatusArray []);;
        FreePool;;
        modify (set_mCapsulePtr []);;
        modify (set_mCapsuleTotalNumber 0)
      else
        modify (set_mCapsuleStatusArray (replicate (Z.to_nat Total) EFI_NOT_READY));;
        hobs <- gets HobList;;
        FillCapsulePtr hobs 0.

(** ** [AreAllImagesProcessed] *)

Fixpoint AreAllImagesProcessed_from (count Index : nat) : M W bool :=
  match count with
  | O => ret true
  | S k =>
      s <- ReadStatus Index;;
      if s =? EFI_NOT_READY then ret false
      else AreAllImagesProcessed_from k (S Index)
  end.

Definition AreAllImagesProcessed : M W bool :=
  Total <- gets mCapsuleTotalNumber;;
  AreAllImagesProcessed_from (Z.to_nat Total) 0.

(** ** [PopulateCapsuleInConfigurationTable] *)

Definition PopulateFlag (h : EFI_CAPSULE_HEADER) : bool :=
  negb (Z.land (Flags h) CAPSULE_FLAGS_POPULATE_SYSTEM_TABLE =? 0).

(** The [while] loop over the GUID cache: the value of [CacheIndex] when
    it stops, the position of the first equal GUID or [CacheNumber]. *)
Fixpoint FindGuid (Cache : list EFI_GUID) (Guid : EFI_GUID) : nat :=
  match Cache with
  | [] => O
  | g :: rest => if CompareGuid g Guid then O else S (FindGuid rest Guid)
  end.

(** First step. [Cache] holds the [CacheNumber] GUIDs recorded so far. *)
Fixpoint CollectGuids (count Index : nat) (Cache : list EFI_GUID) : M W (list EFI_GUID) :=
  match count with
  | O => ret Cache
  | S k =>
      p <- ReadCapsulePtr Index;;
      h <- Deref p;;
      if PopulateFlag h then
        if (FindGuid Cache (CapsuleGuid h) =? length Cache)%nat
        then CollectGuids k (S Index) (Cache ++ [CapsuleGuid h])
        else CollectGuids k (S Index) Cache
      else CollectGuids k (S Index) Cache
  end.

(** Second step, inner loop. [PtrCache] holds the [CapsuleNumber]
    pointers gathered so far for [Guid]. *)
Fixpoint GatherCapsules (count Index : nat) (Guid : EFI_GUID) (PtrCache : list Z)
  : M W (list Z) :=
  match count with
  | O => ret PtrCache
  | S k =>
      p <- ReadCapsulePtr Index;;
      h <- Deref p;;
      if PopulateFlag h then
        if CompareGuid Guid (CapsuleGuid h)
        then GatherCapsules k (S Index) Guid (PtrCache ++ [p])
        else GatherCapsules k (S Index) Guid PtrCache
      else GatherCapsules k (S Index) Guid PtrCache
  end.

(** Second step, outer loop: [CacheIndex] runs over the recorded GUIDs
    in the order they were recorded. *)
Fixpoint InstallCapsuleTables (Cache : list EFI_GUID) : M W unit :=
  match Cache with
  | [] => ret tt
  | Guid :: rest =>
      Total <- gets mCapsuleTotalNumber;;
      PtrCache <- GatherCapsules (Z.to_nat Total) 0 Guid [];;
      let CapsuleNumber := Z.of_nat (length PtrCache) in
      (if negb (CapsuleNumber =? 0) then
         ok <- AllocatePool RuntimePool (16 + (CapsuleNumber - 1) * 8);;
         if negb ok then ret tt
         else
           Status <- InstallConfigurationTable Guid (mkCapsuleTable CapsuleNumber PtrCache);;
           ret tt
       else ret tt);;
      InstallCapsuleTables rest
  end.

Definition PopulateCapsuleInConfigurationTable : M W unit :=
  Total <- gets mCapsuleTotalNumber;;
  if Total =? 0 then ret tt
  else
    ok <- AllocatePool ZeroPool (8 * Total);;
    if negb ok then ret tt
    else
      ok <- AllocatePool ZeroPool (16 * Total);;
      if negb ok then FreePool
      else
        Cache <- CollectGuids (Z.to_nat Total) 0 [];;
        InstallCapsuleTables Cache;;
        FreePool;;
        FreePool.

(** ** [ProcessTheseCapsules] *)

(** The loop that looks for the Windows UX capsule; it stops at the
    first match. *)
Fixpoint ProcessUxCapsule (count Index : nat) : M W unit :=
  match count with
  | O => ret tt
  | S k =>
      p <- ReadCapsulePtr Index;;
      h <- Deref p;;
      if CompareGuid (CapsuleGuid h) gWindowsUxCapsuleGuid then
        r <- ProcessThisCapsuleImage p false;;
        WriteStatus Index EFI_SUCCESS
      else ProcessUxCapsule k (S Index)
  end.

Definition RebootFlag (h : EFI_CAPSULE_HEADER) : bool :=
  negb (Z.land (Flags h) PcdSystemRebootAfterCapsuleProcessFlag =? 0).

(** The body of the second loop for one value of [Index]. *)
Definition ProcessOneCapsule (FirstRound : bool) (Index : nat) : M W unit :=
  s <- ReadStatus Index;;
  if negb (s =? EFI_NOT_READY) then ret tt
  else
    p <- ReadCapsulePtr Index;;
    h <- Deref p;;
    if negb (CompareGuid (CapsuleGuid h) gWindowsUxCapsuleGuid) then
      if IsFmpCapsule p then
        if EFI_ERROR (fst (ValidateFmpCapsule p)) then WriteStatus Index EFI_ABORTED
        else
          let EmbeddedDriverCount := snd (ValidateFmpCapsule p) in
          if negb FirstRound || (EmbeddedDriverCount =? 0) then
            r <- ProcessThisCapsuleImage p true;;
            WriteStatus Index (fst r);;
            if negb (fst r =? EFI_NOT_READY) then
              (if EFI_ERROR (fst r)
               then REPORT_STATUS_CODE EFI_ERROR_CODE UpdateFirmwareFailed
               else REPORT_STATUS_CODE EFI_PROGRESS_CODE UpdateFirmwareSuccess);;
              modify (fun st => set_mNeedReset (mNeedReset st || snd r) st);;
              if RebootFlag h then modify (set_mNeedReset true) else ret tt
            else ret tt
          else ret tt
      else WriteStatus Index EFI_ABORTED
    else ret tt.

Fixpoint ProcessRemainingCapsules (FirstRound : bool) (count Index : nat) : M W unit :=
  match count with
  | O => ret tt
  | S k =>
      ProcessOneCapsule FirstRound Index;;
      ProcessRemainingCapsules FirstRound k (S Index)
  end.

(** The part of [ProcessTheseCapsules] that follows the two early
    returns. *)
Definition DispatchCapsules (FirstRound : bool) : M W EFI_STATUS :=
  (if FirstRound then PopulateCapsuleInConfigurationTable else ret tt);;
  REPORT_STATUS_CODE EFI_PROGRESS_CODE UpdatingFirmware;;
  Total <- gets mCapsuleTotalNumber;;
  ProcessUxCapsule (Z.to_nat Total) 0;;
  Total <- gets mCapsuleTotalNumber;;
  ProcessRemainingCapsules FirstRound (Z.to_nat Total) 0;;
  Status <- LocateEsrtManagement;;
  (if negb (EFI_ERROR Status) then SyncEsrtFmp else ret tt);;
  let Status := EFI_SUCCESS in
  REPORT_STATUS_CODE EFI_PROGRESS_CODE ProcessCapsulesEnd;;
  ret Status.

(** The part of [ProcessTheseCapsules] up to the first early return:
    the begin report and, on the first round, discovery. *)
Definition DiscoverCapsules (FirstRound : bool) : M W unit :=
  REPORT_STATUS_CODE EFI_PROGRESS_CODE ProcessCapsulesBegin;;
  if FirstRound then InitCapsulePtr else ret tt.

Definition ProcessTheseCapsules (FirstRound : bool) : M W EFI_STATUS :=
  DiscoverCapsules FirstRound;;
  Total <- gets mCapsuleTotalNumber;;
  if Total =? 0 then ret EFI_SUCCESS
  else
    all <- AreAllImagesProcessed;;
    if all then ret EFI_SUCCESS
    else DispatchCapsules FirstRound.

(** ** [DoResetSystem] and [ProcessCapsules] *)

Definition DoResetSystem : M W unit :=
  REPORT_STATUS_CODE EFI_PROGRESS_CODE ResettingSystem;;
  ResetSystemWithSubtype EfiResetCold gCapsuleUpdateCompleteResetGuid;;
  CpuDeadLoop.

Definition ProcessCapsules : M W EFI_STATUS :=
  Status <- ProcessTheseCapsules true;;
  NeedReset <- gets mNeedReset;;
  (if NeedReset then DoResetSystem else ret tt);;
  ret Status.

End Module.

(** * Specification vocabulary *)

Section Vocabulary.
Context {W : Type} {PF : Platform W}.

(** [wp m Q st]: from [st], [m] returns normally and [Q] holds of the
    value and the final state. *)
Definition wp {A} (m : M W A) (Q : A -> State W -> Prop) (st : State W) : Prop :=
  match m st with
  | Ok a st' => Q a st'
  | Fault => False
  | NoReturn _ => False
  end.

(** The two arrays have [mCapsuleTotalNumber] entries and no capsule
    pointer is [NULL]. *)
Record wf (st : State W) : Prop := mkWf {
  wf_ptr_length : Z.of_nat (length (mCapsulePtr st)) = mCapsuleTotalNumber st;
  wf_status_length : length (mCapsuleStatusArray st) = length (mCapsulePtr st);
  wf_ptr_nonnull : Forall (fun p => p <> 0) (mCapsulePtr st)
}.

(** What no loop of the dispatcher changes. *)
Record same_capsules (st st' : State W) : Prop := mkSame {
  same_ptr : mCapsulePtr st' = mCapsulePtr st;
  same_total : mCapsuleTotalNumber st' = mCapsuleTotalNumber st;
  same_memory : CapsuleMemory st' = CapsuleMemory st;
  same_hobs : HobList st' = HobList st;
  same_fmp : mFmpProgress st' = mFmpProgress st;
  same_length : length (mCapsuleStatusArray st') = length (mCapsuleStatusArray st)
}.

(** *** The general sweep *)

Definition IsUxCapsule (st : State W) (p : Z) : bool :=
  CompareGuid (CapsuleGuid (CapsuleMemory st p)) gWindowsUxCapsuleGuid.

(** What the second loop of [ProcessTheseCapsules] does with an entry
    whose status is [s] and whose capsule pointer is [p]. *)
Inductive Verdict : Type := VSkip | VAbort | VDefer | VApply.

Definition SweepVerdict (FirstRound : bool) (st : State W) (s : EFI_STATUS) (p : Z) : Verdict :=
  if negb (s =? EFI_NOT_READY) then VSkip
  else if IsUxCapsule st p then VSkip
  else if negb (IsFmpCapsule p) then VAbort
  else if EFI_ERROR (fst (ValidateFmpCapsule p)) then VAbort
  else if FirstRound && negb (snd (ValidateFmpCapsule p) =? 0) then VDefer
  else VApply.

(** The status code reported after a terminal result of the image processor. *)
Definition OutcomeReport (s : EFI_STATUS) : Event :=
  if EFI_ERROR s
  then EvReportStatusCode EFI_ERROR_CODE UpdateFirmwareFailed
  else EvReportStatusCode EFI_PROGRESS_CODE UpdateFirmwareSuccess.

(** The reset demand of one call: raised by a call of the image
    processor made with a [ResetRequired] pointer whose result is not
    [EFI_NOT_READY], when the processor asked for a reset or the capsule
    carries the reboot flag. *)
Definition ResetDemand (st : State W) (e : Event) : bool :=
  match e with
  | EvProcessThisCapsuleImage p true s r =>
      negb (s =? EFI_NOT_READY) && (r || RebootFlag (CapsuleMemory st p))
  | _ => false
  end.

(** The image processor was called for the capsule at [p]. *)
Definition Applied (p : Z) (evs : list Event) : Prop :=
  exists w s r, In (EvProcessThisCapsuleImage p w s r) evs.

(** The effect of one iteration of the second loop. *)
Definition StepEffect (FirstRound : bool) (i : nat) (st st' : State W)
    (evs : list Event) : Prop :=
  exists s p,
    mCapsuleStatusArray st !! i = Some s /\ mCapsulePtr st !! i = Some p /\
    match SweepVerdict FirstRound st s p with
    | VSkip | VDefer =>
        evs = [] /\ mCapsuleStatusArray st' = mCapsuleStatusArray st /\
        mNeedReset st' = mNeedReset st
    | VAbort =>
        evs = [] /\
        mCapsuleStatusArray st' = <[i := EFI_ABORTED]> (mCapsuleStatusArray st) /\
        mNeedReset st' = mNeedReset st
    | VApply =>
        exists s' r,
          ext_ProcessThisCapsuleImage (world st) p true = (s', r) /\
          mCapsuleStatusArray st' = <[i := s']> (mCapsuleStatusArray st) /\
          evs = EvProcessThisCapsuleImage p true s' r ::
                  (if s' =? EFI_NOT_READY then [] else [OutcomeReport s']) /\
          mNeedReset st' =
            (if s' =? EFI_NOT_READY then mNeedReset st
             else mNeedReset st || r || RebootFlag (CapsuleMemory st p))
    end.

(** The calls the second loop can make. *)
Definition SweepEvent (FirstRound : bool) (st : State W) (e : Event) : Prop :=
  match e with
  | EvProcessThisCapsuleImage p w s r =>
      w = true /\ SweepVerdict FirstRound st EFI_NOT_READY p = VApply
  | EvReportStatusCode _ c => c = UpdateFirmwareFailed \/ c = UpdateFirmwareSuccess
  | _ => False
  end.

(** Where entry [j], which had status [s] and pointer [p] when the loop
    started, stands when the loop has passed it. *)
Definition IndexOutcome (FirstRound : bool) (st : State W) (s : EFI_STATUS) (p : Z)
    (final : option EFI_STATUS) (evs : list Event) : Prop :=
  match SweepVerdict FirstRound st s p with
  | VSkip | VDefer => final = Some s
  | VAbort => final = Some EFI_ABORTED
  | VApply => exists s' r, In (EvProcessThisCapsuleImage p true s' r) evs /\ final = Some s'
  end.

(** The effect of the iterations [lo <= Index < hi] of the second loop. *)
Record SweepEffect (FirstRound : bool) (lo hi : nat) (st st' : State W)
    (evs : list Event) : Prop := mkSweepEffect {
  sweep_outside : forall j, (j < lo \/ hi <= j)%nat ->
      mCapsuleStatusArray st' !! j = mCapsuleStatusArray st !! j;
  sweep_reset : mNeedReset st' = mNeedReset st || existsb (ResetDemand st) evs;
  sweep_events : Forall (SweepEvent FirstRound st) evs;
  sweep_inside : forall j s p, (lo <= j < hi)%nat ->
      mCapsuleStatusArray st !! j = Some s -> mCapsulePtr st !! j = Some p ->
      IndexOutcome FirstRound st s p (mCapsuleStatusArray st' !! j) evs
}.

(** *** The Windows UX capsule *)

(** Entry [i], with pointer [p], is the first one in discovery order
    whose GUID is [gWindowsUxCapsuleGuid]. *)
Definition FirstUxCapsule (st : State W) (i : nat) (p : Z) : Prop :=
  mCapsulePtr st !! i = Some p /\ IsUxCapsule st p = true /\
  forall j q, (j < i)%nat -> mCapsulePtr st !! j = Some q -> IsUxCapsule st q = false.

Definition NoUxCapsule (st : State W) : Prop :=
  forall j q, mCapsulePtr st !! j = Some q -> IsUxCapsule st q = false.

(** The effect of the first loop of [ProcessTheseCapsules]. *)
Definition UxEffect (st st' : State W) (evs : list Event) : Prop :=
  (NoUxCapsule st /\ evs = [] /\ mCapsuleStatusArray st' = mCapsuleStatusArray st) \/
  (exists i p s r,
      FirstUxCapsule st i p /\
      ext_ProcessThisCapsuleImage (world st) p false = (s, r) /\
      evs = [EvProcessThisCapsuleImage p false s r] /\
      mCapsuleStatusArray st' = <[i := EFI_SUCCESS]> (mCapsuleStatusArray st)).

(** *** Recorded calls *)

(** The state after the calls [evs] have been made and nothing else
    has changed. *)
Definition replay (evs : list Event) (st : State W) : State W :=
  fold_left (fun s e => record e s) evs st.

(** *** Publishing capsules in the configuration table *)

Definition Flagged (st : State W) (p : Z) : bool := PopulateFlag (CapsuleMemory st p).

Definition GuidOf (st : State W) (p : Z) : EFI_GUID := CapsuleGuid (CapsuleMemory st p).

(** The list without the later repetitions of its elements. *)
Fixpoint FirstOccurrences (l : list EFI_GUID) : list EFI_GUID :=
  match l with
  | [] => []
  | g :: rest => g :: List.filter (fun g' => negb (CompareGuid g g')) (FirstOccurrences rest)
  end.

(** The distinct GUIDs of the flagged capsules, in first-seen order. *)
Definition DistinctIdentities (st : State W) : list EFI_GUID :=
  FirstOccurrences (map (GuidOf st) (List.filter (Flagged st) (mCapsulePtr st))).

(** The flagged capsules with GUID [g], in discovery order. *)
Definition IdentityGroup (st : State W) (g : EFI_GUID) : list Z :=
  List.filter (fun p => Flagged st p && CompareGuid g (GuidOf st p)) (mCapsulePtr st).

Definition GroupTable (st : State W) (g : EFI_GUID) : EFI_CAPSULE_TABLE :=
  mkCapsuleTable (Z.of_nat (length (IdentityGroup st g))) (IdentityGroup st g).

Definition GroupTableSize (st : State W) (g : EFI_GUID) : Z :=
  16 + (Z.of_nat (length (IdentityGroup st g)) - 1) * 8.

(** Publishing one table per identity of [ids], from outside state [w]:
    the table is allocated; if that succeeds it is installed under the
    identity; in both cases publishing goes on with the next identity. *)
Fixpoint PublishEvents (st : State W) (ids : list EFI_GUID) (w : W) : list Event :=
  match ids with
  | [] => []
  | g :: rest =>
      let ok := ext_AllocatePool w RuntimePool (GroupTableSize st g) in
      let e1 := EvAllocatePool RuntimePool (GroupTableSize st g) ok in
      let w1 := env_step e1 w in
      if ok then
        let e2 := EvInstallConfigurationTable g (GroupTable st g)
                    (ext_InstallConfigurationTable w1 g (GroupTable st g)) in
        e1 :: e2 :: PublishEvents st rest (env_step e2 w1)
      else e1 :: PublishEvents st rest w1
  end.

(** The calls of the whole publishing step. *)
Definition PopulateEvents (st : State W) : list Event :=
  let Total := mCapsuleTotalNumber st in
  if Total =? 0 then []
  else
    let ok1 := ext_AllocatePool (world st) ZeroPool (8 * Total) in
    let e1 := EvAllocatePool ZeroPool (8 * Total) ok1 in
    let w1 := env_step e1 (world st) in
    if negb ok1 then [e1]
    else
      let ok2 := ext_AllocatePool w1 ZeroPool (16 * Total) in
      let e2 := EvAllocatePool ZeroPool (16 * Total) ok2 in
      let w2 := env_step e2 w1 in
      if negb ok2 then [e1; e2; EvFreePool]
      else [e1; e2] ++ PublishEvents st (DistinctIdentities st) w2
             ++ [EvFreePool; EvFreePool].

(** The tables the calls [evs] handed to [InstallConfigurationTable],
    in call order, whatever the service answered. *)
Definition Registered (evs : list Event) : list (EFI_GUID * EFI_CAPSULE_TABLE) :=
  flat_map (fun e => match e with
                     | EvInstallConfigurationTable g t _ => [(g, t)]
                     | _ => []
                     end) evs.

(** The entries the calls [evs] added to the configuration table, in
    call order: the tables of the calls of [InstallConfigurationTable]
    that did not fail. *)
Definition Installed (evs : list Event) : list (EFI_GUID * EFI_CAPSULE_TABLE) :=
  flat_map (fun e => match e with
                     | EvInstallConfigurationTable g t s =>
                         if EFI_ERROR s then [] else [(g, t)]
                     | _ => []
                     end) evs.

(** What became of each table among [evs], in call order: [false] for a
    table that could not be allocated, otherwise whether
    [InstallConfigurationTable] accepted it. *)
Definition TableOutcomes (evs : list Event) : list bool :=
  flat_map (fun e => match e with
                     | EvAllocatePool RuntimePool _ false => [false]
                     | EvInstallConfigurationTable _ _ s => [negb (EFI_ERROR s)]
                     | _ => []
                     end) evs.

(** The outcomes of the table allocations among [evs], in call order. *)
Definition TableAllocations (evs : list Event) : list bool :=
  flat_map (fun e => match e with
                     | EvAllocatePool RuntimePool _ ok => [ok]
                     | _ => []
                     end) evs.

(** The elements of [l] whose mark in [oks] is [true]. *)
Fixpoint Selected {A} (l : list A) (oks : list bool) : list A :=
  match l, oks with
  | x :: l', true :: oks' => x :: Selected l' oks'
  | _ :: l', false :: oks' => Selected l' oks'
  | _, _ => []
  end.

(** The GUID cache after the first step has scanned the GUIDs [l],
    starting from the cache [Cache]. *)
Fixpoint CollectFrom (Cache : list EFI_GUID) (l : list EFI_GUID) : list EFI_GUID :=
  match l with
  | [] => Cache
  | g :: rest =>
      if existsb (fun c => CompareGuid c g) Cache
      then CollectFrom Cache rest
      else CollectFrom (Cache ++ [g]) rest
  end.

(** The calls a publishing step is allowed to make. *)
Definition PublisherEvent (e : Event) : Prop :=
  match e with
  | EvAllocatePool _ _ _ | EvFreePool | EvInstallConfigurationTable _ _ _ => True
  | _ => False
  end.

(** *** Discovery *)

Definition IsCapsuleHob (h : EFI_HOB) : bool := HobType h =? EFI_HOB_TYPE_UEFI_CAPSULE.

Definition ValidCapsuleHob (h : EFI_HOB) : bool :=
  IsCapsuleHob h && IsValidCapsuleHeader (BaseAddress h) (Length h).

(** The capsules of the HOB list that pass [IsValidCapsuleHeader], in
    HOB order. *)
Definition DiscoveredCapsules (hobs : list EFI_HOB) : list Z :=
  map BaseAddress (List.filter ValidCapsuleHob hobs).

(** The module before the first call of [ProcessTheseCapsules]: the
    globals still hold their load-time values; the HOB list has fewer
    than [2 ^ 32] valid capsules, none of them at address zero. *)
Record boot_state (st : State W) : Prop := mkBoot {
  boot_total : mCapsuleTotalNumber st = 0;
  boot_ptr : mCapsulePtr st = [];
  boot_status : mCapsuleStatusArray st = [];
  boot_count : Z.of_nat (length (DiscoveredCapsules (HobList st))) < 2 ^ 32;
  boot_nonnull : Forall (fun p => p <> 0) (DiscoveredCapsules (HobList st))
}.

Definition AllPending (st : State W) : Prop :=
  Forall (fun s => s = EFI_NOT_READY) (mCapsuleStatusArray st).

(** The state [InitCapsulePtr] leaves behind. *)
Record Discovered (st st1 : State W) (evs : list Event) : Prop := mkDiscovered {
  disc_wf : wf st1;
  disc_pending : AllPending st1;
  disc_reset : mNeedReset st1 = mNeedReset st;
  disc_memory : CapsuleMemory st1 = CapsuleMemory st;
  disc_fmp : mFmpProgress st1 = mFmpProgress st;
  disc_trace : trace st1 = trace st ++ evs;
  disc_events : Forall PublisherEvent evs;
  disc_capsules :
    mCapsulePtr st1 = DiscoveredCapsules (HobList st) \/
    (mCapsulePtr st1 = [] /\ exists n, In (EvAllocatePool ZeroPool n false) evs);
  disc_failed :
    (exists k n, In (EvAllocatePool k n false) evs) -> mCapsuleTotalNumber st1 = 0
}.

(** *** A whole pass *)

(** Calls other than those of the image processor. *)
Definition Housekeeping (e : Event) : Prop :=
  match e with
  | EvProcessThisCapsuleImage _ _ _ _ => False
  | _ => True
  end.

(** The calls made around the two loops of a pass. *)
Definition Bookkeeping (e : Event) : Prop :=
  match e with
  | EvAllocatePool _ _ _ | EvFreePool | EvInstallConfigurationTable _ _ _
  | EvLocateEsrtManagement _ | EvSyncEsrtFmp => True
  | EvReportStatusCode _ c => c = UpdatingFirmware \/ c = ProcessCapsulesEnd
  | _ => False
  end.

(** The calls a pass can make once discovery is over: no begin report,
    no reset, nothing of the progress reporter. *)
Definition DispatchEvent (e : Event) : Prop :=
  match e with
  | EvReportStatusCode _ c => c <> ProcessCapsulesBegin /\ c <> ResettingSystem
  | EvResetSystemWithSubtype _ _ | EvSetWatchdogTimer _
  | EvDisplayUpdateProgress _ _ _ => False
  | _ => True
  end.

(** The two early returns of [ProcessTheseCapsules]: no capsule, or no
    capsule left with status [EFI_NOT_READY]. *)
Definition ShortCircuit (st : State W) : bool :=
  (mCapsuleTotalNumber st =? 0) ||
  forallb (fun s => negb (s =? EFI_NOT_READY)) (mCapsuleStatusArray st).

(** The calls of the image processor made without a [ResetRequired]
    pointer: the way the Windows UX capsule is processed. *)
Definition UxCalls (evs : list Event) : list Event :=
  List.filter (fun e => match e with
                        | EvProcessThisCapsuleImage _ false _ _ => true
                        | _ => false
                        end) evs.

(** The effect of the part of a pass that follows the early returns,
    from the state [st1] in which discovery left the module. *)
Record PassEffect (FirstRound : bool) (st1 st' : State W) (evs : list Event) : Prop :=
  mkPassEffect {
  pass_same : same_capsules st1 st';
  pass_trace : trace st' = trace st1 ++ evs;
  pass_reset : mNeedReset st' = mNeedReset st1 || existsb (ResetDemand st1) evs;
  pass_applied : forall p w s r,
      In (EvProcessThisCapsuleImage p w s r) evs ->
      (w = false /\ exists i, FirstUxCapsule st1 i p) \/
      (w = true /\ SweepVerdict FirstRound st1 EFI_NOT_READY p = VApply);
  pass_ux : forall i p,
      FirstUxCapsule st1 i p ->
      mCapsuleStatusArray st' !! i = Some EFI_SUCCESS /\
      exists s r, UxCalls evs = [EvProcessThisCapsuleImage p false s r];
  pass_no_ux : NoUxCapsule st1 -> UxCalls evs = [];
  pass_other : forall i s p,
      mCapsuleStatusArray st1 !! i = Some s -> mCapsulePtr st1 !! i = Some p ->
      ~ FirstUxCapsule st1 i p ->
      IndexOutcome FirstRound st1 s p (mCapsuleStatusArray st' !! i) evs;
  pass_events : Forall DispatchEvent evs
}.

(** The states a pass is started from: the boot state on the first
    round, any well-formed state on a later round. *)
Definition PassStart (FirstRound : bool) (st : State W) : Prop :=
  if FirstRound then boot_state st else wf st.

(** One run of [ProcessTheseCapsules] from [st]: discovery leaves the
    module in [st1], the function returns [EFI_SUCCESS] in [st'], having
    made the calls [new], of which [evs] came after discovery. *)
Record PassRun (FirstRound : bool) (st st1 st' : State W) (new evs : list Event)
  : Prop := mkPassRun {
  run_discover : DiscoverCapsules FirstRound st = Ok tt st1;
  run_return : ProcessTheseCapsules FirstRound st = Ok EFI_SUCCESS st';
  run_wf : wf st1;
  run_wf_final : wf st';
  run_trace : trace st' = trace st ++ new;
  run_split : exists evsD,
      new = (EvReportStatusCode EFI_PROGRESS_CODE ProcessCapsulesBegin :: evsD) ++ evs /\
      trace st1 = trace st ++ EvReportStatusCode EFI_PROGRESS_CODE ProcessCapsulesBegin :: evsD /\
      Forall PublisherEvent evsD /\
      ((exists k n, In (EvAllocatePool k n false) evsD) -> mCapsuleTotalNumber st1 = 0);
  run_reset : mNeedReset st1 = mNeedReset st;
  run_memory : CapsuleMemory st1 = CapsuleMemory st;
  run_first : FirstRound = true -> AllPending st1;
  run_later : FirstRound = false ->
      mCapsulePtr st1 = mCapsulePtr st /\
      mCapsuleStatusArray st1 = mCapsuleStatusArray st;
  run_effect :
    if ShortCircuit st1 then st' = st1 /\ evs = []
    else PassEffect FirstRound st1 st' evs
}.

(** *** The progress reporter *)

Definition ProgressSeconds (st : State W) : Z :=
  match mFmpProgress st with
  | Some p => WatchdogSeconds p
  | None => 5 * 60
  end.

Definition ProgressColor (st : State W) : option Z :=
  match mFmpProgress st with
  | Some p => Some (ProgressBarForegroundColor p)
  | None => None
  end.

(** The calls of an accepted progress report: the watchdog calls [wd],
    then the display call, whose result is returned. *)
Definition ReportOutcome (wd : list Event) (Completion : Z) (Color : option Z)
    (st : State W) : Result W EFI_STATUS :=
  let st1 := replay wd st in
  let Status := ext_DisplayUpdateProgress (world st1) Completion Color in
  Ok Status (replay [EvDisplayUpdateProgress Completion Color Status] st1).

(** The progress report as the specification words it: above 100 an
    error and nothing else; otherwise the watchdog is disarmed, re-armed
    unless the percentage is 100, and the display is called. *)
Definition ReportAsSpecified (Completion : Z) (st : State W) : Prop :=
  UpdateImageProgress Completion st =
  if 100 <? Completion then Ok EFI_INVALID_PARAMETER st
  else ReportOutcome
         (EvSetWatchdogTimer 0 ::
          (if Completion =? 100 then [] else [EvSetWatchdogTimer (ProgressSeconds st)]))
         Completion (ProgressColor st) st.

(** The module at a later call of [ProcessTheseCapsules]: the capsule
    arrays and the capsule images are as [st'] left them; the outside
    state, the trace and the reset flag may have changed. *)
Record Later (st' st2 : State W) : Prop := mkLater {
  later_wf : wf st2;
  later_ptr : mCapsulePtr st2 = mCapsulePtr st';
  later_status : mCapsuleStatusArray st2 = mCapsuleStatusArray st';
  later_memory : CapsuleMemory st2 = CapsuleMemory st'
}.

(** *** The return value of a pass, as the specification words it *)

Definition AllocationFailed (e : Event) : bool :=
  match e with
  | EvAllocatePool _ _ false => true
  | _ => false
  end.

(** "Return success unless a resource-allocation failure occurred
    during discovery (propagated as [EFI_OUT_OF_RESOURCES])". *)
Definition ReturnAsSpecified (FirstRound : bool) (st : State W) : Prop :=
  forall r st' st1 evsD,
    ProcessTheseCapsules FirstRound st = Ok r st' ->
    DiscoverCapsules FirstRound st = Ok tt st1 ->
    trace st1 = trace st ++ evsD ->
    r = if existsb AllocationFailed evsD then EFI_OUT_OF_RESOURCES else EFI_SUCCESS.

(** *** The reset flag, as the specification words it *)

(** A reset hint returned by the image processor with a terminal result. *)
Definition TerminalResetHint (e : Event) : bool :=
  match e with
  | EvProcessThisCapsuleImage _ true s r => negb (s =? EFI_NOT_READY) && r
  | _ => false
  end.

(** "The logical OR of all terminal-outcome reset hints and all
    [AlwaysReset]-flagged capsules' flags across the pass". *)
Definition ResetFlagAsSpecified (FirstRound : bool) (st : State W) : Prop :=
  forall r st1 st' new,
    DiscoverCapsules FirstRound st = Ok tt st1 ->
    ProcessTheseCapsules FirstRound st = Ok r st' ->
    trace st' = trace st ++ new ->
    mNeedReset st' =
    mNeedReset st || existsb TerminalResetHint new ||
    existsb (fun p => RebootFlag (CapsuleMemory st p)) (mCapsulePtr st1).

(** *** The Windows UX capsule, as the specification words it *)

(** "In every pass over a non-empty sequence, the first capsule with
    the display identity has the apply delegate invoked for it and its
    status set to Succeeded". *)
Definition UxAsSpecified (FirstRound : bool) (st : State W) : Prop :=
  forall st1 i p,
    DiscoverCapsules FirstRound st = Ok tt st1 ->
    mCapsuleTotalNumber st1 <> 0 ->
    FirstUxCapsule st1 i p ->
    exists st' new s r,
      ProcessTheseCapsules FirstRound st = Ok EFI_SUCCESS st' /\
      trace st' = trace st ++ new /\
      mCapsuleStatusArray st' !! i = Some EFI_SUCCESS /\
      UxCalls new = [EvProcessThisCapsuleImage p false s r].

(** *** Status accounting *)





(** *** The published tables, as the specification words them *)

(** Both scratch caches of the publisher get allocated. *)
Definition ScratchAllocated (st : State W) : bool :=
  let Total := mCapsuleTotalNumber st in
  ext_AllocatePool (world st) ZeroPool (8 * Total) &&
  ext_AllocatePool
    (env_step (EvAllocatePool ZeroPool (8 * Total) true) (world st))
    ZeroPool (16 * Total).

(** One table is allocated per distinct identity, in first-seen order,
    and the identities whose table was allocated are registered, each
    with the table of its group. *)
Definition PublishedGroups (st : State W) (evs : list Event) : Prop :=
  length (TableAllocations evs) = length (DistinctIdentities st) /\
  Registered evs =
  map (fun g => (g, GroupTable st g))
      (Selected (DistinctIdentities st) (TableAllocations evs)).

(** The configuration table gets an entry for exactly the identities
    whose table was allocated and accepted by
    [InstallConfigurationTable], each with the table of its group. *)
Definition InstalledGroups (st : State W) (evs : list Event) : Prop :=
  length (TableOutcomes evs) = length (DistinctIdentities st) /\
  Installed evs =
  map (fun g => (g, GroupTable st g))
      (Selected (DistinctIdentities st) (TableOutcomes evs)).

(** "The published table contains exactly one entry per distinct
    identity [...]; if allocation for one identity's array fails only
    that entry is skipped". *)
Definition PublishedAsSpecified (st : State W) : Prop :=
  forall st' evs,
    PopulateCapsuleInConfigurationTable st = Ok tt st' ->
    trace st' = trace st ++ evs ->
    PublishedGroups st evs.

(** Entry [i], with capsule pointer [p], is one that the second loop of
    [ProcessTheseCapsules] hands to [IsFmpCapsule]: its status is
    [EFI_NOT_READY] when discovery is over, and its GUID is not the
    Windows UX GUID. *)
Record HandledBySweep (st1 : State W) (i : nat) (p : Z) : Prop := mkHandled {
  handled_ptr : mCapsulePtr st1 !! i = Some p;
  handled_pending : mCapsuleStatusArray st1 !! i = Some EFI_NOT_READY;
  handled_not_ux : IsUxCapsule st1 p = false
}.

End Vocabulary.

(** * Sample platforms and capsule sets *)

(** A platform described by tables. The outside state counts the pool
    allocations made so far, so that a scenario can let a chosen
    allocation fail. *)
Record Scenario : Type := mkScenario {
  sc_fmp : Z -> bool;
  sc_validate : Z -> EFI_STATUS * Z;
  sc_apply : Z -> bool -> EFI_STATUS * bool;
  sc_alloc : nat -> bool
}.

Definition SampleUxGuid : EFI_GUID := mkGuid 0x3b8c8162 0x188c 0x46a4 0xaec9be43f1d65697.
Definition SampleResetGuid : EFI_GUID := mkGuid 0x5d512714 0xa4df 0x4e46 0xb6c7bc9f979d59a0.
Definition GuidA : EFI_GUID := mkGuid 0xA 0 0 0.
Definition GuidB : EFI_GUID := mkGuid 0xB 0 0 0.

Definition ScenarioPlatform (sc : Scenario) : Platform nat := {|
  gWindowsUxCapsuleGuid := SampleUxGuid;
  gCapsuleUpdateCompleteResetGuid := SampleResetGuid;
  PcdSystemRebootAfterCapsuleProcessFlag := 0x0001;
  PcdCapsuleUpdateWatchdogTimeInSeconds := 60;
  IsValidCapsuleHeader := fun _ _ => true;
  IsFmpCapsule := sc_fmp sc;
  ValidateFmpCapsule := sc_validate sc;
  ext_ProcessThisCapsuleImage := fun _ p w => sc_apply sc p w;
  ext_AllocatePool := fun n _ _ => sc_alloc sc n;
  ext_InstallConfigurationTable := fun _ _ _ => EFI_SUCCESS;
  ext_LocateEsrtManagement := fun _ => EFI_SUCCESS;
  ext_DisplayUpdateProgress := fun _ _ _ => EFI_SUCCESS;
  env_step := fun e n => match e with EvAllocatePool _ _ _ => S n | _ => n end
|}.

(** Every capsule is a valid firmware-management capsule without
    embedded drivers, every update succeeds without asking for a reset,
    every allocation succeeds. *)
Definition Plain : Scenario :=
  mkScenario (fun _ => true) (fun _ => (EFI_SUCCESS, 0))
    (fun _ _ => (EFI_SUCCESS, false)) (fun _ => true).

(** Capsule images: a Windows UX capsule at [0x1000] and at [0x6000];
    two capsules of [GuidA] and one of [GuidB], all three to be
    published, at [0x2000], [0x3000], [0x4000]; an unflagged capsule of
    [GuidB] at [0x5000]; a capsule of [GuidA] with the reboot flag at
    [0x7000]. *)
Definition SampleMemory (p : Z) : EFI_CAPSULE_HEADER :=
  if p =? 0x1000 then mkCapsuleHeader SampleUxGuid 28 0 4096
  else if p =? 0x6000 then mkCapsuleHeader SampleUxGuid 28 0 4096
  else if p =? 0x2000 then mkCapsuleHeader GuidA 28 CAPSULE_FLAGS_POPULATE_SYSTEM_TABLE 4096
  else if p =? 0x3000 then mkCapsuleHeader GuidA 28 CAPSULE_FLAGS_POPULATE_SYSTEM_TABLE 4096
  else if p =? 0x4000 then mkCapsuleHeader GuidB 28 CAPSULE_FLAGS_POPULATE_SYSTEM_TABLE 4096
  else if p =? 0x7000 then mkCapsuleHeader GuidA 28 0x0001 4096
  else mkCapsuleHeader GuidB 28 0 4096.

Definition CapsuleHobAt (p : Z) : EFI_HOB := mkHob EFI_HOB_TYPE_UEFI_CAPSULE p 4096.

(** The module at boot, with capsule HOBs for the given addresses. *)
Definition BootWith (ptrs : list Z) : State nat :=
  mkState false [] [] 0 None (map CapsuleHobAt ptrs) SampleMemory O [].

(** The module between passes, with the given capsules and statuses. *)
Definition Between (ptrs : list Z) (statuses : list EFI_STATUS) : State nat :=
  mkState false ptrs statuses (Z.of_nat (length ptrs)) None
    (map CapsuleHobAt ptrs) SampleMemory O [].

(** The progress protocol of a platform that wants no watchdog. *)
Definition NoWatchdogProgress : EDKII_FIRMWARE_MANAGEMENT_PROGRESS_PROTOCOL :=
  mkFmpProgress 0 0x00FF00.

Definition WithProgress (fmp : EDKII_FIRMWARE_MANAGEMENT_PROGRESS_PROTOCOL)
    (st : State nat) : State nat :=
  mkState (mNeedReset st) (mCapsulePtr st) (mCapsuleStatusArray st)
    (mCapsuleTotalNumber st) (Some fmp) (HobList st) (CapsuleMemory st)
    (world st) (trace st).

(** The capsule at [0x5000] is not a firmware-management capsule, the
    one at [0x4000] fails validation, the one at [0x3000] embeds two
    drivers; the Windows UX capsule cannot be displayed. *)
Definition Mixed : Scenario :=
  mkScenario
    (fun p => negb (p =? 0x5000))
    (fun p => if p =? 0x3000 then (EFI_SUCCESS, 2)
              else if p =? 0x4000 then (EFI_INVALID_PARAMETER, 0)
              else (EFI_SUCCESS, 0))
    (fun p _ => if p =? 0x1000 then (EFI_UNSUPPORTED, false)
                else if p =? 0x7000 then (EFI_NOT_READY, false)
                else (EFI_SUCCESS, true))
    (fun _ => true).

(** The state in which a computation leaves the module. *)
Definition StateOf {A} (r : Result nat A) (default : State nat) : State nat :=
  match r with
  | Ok _ s => s
  | Fault => default
  | NoReturn s => s
  end.

(** The three capsules of the scenario of the specification: one of an
    unsupported shape, one without and one with embedded drivers. *)
Definition ThreeCapsules : State nat := BootWith [0x5000; 0x2000; 0x3000].

Definition ThreeCapsulesDiscovered : State nat :=
  StateOf (DiscoverCapsules (PF := ScenarioPlatform Mixed) true ThreeCapsules) ThreeCapsules.

(** No pool allocation succeeds. *)
Definition NoMemory : Scenario :=
  mkScenario (fun _ => true) (fun _ => (EFI_SUCCESS, 0))
    (fun _ _ => (EFI_SUCCESS, false)) (fun _ => false).

Definition OneCapsule : State nat := BootWith [0x2000].

(** No capsule is a firmware-management capsule. *)
Definition Unsupported : Scenario :=
  mkScenario (fun _ => false) (fun _ => (EFI_SUCCESS, 0))
    (fun _ _ => (EFI_SUCCESS, false)) (fun _ => true).

(** One capsule, carrying the reboot flag. *)
Definition FlaggedCapsule : State nat := BootWith [0x7000].

(** The module after a first round over one Windows UX capsule. *)
Definition UxAlreadyProcessed : State nat :=
  StateOf (ProcessTheseCapsules (PF := ScenarioPlatform Plain) true (BootWith [0x1000]))
    (BootWith [0x1000]).

(** A firmware-management capsule followed by two Windows UX capsules. *)
Definition TwoUxCapsules : State nat := BootWith [0x2000; 0x1000; 0x6000].

Definition TwoUxCapsulesDiscovered : State nat :=
  StateOf (DiscoverCapsules (PF := ScenarioPlatform Mixed) true TwoUxCapsules) TwoUxCapsules.

(** The first pool allocation fails, the later ones succeed. *)
Definition NoScratch : Scenario :=
  mkScenario (fun _ => true) (fun _ => (EFI_SUCCESS, 0))
    (fun _ _ => (EFI_SUCCESS, false)) (fun n => negb (Nat.eqb n 0)).

(** The capsules of the publishing example of the specification: two
    flagged capsules of one identity, a flagged capsule of another, and
    an unflagged capsule. *)
Definition PersistedCapsules : State nat :=
  Between [0x2000; 0x3000; 0x4000; 0x5000]
    [EFI_NOT_READY; EFI_NOT_READY; EFI_NOT_READY; EFI_NOT_READY].

(** * Further vocabulary: HOB marking, call sequences, pool accounting *)

Section MoreVocabulary.
Context {W : Type} {PF : Platform W}.

(** *** Discovery *)

(** What the first walk of [InitCapsulePtr] makes of one HOB: a capsule
    HOB whose header is not valid is retyped [EFI_HOB_TYPE_UNUSED]. *)
Definition MarkHob (h : EFI_HOB) : EFI_HOB :=
  if IsCapsuleHob h && negb (IsValidCapsuleHeader (BaseAddress h) (Length h))
  then mkHob EFI_HOB_TYPE_UNUSED (BaseAddress h) (Length h)
  else h.

(** *** Pool accounting *)

(** The zero-pool buffers obtained by the calls [evs]. *)
Definition ScratchAllocations (evs : list Event) : nat :=
  length (List.filter (fun e => match e with
                                | EvAllocatePool ZeroPool _ true => true
                                | _ => false
                                end) evs).

(** The runtime-pool buffers obtained by the calls [evs]. *)
Definition RuntimeAllocations (evs : list Event) : nat :=
  length (List.filter (fun e => match e with
                                | EvAllocatePool RuntimePool _ true => true
                                | _ => false
                                end) evs).

Definition Frees (evs : list Event) : nat :=
  length (List.filter (fun e => match e with
                                | EvFreePool => true
                                | _ => false
                                end) evs).

(** *** The published tables *)

(** A call of [InstallConfigurationTable] that failed. *)
Definition InstallFailed (e : Event) : bool :=
  match e with
  | EvInstallConfigurationTable _ _ s => EFI_ERROR s
  | _ => false
  end.

(** The capsule pointers of all entries that [evs] added to the
    configuration table. *)
Definition PublishedCapsules (evs : list Event) : list Z :=
  concat (map (fun gt => CapsulePtr (snd gt)) (Installed evs)).

(** The calls [evs] added an entry for the GUID [g]. *)
Definition PublishedGuid (evs : list Event) (g : EFI_GUID) : bool :=
  existsb (fun gt => CompareGuid (fst gt) g) (Installed evs).

(** *** The calls of the image processor *)

(** The capsules the image processor is called for, in call order, each
    with the flag that tells whether a [ResetRequired] pointer was
    passed. *)
Definition ProcessorCalls (evs : list Event) : list (Z * bool) :=
  flat_map (fun e => match e with
                     | EvProcessThisCapsuleImage p w _ _ => [(p, w)]
                     | _ => []
                     end) evs.

(** The capsule the first loop of [ProcessTheseCapsules] stops at. *)
Definition UxTarget (st : State W) : list Z :=
  match List.find (IsUxCapsule st) (mCapsulePtr st) with
  | Some p => [p]
  | None => []
  end.

(** The capsules the second loop applies, in index order, given the
    status and the pointer of every entry. *)
Fixpoint SweepTargets (FirstRound : bool) (st : State W)
    (statuses : list EFI_STATUS) (ptrs : list Z) : list Z :=
  match statuses, ptrs with
  | s :: statuses', p :: ptrs' =>
      match SweepVerdict FirstRound st s p with
      | VApply => p :: SweepTargets FirstRound st statuses' ptrs'
      | _ => SweepTargets FirstRound st statuses' ptrs'
      end
  | _, _ => []
  end.

(** The calls of the image processor in a pass that finds the module in
    [st1] after discovery. *)
Definition ExpectedCalls (FirstRound : bool) (st1 : State W) : list (Z * bool) :=
  if ShortCircuit st1 then []
  else map (fun p => (p, false)) (UxTarget st1) ++
       map (fun p => (p, true))
         (SweepTargets FirstRound st1 (mCapsuleStatusArray st1) (mCapsulePtr st1)).

(** *** Outcome reports *)

Definition IsOutcomeReport (e : Event) : bool :=
  match e with
  | EvReportStatusCode _ UpdateFirmwareFailed
  | EvReportStatusCode _ UpdateFirmwareSuccess => true
  | _ => false
  end.

(** The update-failed and update-success status codes among [evs]. *)
Definition OutcomeReports (evs : list Event) : list Event :=
  List.filter IsOutcomeReport evs.

(** The results other than [EFI_NOT_READY] of the calls made with a
    [ResetRequired] pointer, in call order. *)
Definition TerminalResults (evs : list Event) : list EFI_STATUS :=
  flat_map (fun e => match e with
                     | EvProcessThisCapsuleImage _ true s _ =>
                         if s =? EFI_NOT_READY then [] else [s]
                     | _ => []
                     end) evs.

(** *** The phases of a pass *)

(** The calls of the processing phase: the image processor and the
    outcome reports. *)
Definition ProcessingEvent (e : Event) : Prop :=
  match e with
  | EvProcessThisCapsuleImage _ _ _ _ => True
  | EvReportStatusCode _ c => c = UpdateFirmwareFailed \/ c = UpdateFirmwareSuccess
  | _ => False
  end.

(** The ESRT step: the protocol is looked up, and [SyncEsrtFmp] is
    called when the lookup succeeded. *)
Definition EsrtSync (Status : EFI_STATUS) : list Event :=
  EvLocateEsrtManagement Status :: (if EFI_ERROR Status then [] else [EvSyncEsrtFmp]).

(** The calls of a pass after the begin report: the allocations [evsD]
    of discovery; then, unless the pass returns early, the publishing
    calls [evsP], the updating-firmware report, the processing calls
    [mid], the ESRT step and the end report. *)
Definition PassCalls (Short : bool) (evsD evsP mid : list Event) (Status : EFI_STATUS)
  : list Event :=
  evsD ++
  (if Short then []
   else evsP ++ EvReportStatusCode EFI_PROGRESS_CODE UpdatingFirmware :: mid ++
        EsrtSync Status ++ [EvReportStatusCode EFI_PROGRESS_CODE ProcessCapsulesEnd]).

(** No entry is [EFI_NOT_READY]. *)
Definition AllTerminal (st : State W) : Prop :=
  forall i s, mCapsuleStatusArray st !! i = Some s -> s <> EFI_NOT_READY.

(** No call of [evs] was answered [EFI_NOT_READY]. *)
Definition NoNotReady (evs : list Event) : Prop :=
  forall p w r, ~ In (EvProcessThisCapsuleImage p w EFI_NOT_READY r) evs.

(** *** The progress reporters *)

(** The argument of [Update_Image_Progress] for a percentage and a
    colour: the percentage in the low byte, the colour above it. *)
Definition PackProgress (Percentage Color : Z) : Z :=
  Z.lor (Z.shiftl Color 8) Percentage.

End MoreVocabulary.

(** * Further sample platforms and states *)

(** A capsule header is valid when the capsule is as long as its header
    says and the header fits in it. *)
Definition SampleHeaderCheck (p CapsuleSize : Z) : bool :=
  (CapsuleImageSize (SampleMemory p) =? CapsuleSize) &&
  (HeaderSize (SampleMemory p) <=? CapsuleSize).

(** The platform of a scenario, with the header check above. *)
Definition CheckedPlatform (sc : Scenario) : Platform nat := {|
  gWindowsUxCapsuleGuid := SampleUxGuid;
  gCapsuleUpdateCompleteResetGuid := SampleResetGuid;
  PcdSystemRebootAfterCapsuleProcessFlag := 0x0001;
  PcdCapsuleUpdateWatchdogTimeInSeconds := 60;
  IsValidCapsuleHeader := SampleHeaderCheck;
  IsFmpCapsule := sc_fmp sc;
  ValidateFmpCapsule := sc_validate sc;
  ext_ProcessThisCapsuleImage := fun _ p w => sc_apply sc p w;
  ext_AllocatePool := fun n _ _ => sc_alloc sc n;
  ext_InstallConfigurationTable := fun _ _ _ => EFI_SUCCESS;
  ext_LocateEsrtManagement := fun _ => EFI_SUCCESS;
  ext_DisplayUpdateProgress := fun _ _ _ => EFI_SUCCESS;
  env_step := fun e n => match e with EvAllocatePool _ _ _ => S n | _ => n end
|}.

(** A HOB list with a capsule, a truncated capsule, a HOB of another
    type and a second capsule. *)
Definition MixedHobs : list EFI_HOB :=
  [CapsuleHobAt 0x2000; mkHob EFI_HOB_TYPE_UEFI_CAPSULE 0x3000 100;
   mkHob 0x0001 0 56; CapsuleHobAt 0x4000].

Definition BootWithHobs (hobs : list EFI_HOB) : State nat :=
  mkState false [] [] 0 None hobs SampleMemory O [].

(** The module at boot without any capsule HOB. *)
Definition NoCapsule : State nat := BootWithHobs [mkHob 0x0001 0 56].

(** The module after a first round over the three capsules. *)
Definition ThreeCapsulesProcessed : State nat :=
  StateOf (ProcessTheseCapsules (PF := ScenarioPlatform Mixed) true ThreeCapsules)
    ThreeCapsules.

(** A progress protocol with the watchdog timeout of the sample
    platforms and a green bar. *)
Definition GreenProgress : EDKII_FIRMWARE_MANAGEMENT_PROGRESS_PROTOCOL :=
  mkFmpProgress 60 0x00FF00.

(** The second pool allocation fails, the others succeed. *)
Definition NoSecondScratch : Scenario :=
  mkScenario (fun _ => true) (fun _ => (EFI_SUCCESS, 0))
    (fun _ _ => (EFI_SUCCESS, false)) (fun n => negb (Nat.eqb n 1)).

(** The platform of the plain scenario, except that the configuration
    table cannot take an entry for [GuidA]. *)
Definition NoRoomForGuidA : Platform nat := {|
  gWindowsUxCapsuleGuid := SampleUxGuid;
  gCapsuleUpdateCompleteResetGuid := SampleResetGuid;
  PcdSystemRebootAfterCapsuleProcessFlag := 0x0001;
  PcdCapsuleUpdateWatchdogTimeInSeconds := 60;
  IsValidCapsuleHeader := fun _ _ => true;
  IsFmpCapsule := fun _ => true;
  ValidateFmpCapsule := fun _ => (EFI_SUCCESS, 0);
  ext_ProcessThisCapsuleImage := fun _ _ _ => (EFI_SUCCESS, false);
  ext_AllocatePool := fun _ _ _ => true;
  ext_InstallConfigurationTable :=
    fun _ g _ => if CompareGuid g GuidA then EFI_OUT_OF_RESOURCES else EFI_SUCCESS;
  ext_LocateEsrtManagement := fun _ => EFI_SUCCESS;
  ext_DisplayUpdateProgress := fun _ _ _ => EFI_SUCCESS;
  env_step := fun e n => match e with EvAllocatePool _ _ _ => S n | _ => n end
|}.

(** A progress protocol whose colour has its reserved byte set. *)
Definition OpaqueGreenProgress : EDKII_FIRMWARE_MANAGEMENT_PROGRESS_PROTOCOL :=
  mkFmpProgress 60 0xFF00FF00.
(** * Verification *)

(** ** Facts about the base types *)

Lemma CompareGuid_eq (a b : EFI_GUID) : CompareGuid a b = true <-> a = b.
Proof.
  unfold CompareGuid. split.
  - intros Hc. apply andb_prop in Hc as [Hc H4]. apply andb_prop in Hc as [Hc H3].
    apply andb_prop in Hc as [H1 H2].
    apply Z.eqb_eq in H1, H2, H3, H4.
    destruct a, b; simpl in *; congruence.
  - intros ->. rewrite !Z.eqb_refl. reflexivity.
Qed.

Lemma CompareGuid_refl (a : EFI_GUID) : CompareGuid a a = true.
Proof. apply CompareGuid_eq. reflexivity. Qed.

Lemma EFI_ABORTED_not_pending : (EFI_ABORTED =? EFI_NOT_READY) = false.
Proof. reflexivity. Qed.

Lemma EFI_SUCCESS_not_pending : (EFI_SUCCESS =? EFI_NOT_READY) = false.
Proof. reflexivity. Qed.

(** ** Weakest preconditions for the monad *)

Ltac state_simpl :=
  cbv beta iota delta
    [set_mNeedReset set_mCapsulePtr set_mCapsuleStatusArray
     set_mCapsuleTotalNumber set_HobList record] in *;
  cbn [mNeedReset mCapsulePtr mCapsuleStatusArray mCapsuleTotalNumber mFmpProgress
       HobList CapsuleMemory world trace] in *.

Ltac monad_unfold :=
  cbv beta iota zeta delta
    [bind gets ret modify emit AllocatePool FreePool REPORT_STATUS_CODE
     SetWatchdogTimer SyncEsrtFmp ResetSystemWithSubtype].

Section Logic.
Context {W : Type} {PF : Platform W}.

Lemma wp_ok {A} (m : M W A) Q st :
  wp m Q st <-> exists a st', m st = Ok a st' /\ Q a st'.
Proof.
  unfold wp. split.
  - destruct (m st) as [a st'| |st']; intros HQ; try contradiction. eauto.
  - intros (a & st' & -> & HQ). exact HQ.
Qed.

Lemma wp_bind {A B} (m : M W A) (f : A -> M W B) Q st :
  wp m (fun a st' => wp (f a) Q st') st -> wp (bind m f) Q st.
Proof.
  unfold wp, bind. destruct (m st) as [a st'| |st']; auto.
Qed.

Lemma wp_mono {A} (m : M W A) (Q Q' : A -> State W -> Prop) st :
  (forall a st', Q a st' -> Q' a st') -> wp m Q st -> wp m Q' st.
Proof.
  unfold wp. intros HQ. destruct (m st) as [a st'| |st']; auto.
Qed.

Lemma wp_ret {A} (a : A) (Q : A -> State W -> Prop) st : Q a st -> wp (ret a) Q st.
Proof. auto. Qed.

Lemma wp_gets {A} (f : State W -> A) (Q : A -> State W -> Prop) st :
  Q (f st) st -> wp (gets f) Q st.
Proof. auto. Qed.

Lemma wp_modify (f : State W -> State W) (Q : unit -> State W -> Prop) st :
  Q tt (f st) -> wp (modify f) Q st.
Proof. auto. Qed.

Lemma wp_emit (e : Event) (Q : unit -> State W -> Prop) st :
  Q tt (record e st) -> wp (emit e) Q st.
Proof. auto. Qed.

Lemma wp_AllocatePool Kind Size (Q : bool -> State W -> Prop) st :
  Q (ext_AllocatePool (world st) Kind Size)
    (record (EvAllocatePool Kind Size (ext_AllocatePool (world st) Kind Size)) st) ->
  wp (AllocatePool Kind Size) Q st.
Proof. auto. Qed.

Lemma wp_ReadStatus Index s (Q : EFI_STATUS -> State W -> Prop) st :
  mCapsuleStatusArray st !! Index = Some s -> Q s st -> wp (ReadStatus Index) Q st.
Proof. unfold wp, ReadStatus. intros ->. auto. Qed.

Lemma wp_ReadCapsulePtr Index p (Q : Z -> State W -> Prop) st :
  mCapsulePtr st !! Index = Some p -> Q p st -> wp (ReadCapsulePtr Index) Q st.
Proof. unfold wp, ReadCapsulePtr. intros ->. auto. Qed.

Lemma wp_Deref p (Q : EFI_CAPSULE_HEADER -> State W -> Prop) st :
  p <> 0 -> Q (CapsuleMemory st p) st -> wp (Deref p) Q st.
Proof.
  unfold wp, Deref. intros Hp HQ.
  destruct (Z.eqb_spec p 0); [contradiction | exact HQ].
Qed.

Lemma wp_WriteStatus Index v (Q : unit -> State W -> Prop) st :
  (Index < length (mCapsuleStatusArray st))%nat ->
  Q tt (set_mCapsuleStatusArray (<[Index := v]> (mCapsuleStatusArray st)) st) ->
  wp (WriteStatus Index v) Q st.
Proof.
  unfold wp, WriteStatus. intros Hi HQ.
  destruct (Nat.ltb_spec Index (length (mCapsuleStatusArray st))); [exact HQ | lia].
Qed.

(** ** Well-formed module states *)

Lemma same_capsules_refl (st : State W) : same_capsules st st.
Proof. split; reflexivity. Qed.

Lemma same_capsules_trans (st1 st2 st3 : State W) :
  same_capsules st1 st2 -> same_capsules st2 st3 -> same_capsules st1 st3.
Proof. intros [] []. split; congruence. Qed.

Lemma same_capsules_wf (st st' : State W) : same_capsules st st' -> wf st -> wf st'.
Proof.
  intros [] []. split.
  - congruence.
  - congruence.
  - congruence.
Qed.

Lemma same_capsules_record e (st : State W) : same_capsules st (record e st).
Proof. split; reflexivity. Qed.

Lemma wf_ptr_lookup (st : State W) i p : wf st -> mCapsulePtr st !! i = Some p -> p <> 0.
Proof.
  intros Hwf Hp. eapply (proj1 (Forall_lookup _ _) (wf_ptr_nonnull _ Hwf)); eauto.
Qed.

Lemma wf_lookup (st : State W) i :
  wf st -> (i < length (mCapsulePtr st))%nat ->
  exists s p, mCapsuleStatusArray st !! i = Some s /\ mCapsulePtr st !! i = Some p /\ p <> 0.
Proof.
  intros Hwf Hi.
  destruct (lookup_lt_is_Some_2 (mCapsulePtr st) i Hi) as [p Hp].
  assert (Hi' : (i < length (mCapsuleStatusArray st))%nat)
    by (rewrite (wf_status_length _ Hwf); exact Hi).
  destruct (lookup_lt_is_Some_2 (mCapsuleStatusArray st) i Hi') as [s Hs].
  exists s, p. repeat split; auto. eapply wf_ptr_lookup; eauto.
Qed.

End Logic.

(** ** The general sweep *)

Section Sweep.
Context {W : Type} {PF : Platform W}.

Lemma SweepVerdict_same (FirstRound : bool) (st st' : State W) s p :
  CapsuleMemory st' = CapsuleMemory st ->
  SweepVerdict FirstRound st' s p = SweepVerdict FirstRound st s p.
Proof. intros Hm. unfold SweepVerdict, IsUxCapsule. rewrite Hm. reflexivity. Qed.

(** One iteration of the second loop. *)
Lemma ProcessOneCapsule_spec (FirstRound : bool) (i : nat) (st : State W) :
  wf st -> (i < length (mCapsulePtr st))%nat ->
  wp (ProcessOneCapsule FirstRound i)
     (fun _ st' => exists evs,
        same_capsules st st' /\ trace st' = trace st ++ evs /\
        StepEffect FirstRound i st st' evs) st.
Proof.
  intros Hwf Hi.
  destruct (wf_lookup st i Hwf Hi) as (s & p & Hs & Hp & Hnz).
  assert (Hi' : (i < length (mCapsuleStatusArray st))%nat)
    by (rewrite (wf_status_length _ Hwf); exact Hi).
  unfold ProcessOneCapsule.
  apply wp_bind. eapply wp_ReadStatus; [exact Hs|].
  unfold StepEffect, SweepVerdict, IsUxCapsule.
  destruct (negb (s =? EFI_NOT_READY)) eqn:Hpend.
  { apply wp_ret. exists []. split; [apply same_capsules_refl|].
    split; [symmetry; apply app_nil_r|].
    exists s, p. rewrite Hpend. auto. }
  apply wp_bind. eapply wp_ReadCapsulePtr; [exact Hp|].
  apply wp_bind. apply wp_Deref; [exact Hnz|].
  destruct (CompareGuid (CapsuleGuid (CapsuleMemory st p)) gWindowsUxCapsuleGuid) eqn:Hux;
    simpl negb; cbv iota.
  { apply wp_ret. exists []. split; [apply same_capsules_refl|].
    split; [symmetry; apply app_nil_r|].
    exists s, p. rewrite Hpend, Hux. auto. }
  destruct (IsFmpCapsule p) eqn:Hfmp.
  2:{ apply wp_WriteStatus; [exact Hi'|].
      exists []. split; [split; simpl; auto using length_insert|].
      split; [symmetry; apply app_nil_r|].
      exists s, p. rewrite Hpend, Hux, Hfmp. simpl. auto. }
  destruct (EFI_ERROR (fst (ValidateFmpCapsule p))) eqn:Hval.
  { apply wp_WriteStatus; [exact Hi'|].
    exists []. split; [split; simpl; auto using length_insert|].
    split; [symmetry; apply app_nil_r|].
    exists s, p. rewrite Hpend, Hux, Hfmp, Hval. simpl. auto. }
  destruct FirstRound eqn:HFR; simpl negb; simpl orb; simpl andb.
  - destruct (snd (ValidateFmpCapsule p) =? 0) eqn:Hcnt; simpl negb; cbv iota.
    2:{ apply wp_ret. exists []. split; [apply same_capsules_refl|].
        split; [symmetry; apply app_nil_r|].
        exists s, p. rewrite Hpend, Hux, Hfmp, Hval, Hcnt. simpl. auto. }
    apply wp_bind. unfold wp at 1, ProcessThisCapsuleImage.
    destruct (ext_ProcessThisCapsuleImage (world st) p true) as [s' r] eqn:Hcall.
    simpl fst; simpl snd.
    apply wp_bind. apply wp_WriteStatus; [simpl; exact Hi'|].
    destruct (s' =? EFI_NOT_READY) eqn:Hnr; simpl negb; cbv iota.
    + apply wp_ret. eexists. split; [split; simpl; auto using length_insert|].
      split; [simpl; reflexivity|].
      exists s, p. rewrite Hpend, Hux, Hfmp, Hval, Hcnt. simpl.
      split; [exact Hs|]. split; [exact Hp|].
      exists s', r. rewrite Hnr. auto.
    + apply wp_bind.
      assert (Hrep : forall Q st0,
                 Q tt (record (OutcomeReport s') st0) ->
                 wp (if EFI_ERROR s'
                     then REPORT_STATUS_CODE EFI_ERROR_CODE UpdateFirmwareFailed
                     else REPORT_STATUS_CODE EFI_PROGRESS_CODE UpdateFirmwareSuccess)
                    Q st0).
      { intros Q st0 HQ. unfold OutcomeReport in HQ.
        destruct (EFI_ERROR s'); exact HQ. }
      apply Hrep. apply wp_bind. apply wp_modify.
      destruct (RebootFlag (CapsuleMemory st p)) eqn:Hflag.
      * apply wp_modify. eexists. split; [split; simpl; auto using length_insert|].
        split; [simpl; rewrite <- app_assoc; reflexivity|].
        exists s, p. rewrite Hpend, Hux, Hfmp, Hval, Hcnt. simpl.
        split; [exact Hs|]. split; [exact Hp|].
        exists s', r. rewrite Hnr, Hflag, orb_true_r. auto.
      * apply wp_ret. eexists. split; [split; simpl; auto using length_insert|].
        split; [simpl; rewrite <- app_assoc; reflexivity|].
        exists s, p. rewrite Hpend, Hux, Hfmp, Hval, Hcnt. simpl.
        split; [exact Hs|]. split; [exact Hp|].
        exists s', r. rewrite Hnr, Hflag, orb_false_r. auto.
  - apply wp_bind. unfold wp at 1, ProcessThisCapsuleImage.
    destruct (ext_ProcessThisCapsuleImage (world st) p true) as [s' r] eqn:Hcall.
    simpl fst; simpl snd.
    apply wp_bind. apply wp_WriteStatus; [simpl; exact Hi'|].
    destruct (s' =? EFI_NOT_READY) eqn:Hnr; simpl negb; cbv iota.
    + apply wp_ret. eexists. split; [split; simpl; auto using length_insert|].
      split; [simpl; reflexivity|].
      exists s, p. rewrite Hpend, Hux, Hfmp, Hval. simpl.
      split; [exact Hs|]. split; [exact Hp|].
      exists s', r. rewrite Hnr. auto.
    + apply wp_bind.
      assert (Hrep : forall Q st0,
                 Q tt (record (OutcomeReport s') st0) ->
                 wp (if EFI_ERROR s'
                     then REPORT_STATUS_CODE EFI_ERROR_CODE UpdateFirmwareFailed
                     else REPORT_STATUS_CODE EFI_PROGRESS_CODE UpdateFirmwareSuccess)
                    Q st0).
      { intros Q st0 HQ. unfold OutcomeReport in HQ.
        destruct (EFI_ERROR s'); exact HQ. }
      apply Hrep. apply wp_bind. apply wp_modify.
      destruct (RebootFlag (CapsuleMemory st p)) eqn:Hflag.
      * apply wp_modify. eexists. split; [split; simpl; auto using length_insert|].
        split; [simpl; rewrite <- app_assoc; reflexivity|].
        exists s, p. rewrite Hpend, Hux, Hfmp, Hval. simpl.
        split; [exact Hs|]. split; [exact Hp|].
        exists s', r. rewrite Hnr, Hflag, orb_true_r. auto.
      * apply wp_ret. eexists. split; [split; simpl; auto using length_insert|].
        split; [simpl; rewrite <- app_assoc; reflexivity|].
        exists s, p. rewrite Hpend, Hux, Hfmp, Hval. simpl.
        split; [exact Hs|]. split; [exact Hp|].
        exists s', r. rewrite Hnr, Hflag, orb_false_r. auto.
Qed.


Lemma StepEffect_other (FirstRound : bool) i (st st' : State W) evs j :
  StepEffect FirstRound i st st' evs -> j <> i ->
  mCapsuleStatusArray st' !! j = mCapsuleStatusArray st !! j.
Proof.
  intros (s & p & Hs & Hp & Hv) Hne.
  destruct (SweepVerdict FirstRound st s p).
  - destruct Hv as (_ & -> & _). reflexivity.
  - destruct Hv as (_ & -> & _). apply list_lookup_insert_ne. auto.
  - destruct Hv as (_ & -> & _). reflexivity.
  - destruct Hv as (s' & r & _ & -> & _). apply list_lookup_insert_ne. auto.
Qed.

Lemma StepEffect_reset (FirstRound : bool) i (st st' : State W) evs :
  StepEffect FirstRound i st st' evs ->
  mNeedReset st' = mNeedReset st || existsb (ResetDemand st) evs.
Proof.
  intros (s & p & Hs & Hp & Hv).
  destruct (SweepVerdict FirstRound st s p).
  - destruct Hv as (-> & _ & ->). simpl. rewrite orb_false_r. reflexivity.
  - destruct Hv as (-> & _ & ->). simpl. rewrite orb_false_r. reflexivity.
  - destruct Hv as (-> & _ & ->). simpl. rewrite orb_false_r. reflexivity.
  - destruct Hv as (s' & r & _ & _ & -> & ->).
    simpl. destruct (s' =? EFI_NOT_READY); simpl.
    + rewrite orb_false_r. reflexivity.
    + unfold OutcomeReport. destruct (EFI_ERROR s'); simpl;
        rewrite !orb_false_r; rewrite orb_assoc; reflexivity.
Qed.

Lemma StepEffect_events (FirstRound : bool) i (st st' : State W) evs :
  StepEffect FirstRound i st st' evs -> Forall (SweepEvent FirstRound st) evs.
Proof.
  intros (s & p & Hs & Hp & Hv).
  destruct (SweepVerdict FirstRound st s p) eqn:Hverdict.
  - destruct Hv as (-> & _). constructor.
  - destruct Hv as (-> & _). constructor.
  - destruct Hv as (-> & _). constructor.
  - destruct Hv as (s' & r & _ & _ & -> & _).
    assert (Hpend : SweepVerdict FirstRound st EFI_NOT_READY p = VApply).
    { revert Hverdict. unfold SweepVerdict.
      destruct (negb (s =? EFI_NOT_READY)); [discriminate|].
      simpl. auto. }
    constructor; [simpl; auto|].
    destruct (s' =? EFI_NOT_READY); [constructor|].
    constructor; [|constructor].
    unfold OutcomeReport. destruct (EFI_ERROR s'); simpl; auto.
Qed.

Lemma StepEffect_outcome (FirstRound : bool) i (st st' : State W) evs s p :
  StepEffect FirstRound i st st' evs ->
  (i < length (mCapsuleStatusArray st))%nat ->
  mCapsuleStatusArray st !! i = Some s -> mCapsulePtr st !! i = Some p ->
  IndexOutcome FirstRound st s p (mCapsuleStatusArray st' !! i) evs.
Proof.
  intros (s0 & p0 & Hs0 & Hp0 & Hv) Hi Hs Hp.
  rewrite Hs in Hs0. rewrite Hp in Hp0. injection Hs0 as <-. injection Hp0 as <-.
  unfold IndexOutcome.
  destruct (SweepVerdict FirstRound st s p).
  - destruct Hv as (_ & -> & _). exact Hs.
  - destruct Hv as (_ & -> & _). apply list_lookup_insert_eq. exact Hi.
  - destruct Hv as (_ & -> & _). exact Hs.
  - destruct Hv as (s' & r & _ & -> & -> & _).
    exists s', r. split; [left; reflexivity|].
    apply list_lookup_insert_eq. exact Hi.
Qed.

Lemma IndexOutcome_weaken (FirstRound : bool) (st st1 : State W) s p final evs1 evs2 :
  CapsuleMemory st1 = CapsuleMemory st ->
  (IndexOutcome FirstRound st s p final evs1 \/ IndexOutcome FirstRound st1 s p final evs2) ->
  IndexOutcome FirstRound st s p final (evs1 ++ evs2).
Proof.
  intros Hm. unfold IndexOutcome. rewrite (SweepVerdict_same FirstRound st st1 s p Hm).
  destruct (SweepVerdict FirstRound st s p); try tauto.
  intros [(s' & r & Hin & Hf) | (s' & r & Hin & Hf)];
    exists s', r; (split; [apply in_or_app; auto | exact Hf]).
Qed.

(** The second loop, from [Index = lo] to the end of the arrays. *)
Lemma ProcessRemainingCapsules_spec (FirstRound : bool) (count lo : nat) (st : State W) :
  wf st -> (lo + count = length (mCapsulePtr st))%nat ->
  wp (ProcessRemainingCapsules FirstRound count lo)
     (fun _ st' => exists evs,
        same_capsules st st' /\ trace st' = trace st ++ evs /\
        SweepEffect FirstRound lo (lo + count) st st' evs) st.
Proof.
  revert lo st. induction count as [|k IH]; intros lo st Hwf Hlen.
  - apply wp_ret. exists []. split; [apply same_capsules_refl|].
    split; [symmetry; apply app_nil_r|].
    split.
    + reflexivity.
    + simpl. rewrite orb_false_r. reflexivity.
    + constructor.
    + intros j s p Hj. lia.
  - cbn [ProcessRemainingCapsules]. apply wp_bind.
    eapply wp_mono; [|apply (ProcessOneCapsule_spec FirstRound lo st Hwf); lia].
    intros [] st1 (evs1 & Hsame1 & Htr1 & Hstep).
    assert (Hwf1 : wf st1) by (eapply same_capsules_wf; eauto).
    assert (Hlen1 : (S lo + k = length (mCapsulePtr st1))%nat)
      by (rewrite (same_ptr _ _ Hsame1); lia).
    eapply wp_mono; [|apply (IH (S lo) st1 Hwf1 Hlen1)].
    intros [] st' (evs2 & Hsame2 & Htr2 & Hsweep).
    exists (evs1 ++ evs2).
    split; [eapply same_capsules_trans; eauto|].
    split; [rewrite Htr2, Htr1, app_assoc; reflexivity|].
    pose proof (same_memory _ _ Hsame1) as Hmem.
    destruct Hsweep as [Hout Hreset Hevents Hinside].
    split.
    + intros j Hj. rewrite Hout by lia.
      eapply StepEffect_other; [exact Hstep|lia].
    + rewrite Hreset, (StepEffect_reset _ _ _ _ _ Hstep).
      rewrite existsb_app, orb_assoc. f_equal.
      unfold ResetDemand. rewrite Hmem. reflexivity.
    + apply Forall_app. split; [eapply StepEffect_events; eauto|].
      eapply Forall_impl; [exact Hevents|].
      intros e. unfold SweepEvent. destruct e; auto.
      rewrite (SweepVerdict_same FirstRound st st1 _ _ Hmem). auto.
    + intros j s p Hj Hs Hp.
      apply (IndexOutcome_weaken FirstRound st st1); [exact Hmem|].
      destruct (Nat.eq_dec j lo) as [->|Hne].
      * left. rewrite Hout by lia.
        eapply StepEffect_outcome; eauto.
        rewrite (wf_status_length _ Hwf). lia.
      * right. apply Hinside; [lia| |rewrite (same_ptr _ _ Hsame1); exact Hp].
        rewrite (StepEffect_other _ _ _ _ _ j Hstep Hne). exact Hs.
Qed.

End Sweep.

(** ** The Windows UX capsule *)

Section Ux.
Context {W : Type} {PF : Platform W}.

Lemma ProcessUxCapsule_spec (count lo : nat) (st : State W) :
  wf st -> (lo + count = length (mCapsulePtr st))%nat ->
  (forall j q, (j < lo)%nat -> mCapsulePtr st !! j = Some q -> IsUxCapsule st q = false) ->
  wp (ProcessUxCapsule count lo)
     (fun _ st' => exists evs,
        same_capsules st st' /\ trace st' = trace st ++ evs /\
        mNeedReset st' = mNeedReset st /\ UxEffect st st' evs) st.
Proof.
  revert lo. induction count as [|k IH]; intros lo Hwf Hlen Hbelow.
  - apply wp_ret. exists []. split; [apply same_capsules_refl|].
    split; [symmetry; apply app_nil_r|]. split; [reflexivity|].
    left. split; [|auto].
    intros j q Hq. apply (Hbelow j q); [|exact Hq].
    apply lookup_lt_Some in Hq. lia.
  - cbn [ProcessUxCapsule].
    assert (Hlo : (lo < length (mCapsulePtr st))%nat) by lia.
    destruct (wf_lookup st lo Hwf Hlo) as (s & p & Hs & Hp & Hnz).
    apply wp_bind. eapply wp_ReadCapsulePtr; [exact Hp|].
    apply wp_bind. apply wp_Deref; [exact Hnz|].
    destruct (CompareGuid (CapsuleGuid (CapsuleMemory st p)) gWindowsUxCapsuleGuid) eqn:Hux.
    + apply wp_bind. unfold wp at 1, ProcessThisCapsuleImage.
      destruct (ext_ProcessThisCapsuleImage (world st) p false) as [s' r] eqn:Hcall.
      simpl fst; simpl snd.
      apply wp_WriteStatus; [simpl; rewrite (wf_status_length _ Hwf); exact Hlo|].
      eexists. split; [split; simpl; auto using length_insert|].
      split; [simpl; reflexivity|]. split; [reflexivity|].
      right. exists lo, p, s', r. repeat split; auto.
    + apply IH; [exact Hwf|lia|].
      intros j q Hj Hq. destruct (Nat.eq_dec j lo) as [->|Hne].
      * rewrite Hp in Hq. injection Hq as <-. exact Hux.
      * apply (Hbelow j q); [lia|exact Hq].
Qed.

End Ux.

(** ** Recorded calls *)

Section Replay.
Context {W : Type} {PF : Platform W}.

Lemma replay_cons e evs (st : State W) : replay (e :: evs) st = replay evs (record e st).
Proof. reflexivity. Qed.

Lemma replay_app evs1 evs2 (st : State W) :
  replay (evs1 ++ evs2) st = replay evs2 (replay evs1 st).
Proof. unfold replay. apply fold_left_app. Qed.

Lemma replay_trace evs (st : State W) : trace (replay evs st) = trace st ++ evs.
Proof.
  revert st. induction evs as [|e evs IH]; intros st.
  - rewrite app_nil_r. reflexivity.
  - rewrite replay_cons, IH. simpl. rewrite <- app_assoc. reflexivity.
Qed.

Lemma replay_same evs (st : State W) : same_capsules st (replay evs st).
Proof.
  revert st. induction evs as [|e evs IH]; intros st.
  - apply same_capsules_refl.
  - rewrite replay_cons. eapply same_capsules_trans; [apply same_capsules_record|apply IH].
Qed.

Lemma replay_status evs (st : State W) :
  mCapsuleStatusArray (replay evs st) = mCapsuleStatusArray st.
Proof.
  revert st. induction evs as [|e evs IH]; intros st; [reflexivity|].
  rewrite replay_cons, IH. reflexivity.
Qed.

Lemma replay_reset evs (st : State W) : mNeedReset (replay evs st) = mNeedReset st.
Proof.
  revert st. induction evs as [|e evs IH]; intros st; [reflexivity|].
  rewrite replay_cons, IH. reflexivity.
Qed.

End Replay.

(** ** Publishing capsules in the configuration table *)

Section Publisher.
Context {W : Type} {PF : Platform W}.

(** The [while] loop runs to [CacheNumber] exactly when the GUID is not cached. *)
Lemma FindGuid_miss Cache g :
  (FindGuid Cache g =? length Cache)%nat = negb (existsb (fun c => CompareGuid c g) Cache).
Proof.
  induction Cache as [|c Cache IH]; simpl; [reflexivity|].
  destruct (CompareGuid c g); simpl; [reflexivity|]. exact IH.
Qed.

Lemma CollectGuids_spec (count lo : nat) (Cache : list EFI_GUID) (st : State W) :
  wf st -> (lo + count = length (mCapsulePtr st))%nat ->
  CollectGuids count lo Cache st =
  Ok (CollectFrom Cache
        (map (GuidOf st) (List.filter (Flagged st) (drop lo (mCapsulePtr st))))) st.
Proof.
  revert lo Cache. induction count as [|k IH]; intros lo Cache Hwf Hlen.
  - rewrite drop_ge by lia. reflexivity.
  - assert (Hlo : (lo < length (mCapsulePtr st))%nat) by lia.
    destruct (wf_lookup st lo Hwf Hlo) as (s & p & Hs & Hp & Hnz).
    rewrite (drop_S _ _ _ Hp). cbn [CollectGuids List.filter].
    unfold bind at 1, ReadCapsulePtr. rewrite Hp.
    unfold bind at 1, Deref. destruct (Z.eqb_spec p 0) as [|_]; [contradiction|].
    unfold Flagged at 1. destruct (PopulateFlag (CapsuleMemory st p)) eqn:Hflag.
    + cbn [map CollectFrom]. rewrite FindGuid_miss. unfold GuidOf at 1.
      destruct (existsb (fun c => CompareGuid c (CapsuleGuid (CapsuleMemory st p))) Cache);
        simpl negb; cbv iota; apply IH; auto; lia.
    + apply IH; auto; lia.
Qed.

Lemma GatherCapsules_spec (count lo : nat) (g : EFI_GUID) (acc : list Z) (st : State W) :
  wf st -> (lo + count = length (mCapsulePtr st))%nat ->
  GatherCapsules count lo g acc st =
  Ok (acc ++ List.filter (fun p => Flagged st p && CompareGuid g (GuidOf st p))
                (drop lo (mCapsulePtr st))) st.
Proof.
  revert lo acc. induction count as [|k IH]; intros lo acc Hwf Hlen.
  - rewrite drop_ge by lia. simpl. rewrite app_nil_r. reflexivity.
  - assert (Hlo : (lo < length (mCapsulePtr st))%nat) by lia.
    destruct (wf_lookup st lo Hwf Hlo) as (s & p & Hs & Hp & Hnz).
    rewrite (drop_S _ _ _ Hp). cbn [GatherCapsules List.filter].
    unfold bind at 1, ReadCapsulePtr. rewrite Hp.
    unfold bind at 1, Deref. destruct (Z.eqb_spec p 0) as [|_]; [contradiction|].
    unfold Flagged at 1, GuidOf at 1.
    destruct (PopulateFlag (CapsuleMemory st p)) eqn:Hflag; simpl andb.
    + destruct (CompareGuid g (CapsuleGuid (CapsuleMemory st p))).
      * rewrite IH by (auto; lia). rewrite <- app_assoc. reflexivity.
      * apply IH; auto; lia.
    + apply IH; auto; lia.
Qed.


Lemma IdentityGroup_same (st st' : State W) g :
  same_capsules st st' -> IdentityGroup st' g = IdentityGroup st g.
Proof.
  intros Hsame. unfold IdentityGroup, Flagged, GuidOf.
  rewrite (same_ptr _ _ Hsame), (same_memory _ _ Hsame). reflexivity.
Qed.

Lemma PublishEvents_same (st st' : State W) ids w :
  same_capsules st st' -> PublishEvents st' ids w = PublishEvents st ids w.
Proof.
  intros Hsame. revert w. induction ids as [|g ids IH]; intros w; [reflexivity|].
  cbn [PublishEvents]. unfold GroupTableSize, GroupTable.
  rewrite (IdentityGroup_same st st' g Hsame).
  destruct (ext_AllocatePool w RuntimePool _); rewrite IH; reflexivity.
Qed.

Lemma wf_total (st : State W) :
  wf st -> Z.to_nat (mCapsuleTotalNumber st) = length (mCapsulePtr st).
Proof. intros Hwf. rewrite <- (wf_ptr_length _ Hwf). apply Nat2Z.id. Qed.

(** The second step of the publisher. *)
Lemma InstallCapsuleTables_spec (Cache : list EFI_GUID) (st : State W) :
  wf st -> (forall g, In g Cache -> IdentityGroup st g <> []) ->
  InstallCapsuleTables Cache st = Ok tt (replay (PublishEvents st Cache (world st)) st).
Proof.
  revert st. induction Cache as [|g Cache IH]; intros st Hwf Hne; [reflexivity|].
  cbn [InstallCapsuleTables PublishEvents].
  unfold bind, gets.
  rewrite GatherCapsules_spec by (auto; rewrite (wf_total _ Hwf); lia).
  rewrite drop_0, app_nil_l. fold (IdentityGroup st g).
  assert (Hg : IdentityGroup st g <> []) by (apply Hne; left; reflexivity).
  assert (Hnz : (Z.of_nat (length (IdentityGroup st g)) =? 0) = false).
  { apply Z.eqb_neq. destruct (IdentityGroup st g); [contradiction|]. simpl. lia. }
  rewrite Hnz.
  unfold AllocatePool, InstallConfigurationTable, ret.
  fold (GroupTableSize st g). fold (GroupTable st g).
  cbv beta iota zeta delta [negb].
  destruct (ext_AllocatePool (world st) RuntimePool (GroupTableSize st g)) eqn:Hok;
    cbv beta iota zeta.
  - rewrite IH.
    + rewrite !replay_cons. simpl world.
      rewrite (PublishEvents_same st)
        by (eapply same_capsules_trans; apply same_capsules_record).
      reflexivity.
    + eapply same_capsules_wf; [|exact Hwf].
      eapply same_capsules_trans; apply same_capsules_record.
    + intros g' Hg'. rewrite (IdentityGroup_same st)
        by (eapply same_capsules_trans; apply same_capsules_record).
      apply Hne. right. exact Hg'.
  - rewrite IH.
    + rewrite replay_cons. simpl world.
      rewrite (PublishEvents_same st) by apply same_capsules_record.
      reflexivity.
    + eapply same_capsules_wf; [apply same_capsules_record|exact Hwf].
    + intros g' Hg'. rewrite (IdentityGroup_same st) by apply same_capsules_record.
      apply Hne. right. exact Hg'.
Qed.

(** *** First-seen order *)

Lemma filter_filter_and {A} (f g : A -> bool) (l : list A) :
  List.filter f (List.filter g l) = List.filter (fun x => g x && f x) l.
Proof.
  induction l as [|x l IH]; [reflexivity|]. simpl.
  destruct (g x); simpl; [destruct (f x)|]; rewrite IH; reflexivity.
Qed.

Lemma CollectFrom_FirstOccurrences (l Cache : list EFI_GUID) :
  CollectFrom Cache l =
  Cache ++ List.filter (fun g => negb (existsb (fun c => CompareGuid c g) Cache))
             (FirstOccurrences l).
Proof.
  revert Cache. induction l as [|g l IH]; intros Cache.
  - simpl. rewrite app_nil_r. reflexivity.
  - cbn [CollectFrom FirstOccurrences List.filter].
    destruct (existsb (fun c => CompareGuid c g) Cache) eqn:Hin; simpl negb; cbv iota.
    + rewrite IH. f_equal. rewrite filter_filter_and.
      apply List.filter_ext. intros x.
      destruct (CompareGuid g x) eqn:Hgx; simpl; [|reflexivity].
      apply CompareGuid_eq in Hgx. subst x. rewrite Hin. reflexivity.
    + rewrite IH. rewrite <- app_assoc. simpl. do 2 f_equal.
      rewrite filter_filter_and. apply List.filter_ext. intros x.
      rewrite existsb_app. simpl existsb. rewrite orb_false_r.
      rewrite negb_orb. apply andb_comm.
Qed.

Lemma CollectFrom_nil (l : list EFI_GUID) : CollectFrom [] l = FirstOccurrences l.
Proof.
  rewrite CollectFrom_FirstOccurrences. simpl.
  induction (FirstOccurrences l) as [|x xs IH]; [reflexivity|].
  simpl. rewrite IH. reflexivity.
Qed.

Lemma FirstOccurrences_In (l : list EFI_GUID) g : In g (FirstOccurrences l) <-> In g l.
Proof.
  induction l as [|x l IH]; [reflexivity|].
  cbn [FirstOccurrences]. simpl In. rewrite List.filter_In, IH.
  split.
  - intros [->|[Hin _]]; auto.
  - intros [->|Hin]; [auto|].
    destruct (CompareGuid x g) eqn:Hxg.
    + apply CompareGuid_eq in Hxg. auto.
    + right. auto.
Qed.

Lemma FirstOccurrences_NoDup (l : list EFI_GUID) : List.NoDup (FirstOccurrences l).
Proof.
  induction l as [|x l IH]; [constructor|].
  cbn [FirstOccurrences]. constructor.
  - rewrite List.filter_In. intros [_ Hx]. rewrite CompareGuid_refl in Hx. discriminate.
  - apply List.NoDup_filter. exact IH.
Qed.

Lemma DistinctIdentities_In (st : State W) g :
  In g (DistinctIdentities st) <->
  exists p, In p (mCapsulePtr st) /\ Flagged st p = true /\ GuidOf st p = g.
Proof.
  unfold DistinctIdentities. rewrite FirstOccurrences_In, in_map_iff.
  split.
  - intros (p & Hg & Hp). apply List.filter_In in Hp as [Hp Hf]. eauto.
  - intros (p & Hp & Hf & Hg). exists p. split; [exact Hg|].
    apply List.filter_In. auto.
Qed.

Lemma IdentityGroup_In (st : State W) g p :
  In p (IdentityGroup st g) <->
  In p (mCapsulePtr st) /\ Flagged st p = true /\ GuidOf st p = g.
Proof.
  unfold IdentityGroup. rewrite List.filter_In, andb_true_iff, CompareGuid_eq.
  intuition congruence.
Qed.

Lemma DistinctIdentities_group (st : State W) g :
  In g (DistinctIdentities st) -> IdentityGroup st g <> [].
Proof.
  intros Hg. apply DistinctIdentities_In in Hg as (p & Hp & Hf & Hgp).
  assert (Hin : In p (IdentityGroup st g)) by (apply IdentityGroup_In; auto).
  intros Hnil. rewrite Hnil in Hin. exact Hin.
Qed.

(** The whole publishing step is the sequence of calls [PopulateEvents]. *)
Lemma PopulateCapsuleInConfigurationTable_spec (st : State W) :
  wf st ->
  PopulateCapsuleInConfigurationTable st = Ok tt (replay (PopulateEvents st) st).
Proof.
  intros Hwf. unfold PopulateCapsuleInConfigurationTable, PopulateEvents.
  cbv beta iota zeta delta [bind gets ret AllocatePool FreePool emit modify].
  destruct (mCapsuleTotalNumber st =? 0) eqn:Htot; [reflexivity|].
  destruct (ext_AllocatePool (world st) ZeroPool (8 * mCapsuleTotalNumber st)) eqn:Hok1;
    cbv beta iota zeta delta [negb]; [|reflexivity].
  simpl world.
  destruct (ext_AllocatePool _ ZeroPool (16 * mCapsuleTotalNumber st)) eqn:Hok2;
    cbv beta iota zeta delta [negb]; [|reflexivity].
  set (st2 := record _ (record _ st)).
  assert (Hsame2 : same_capsules st st2)
    by (eapply same_capsules_trans; apply same_capsules_record).
  assert (Hwf2 : wf st2) by (eapply same_capsules_wf; eauto).
  replace (Z.to_nat (mCapsuleTotalNumber st)) with (length (mCapsulePtr st2))
    by (rewrite (same_ptr _ _ Hsame2); symmetry; apply wf_total; exact Hwf).
  rewrite CollectGuids_spec by (auto; lia).
  rewrite drop_0, CollectFrom_nil. fold (DistinctIdentities st2).
  assert (Hids : DistinctIdentities st2 = DistinctIdentities st).
  { unfold DistinctIdentities, Flagged, GuidOf.
    rewrite (same_ptr _ _ Hsame2), (same_memory _ _ Hsame2). reflexivity. }
  rewrite Hids.
  rewrite InstallCapsuleTables_spec.
  - rewrite (PublishEvents_same st st2 _ _ Hsame2).
    rewrite !replay_app. reflexivity.
  - exact Hwf2.
  - intros g Hg. rewrite (IdentityGroup_same st st2 g Hsame2).
    apply DistinctIdentities_group. exact Hg.
Qed.

Lemma PublishEvents_publisher (st : State W) ids w :
  Forall PublisherEvent (PublishEvents st ids w).
Proof.
  revert w. induction ids as [|g ids IH]; intros w; [constructor|].
  cbn [PublishEvents].
  destruct (ext_AllocatePool w RuntimePool (GroupTableSize st g)).
  - constructor; [exact I|]. constructor; [exact I|]. apply IH.
  - constructor; [exact I|]. apply IH.
Qed.

Lemma PopulateEvents_publisher (st : State W) : Forall PublisherEvent (PopulateEvents st).
Proof.
  unfold PopulateEvents.
  destruct (mCapsuleTotalNumber st =? 0); [constructor|].
  destruct (negb (ext_AllocatePool (world st) ZeroPool _)).
  { constructor; [exact I|constructor]. }
  destruct (negb (ext_AllocatePool _ ZeroPool _)).
  { repeat (constructor; [exact I|]). constructor. }
  repeat (constructor; [exact I|]).
  apply Forall_app. split; [apply PublishEvents_publisher|].
  repeat (constructor; [exact I|]). constructor.
Qed.

(** What the publisher registers: one table per identity whose table
    was allocated, in first-seen order. *)
Lemma PublishEvents_registered (st : State W) ids w :
  length (TableAllocations (PublishEvents st ids w)) = length ids /\
  Registered (PublishEvents st ids w) =
  map (fun g => (g, GroupTable st g))
      (Selected ids (TableAllocations (PublishEvents st ids w))).
Proof.
  revert w. induction ids as [|g ids IH]; intros w; [split; reflexivity|].
  cbn [PublishEvents].
  destruct (ext_AllocatePool w RuntimePool (GroupTableSize st g)).
  - match goal with |- context [PublishEvents st ids ?w'] =>
      destruct (IH w') as [IHlen IHreg]; set (rest := PublishEvents st ids w') in *
    end.
    change (TableAllocations (_ :: _ :: rest)) with (true :: TableAllocations rest).
    change (Registered (_ :: _ :: rest)) with ((g, GroupTable st g) :: Registered rest).
    cbn [length Selected map]. rewrite IHlen, IHreg. split; reflexivity.
  - match goal with |- context [PublishEvents st ids ?w'] =>
      destruct (IH w') as [IHlen IHreg]; set (rest := PublishEvents st ids w') in *
    end.
    change (TableAllocations (_ :: rest)) with (false :: TableAllocations rest).
    change (Registered (_ :: rest)) with (Registered rest).
    cbn [length Selected map]. rewrite IHlen, IHreg. split; reflexivity.
Qed.

(** What the publisher adds to the configuration table: one entry per
    identity whose table was allocated and whose install call did not
    fail, in first-seen order. *)
Lemma PublishEvents_installed (st : State W) ids w :
  length (TableOutcomes (PublishEvents st ids w)) = length ids /\
  Installed (PublishEvents st ids w) =
  map (fun g => (g, GroupTable st g))
      (Selected ids (TableOutcomes (PublishEvents st ids w))).
Proof.
  revert w. induction ids as [|g ids IH]; intros w; [split; reflexivity|].
  cbn [PublishEvents].
  destruct (ext_AllocatePool w RuntimePool (GroupTableSize st g)).
  - match goal with |- context [PublishEvents st ids ?w'] =>
      destruct (IH w') as [IHlen IHreg]; set (rest := PublishEvents st ids w') in *
    end.
    match goal with |- context [EvInstallConfigurationTable g (GroupTable st g) ?s] =>
      set (Status := s) in *
    end.
    change (TableOutcomes (_ :: _ :: rest))
      with (negb (EFI_ERROR Status) :: TableOutcomes rest).
    change (Installed (_ :: _ :: rest))
      with ((if EFI_ERROR Status then [] else [(g, GroupTable st g)]) ++ Installed rest).
    destruct (EFI_ERROR Status);
      cbn [negb length Selected map app]; rewrite IHlen, IHreg; split; reflexivity.
  - match goal with |- context [PublishEvents st ids ?w'] =>
      destruct (IH w') as [IHlen IHreg]; set (rest := PublishEvents st ids w') in *
    end.
    change (TableOutcomes (_ :: rest)) with (false :: TableOutcomes rest).
    change (Installed (_ :: rest)) with (Installed rest).
    cbn [length Selected map]. rewrite IHlen, IHreg. split; reflexivity.
Qed.

End Publisher.

(** ** Discovery *)

Section Discovery.
Context {W : Type} {PF : Platform W}.

Lemma MarkAndCountHobs_count (hobs : list EFI_HOB) (Total : Z) :
  0 <= Total ->
  Total + Z.of_nat (length (List.filter ValidCapsuleHob hobs)) < 2 ^ 32 ->
  snd (MarkAndCountHobs hobs Total) =
  Total + Z.of_nat (length (List.filter ValidCapsuleHob hobs)).
Proof.
  revert Total. induction hobs as [|h hobs IH]; intros Total H0 Hlt.
  - simpl. lia.
  - cbn [MarkAndCountHobs List.filter] in *. unfold ValidCapsuleHob, IsCapsuleHob in *.
    destruct (HobType h =? EFI_HOB_TYPE_UEFI_CAPSULE); simpl andb in *.
    + destruct (IsValidCapsuleHeader (BaseAddress h) (Length h)); simpl negb; cbv iota.
      * cbn [snd length] in *.
        assert (Hw : UINT32 (Total + 1) = Total + 1).
        { unfold UINT32. apply Z.mod_small. lia. }
        rewrite Hw. rewrite IH; lia.
      * cbn [snd]. apply IH; auto.
    + cbn [snd]. apply IH; auto.
Qed.

Lemma MarkAndCountHobs_capsules (hobs : list EFI_HOB) (Total : Z) :
  List.filter IsCapsuleHob (fst (MarkAndCountHobs hobs Total)) =
  List.filter ValidCapsuleHob hobs.
Proof.
  revert Total. induction hobs as [|h hobs IH]; intros Total; [reflexivity|].
  cbn [MarkAndCountHobs List.filter]. unfold ValidCapsuleHob at 1, IsCapsuleHob at 2.
  destruct (HobType h =? EFI_HOB_TYPE_UEFI_CAPSULE) eqn:Hty; simpl andb.
  - destruct (IsValidCapsuleHeader (BaseAddress h) (Length h)); simpl negb; cbv iota;
      cbn [fst List.filter].
    + unfold IsCapsuleHob at 1. rewrite Hty. rewrite IH. reflexivity.
    + unfold IsCapsuleHob at 1. cbn [HobType].
      change (EFI_HOB_TYPE_UNUSED =? EFI_HOB_TYPE_UEFI_CAPSULE) with false.
      cbv iota. apply IH.
  - cbn [fst List.filter]. unfold IsCapsuleHob at 1. rewrite Hty. apply IH.
Qed.

Lemma set_mCapsulePtr_twice l1 l2 (st : State W) :
  set_mCapsulePtr l2 (set_mCapsulePtr l1 st) = set_mCapsulePtr l2 st.
Proof. reflexivity. Qed.

Lemma FillCapsulePtr_spec (hobs : list EFI_HOB) (Index : nat) (st : State W) :
  (Index + length (List.filter IsCapsuleHob hobs) <= length (mCapsulePtr st))%nat ->
  FillCapsulePtr hobs Index st =
  Ok tt (set_mCapsulePtr
           (take Index (mCapsulePtr st) ++
            map BaseAddress (List.filter IsCapsuleHob hobs) ++
            drop (Index + length (List.filter IsCapsuleHob hobs)) (mCapsulePtr st)) st).
Proof.
  revert Index st. induction hobs as [|h hobs IH]; intros Index st Hlen.
  - simpl. rewrite Nat.add_0_r, take_drop. destruct st; reflexivity.
  - cbn [FillCapsulePtr List.filter] in *. fold (IsCapsuleHob h).
    destruct (IsCapsuleHob h).
    + cbn [length map] in *. unfold bind, WriteCapsulePtr.
      destruct (Nat.ltb_spec Index (length (mCapsulePtr st))) as [Hlt|]; [|lia].
      rewrite IH by (simpl; rewrite length_insert; lia).
      simpl mCapsulePtr. rewrite set_mCapsulePtr_twice. do 2 f_equal.
      rewrite (take_S_r _ _ (BaseAddress h)) by (apply list_lookup_insert_eq; exact Hlt).
      rewrite take_insert_ge by lia.
      rewrite drop_insert_lt by lia.
      rewrite <- app_assoc. simpl.
      replace (Index + S (length (List.filter IsCapsuleHob hobs)))%nat
        with (S (Index + length (List.filter IsCapsuleHob hobs))) by lia.
      reflexivity.
    + apply IH. exact Hlen.
Qed.

Lemma InitCapsulePtr_spec (st : State W) :
  boot_state st ->
  wp InitCapsulePtr (fun _ st1 => exists evs, Discovered st st1 evs) st.
Proof.
  intros [Htot Hptr Hstat Hcount Hnn].
  pose proof (MarkAndCountHobs_capsules (HobList st) (mCapsuleTotalNumber st)) as Hcaps.
  pose proof (MarkAndCountHobs_count (HobList st) (mCapsuleTotalNumber st)) as Hcnt.
  unfold DiscoveredCapsules in Hcount, Hnn. rewrite length_map in Hcount.
  rewrite Htot in Hcnt, Hcaps. specialize (Hcnt ltac:(lia) ltac:(lia)).
  rewrite Z.add_0_l in Hcnt.
  set (valid := List.filter ValidCapsuleHob (HobList st)) in *.
  unfold InitCapsulePtr.
  apply wp_bind, wp_gets. apply wp_bind, wp_gets.
  apply wp_bind, wp_modify. apply wp_bind, wp_modify.
  apply wp_bind, wp_gets. state_simpl. rewrite Htot, Hcnt.
  destruct (Z.of_nat (length valid) =? 0) eqn:Hz.
  { (* no valid capsule *)
    apply wp_ret. exists []. split; state_simpl; auto.
    - split; state_simpl.
      + rewrite Hptr. simpl. apply Z.eqb_eq in Hz. lia.
      + rewrite Hptr, Hstat. reflexivity.
      + rewrite Hptr. constructor.
    - unfold AllPending. state_simpl. rewrite Hstat. constructor.
    - symmetry. apply app_nil_r.
    - left. rewrite Hptr. unfold DiscoveredCapsules. fold valid.
      apply Z.eqb_eq in Hz. destruct valid; [reflexivity|simpl in Hz; lia].
    - intros (k & n & []). }
  apply wp_bind, wp_AllocatePool. state_simpl.
  destruct (ext_AllocatePool (world st) ZeroPool (8 * Z.of_nat (length valid))) eqn:Hok1;
    cbv beta iota zeta delta [negb].
  2:{ apply wp_bind, wp_modify. apply wp_modify.
      exists [EvAllocatePool ZeroPool (8 * Z.of_nat (length valid)) false].
      split; state_simpl; auto.
      - split; state_simpl; auto. rewrite Hstat. reflexivity.
      - unfold AllPending. state_simpl. rewrite Hstat. constructor.
      - repeat constructor.
      - right. split; [reflexivity|]. eexists. left. reflexivity. }
  apply wp_bind, wp_modify. apply wp_bind, wp_AllocatePool. state_simpl.
  destruct (ext_AllocatePool (env_step _ (world st)) ZeroPool
              (8 * Z.of_nat (length valid))) eqn:Hok2;
    cbv beta iota zeta delta [negb].
  2:{ apply wp_bind, wp_modify. apply wp_bind, wp_emit. apply wp_bind, wp_modify.
      apply wp_modify.
      exists [EvAllocatePool ZeroPool (8 * Z.of_nat (length valid)) true;
              EvAllocatePool ZeroPool (8 * Z.of_nat (length valid)) false;
              EvFreePool].
      split; state_simpl; auto.
      - split; state_simpl; auto.
      - unfold AllPending. state_simpl. constructor.
      - rewrite <- !app_assoc. simpl. reflexivity.
      - repeat constructor.
      - right. split; [reflexivity|]. eexists. right. left. reflexivity. }
  apply wp_bind, wp_modify. apply wp_bind, wp_gets. state_simpl.
  unfold wp. rewrite FillCapsulePtr_spec.
  2:{ state_simpl. rewrite Hcaps. fold valid.
      rewrite length_replicate, Nat2Z.id. lia. }
  state_simpl. rewrite Hcaps. fold valid.
  rewrite take_0, app_nil_l, Nat2Z.id.
  rewrite drop_ge by (rewrite length_replicate; lia). rewrite app_nil_r.
  exists [EvAllocatePool ZeroPool (8 * Z.of_nat (length valid)) true;
          EvAllocatePool ZeroPool (8 * Z.of_nat (length valid)) true].
  split; state_simpl; auto.
  - split; state_simpl.
    + rewrite length_map. reflexivity.
    + rewrite length_replicate, length_map. reflexivity.
    + exact Hnn.
  - unfold AllPending. state_simpl. apply Forall_replicate. reflexivity.
  - rewrite <- !app_assoc. simpl. reflexivity.
  - repeat constructor.
  - intros (k & n & [Hin|[Hin|[]]]); discriminate.
Qed.

End Discovery.

(** ** A whole pass *)

Section Pass.
Context {W : Type} {PF : Platform W}.

Lemma AreAllImagesProcessed_from_spec (count lo : nat) (st : State W) :
  (lo + count = length (mCapsuleStatusArray st))%nat ->
  AreAllImagesProcessed_from count lo st =
  Ok (forallb (fun s => negb (s =? EFI_NOT_READY)) (drop lo (mCapsuleStatusArray st))) st.
Proof.
  revert lo. induction count as [|k IH]; intros lo Hlen.
  - rewrite drop_ge by lia. reflexivity.
  - assert (Hlo : (lo < length (mCapsuleStatusArray st))%nat) by lia.
    destruct (lookup_lt_is_Some_2 _ _ Hlo) as [s Hs].
    rewrite (drop_S _ _ _ Hs). cbn [AreAllImagesProcessed_from forallb].
    unfold bind, ReadStatus. rewrite Hs.
    destruct (s =? EFI_NOT_READY); [reflexivity|].
    simpl. apply IH. lia.
Qed.

Lemma AreAllImagesProcessed_spec (st : State W) :
  wf st ->
  AreAllImagesProcessed st =
  Ok (forallb (fun s => negb (s =? EFI_NOT_READY)) (mCapsuleStatusArray st)) st.
Proof.
  intros Hwf. unfold AreAllImagesProcessed, bind, gets.
  rewrite AreAllImagesProcessed_from_spec.
  - rewrite drop_0. reflexivity.
  - rewrite (wf_total _ Hwf), (wf_status_length _ Hwf). reflexivity.
Qed.

Lemma FirstUxCapsule_unique (st : State W) i p j q :
  FirstUxCapsule st i p -> FirstUxCapsule st j q -> i = j /\ p = q.
Proof.
  intros (Hp & Hux & Hfirst) (Hq & Huq & Hfirstq).
  assert (i = j).
  { destruct (Nat.lt_trichotomy i j) as [Hlt|[Heq|Hgt]]; [|exact Heq|].
    - rewrite (Hfirstq i p Hlt Hp) in Hux. discriminate.
    - rewrite (Hfirst j q Hgt Hq) in Huq. discriminate. }
  subst j. split; [reflexivity|congruence].
Qed.

Lemma FirstUxCapsule_same (st st' : State W) i p :
  same_capsules st st' -> FirstUxCapsule st' i p <-> FirstUxCapsule st i p.
Proof.
  intros Hsame. unfold FirstUxCapsule, IsUxCapsule.
  rewrite (same_ptr _ _ Hsame), (same_memory _ _ Hsame). reflexivity.
Qed.

Lemma NoUxCapsule_same (st st' : State W) :
  same_capsules st st' -> NoUxCapsule st' <-> NoUxCapsule st.
Proof.
  intros Hsame. unfold NoUxCapsule, IsUxCapsule.
  rewrite (same_ptr _ _ Hsame), (same_memory _ _ Hsame). reflexivity.
Qed.

Lemma NoUxCapsule_not_first (st : State W) i p :
  NoUxCapsule st -> ~ FirstUxCapsule st i p.
Proof.
  intros Hno (Hp & Hux & _). rewrite (Hno i p Hp) in Hux. discriminate.
Qed.

Lemma IndexOutcome_incl (FirstRound : bool) (st st' : State W) s p final evs evs' :
  CapsuleMemory st' = CapsuleMemory st ->
  (forall e, In e evs -> In e evs') ->
  IndexOutcome FirstRound st s p final evs ->
  IndexOutcome FirstRound st' s p final evs'.
Proof.
  intros Hm Hincl. unfold IndexOutcome.
  rewrite (SweepVerdict_same FirstRound st st' s p Hm).
  destruct (SweepVerdict FirstRound st s p); auto.
  intros (s' & r & Hin & Hf). exists s', r. auto.
Qed.

Lemma UxCalls_app evs1 evs2 : UxCalls (evs1 ++ evs2) = UxCalls evs1 ++ UxCalls evs2.
Proof. apply List.filter_app. Qed.

Lemma UxCalls_none evs :
  Forall (fun e => match e with
                   | EvProcessThisCapsuleImage _ w _ _ => w = true
                   | _ => True
                   end) evs ->
  UxCalls evs = [].
Proof.
  induction 1 as [|e evs He _ IH]; [reflexivity|].
  unfold UxCalls in *. simpl. rewrite IH.
  destruct e; try reflexivity. subst. reflexivity.
Qed.

Lemma ResetDemand_none (st : State W) evs :
  Forall (fun e => match e with
                   | EvProcessThisCapsuleImage _ w _ _ => w = false
                   | _ => True
                   end) evs ->
  existsb (ResetDemand st) evs = false.
Proof.
  induction 1 as [|e evs He _ IH]; [reflexivity|].
  simpl. rewrite IH, orb_false_r.
  destruct e; try reflexivity. subst. reflexivity.
Qed.

Lemma PublisherEvent_bookkeeping e : PublisherEvent e -> Bookkeeping e.
Proof. destruct e; simpl; tauto. Qed.

Lemma Bookkeeping_housekeeping e : Bookkeeping e -> Housekeeping e.
Proof. destruct e; simpl; tauto. Qed.

Lemma Bookkeeping_dispatch e : Bookkeeping e -> DispatchEvent e.
Proof. destruct e; simpl; try tauto. intros [->| ->]; split; discriminate. Qed.

Lemma Housekeeping_not_applied evs p w s r :
  Forall Housekeeping evs -> ~ In (EvProcessThisCapsuleImage p w s r) evs.
Proof.
  intros Hall Hin. rewrite List.Forall_forall in Hall. apply (Hall _ Hin).
Qed.

Lemma Housekeeping_UxCalls evs : Forall Housekeeping evs -> UxCalls evs = [].
Proof.
  intros Hall. apply UxCalls_none. eapply Forall_impl; [exact Hall|].
  intros e. destruct e; simpl; tauto.
Qed.

Lemma Housekeeping_ResetDemand (st : State W) evs :
  Forall Housekeeping evs -> existsb (ResetDemand st) evs = false.
Proof.
  intros Hall. apply ResetDemand_none. eapply Forall_impl; [exact Hall|].
  intros e. destruct e; simpl; tauto.
Qed.


Lemma UxEffect_events (st st' : State W) evs :
  UxEffect st st' evs ->
  Forall (fun e => match e with
                   | EvProcessThisCapsuleImage _ w _ _ => w = false
                   | _ => True
                   end) evs.
Proof.
  intros [(_ & -> & _)|(i & p & s & r & _ & _ & -> & _)]; repeat constructor.
Qed.

Lemma SweepEffect_events (FirstRound : bool) lo hi (st st' : State W) evs :
  SweepEffect FirstRound lo hi st st' evs ->
  Forall (fun e => match e with
                   | EvProcessThisCapsuleImage _ w _ _ => w = true
                   | _ => True
                   end) evs.
Proof.
  intros Hs. eapply Forall_impl; [apply (sweep_events _ _ _ _ _ _ Hs)|].
  intros e. destruct e; simpl; tauto.
Qed.

(** The pieces of a pass put together. *)
Lemma PassEffect_assemble (FirstRound : bool) (st stP stU stS st' : State W)
    evs0 evsU evsS evsE :
  wf st ->
  same_capsules st stP -> mCapsuleStatusArray stP = mCapsuleStatusArray st ->
  mNeedReset stP = mNeedReset st -> trace stP = trace st ++ evs0 ->
  Forall Bookkeeping evs0 ->
  same_capsules stP stU -> trace stU = trace stP ++ evsU ->
  mNeedReset stU = mNeedReset stP -> UxEffect stP stU evsU ->
  same_capsules stU stS -> trace stS = trace stU ++ evsS ->
  SweepEffect FirstRound 0 (length (mCapsulePtr st)) stU stS evsS ->
  same_capsules stS st' -> mCapsuleStatusArray st' = mCapsuleStatusArray stS ->
  mNeedReset st' = mNeedReset stS -> trace st' = trace stS ++ evsE ->
  Forall Bookkeeping evsE ->
  PassEffect FirstRound st st' (evs0 ++ evsU ++ evsS ++ evsE).
Proof.
  intros Hwf HsameP HstatP HneedP HtrP Hbk0 HsameU HtrU HneedU Hux
         HsameS HtrS Hsweep HsameE HstatE HneedE HtrE HbkE.
  assert (Hhk0 : Forall Housekeeping evs0)
    by (eapply Forall_impl; [exact Hbk0|]; intros e; apply Bookkeeping_housekeeping).
  assert (HhkE : Forall Housekeeping evsE)
    by (eapply Forall_impl; [exact HbkE|]; intros e; apply Bookkeeping_housekeeping).
  assert (HsameStU : same_capsules st stU) by (eapply same_capsules_trans; eauto).
  pose proof (same_memory _ _ HsameStU) as HmemU.
  pose proof (same_memory _ _ HsameP) as HmemP.
  pose proof (UxEffect_events _ _ _ Hux) as HuxEv.
  pose proof (SweepEffect_events _ _ _ _ _ _ Hsweep) as HswEv.
  destruct Hsweep as [Hout Hreset Hevents Hinside].
  (* status after the UX loop, away from the UX capsule *)
  assert (HstatU : forall i p, mCapsulePtr st !! i = Some p -> ~ FirstUxCapsule st i p ->
                     mCapsuleStatusArray stU !! i = mCapsuleStatusArray st !! i).
  { intros i p Hp Hnot.
    destruct Hux as [(_ & _ & ->)|(i0 & p0 & s & r & Hfirst & _ & _ & ->)].
    - rewrite HstatP. reflexivity.
    - rewrite HstatP. apply list_lookup_insert_ne. intros ->.
      apply (FirstUxCapsule_same st stP _ _ HsameP) in Hfirst.
      pose proof Hfirst as (Hp0 & _). rewrite Hp in Hp0. injection Hp0 as <-.
      exact (Hnot Hfirst). }
  split.
  - repeat (eapply same_capsules_trans; [eassumption|]). apply same_capsules_refl.
  - rewrite HtrE, HtrS, HtrU, HtrP. rewrite <- !app_assoc. reflexivity.
  - rewrite HneedE, Hreset, HneedU, HneedP.
    rewrite !existsb_app.
    rewrite (Housekeeping_ResetDemand st evs0 Hhk0).
    rewrite (Housekeeping_ResetDemand st evsE HhkE).
    rewrite (ResetDemand_none st evsU HuxEv).
    rewrite orb_false_l, orb_false_r. f_equal.
    unfold ResetDemand. rewrite HmemU. reflexivity.
  - intros p w s r Hin.
    apply in_app_or in Hin as [Hin|Hin];
      [exfalso; exact (Housekeeping_not_applied _ _ _ _ _ Hhk0 Hin)|].
    apply in_app_or in Hin as [Hin|Hin].
    + left. destruct Hux as [(_ & -> & _)|(i0 & p0 & s0 & r0 & Hfirst & _ & -> & _)].
      * destruct Hin.
      * destruct Hin as [Heq|[]]. injection Heq as <- <- <- <-.
        split; [reflexivity|]. exists i0.
        apply (FirstUxCapsule_same st stP _ _ HsameP). exact Hfirst.
    + apply in_app_or in Hin as [Hin|Hin];
        [|exfalso; exact (Housekeeping_not_applied _ _ _ _ _ HhkE Hin)].
      right. rewrite List.Forall_forall in Hevents.
      specialize (Hevents _ Hin). simpl in Hevents. destruct Hevents as [-> Hv].
      split; [reflexivity|].
      rewrite <- (SweepVerdict_same FirstRound st stU _ _ HmemU). exact Hv.
  - intros i p Hfirst.
    assert (HfirstP : FirstUxCapsule stP i p)
      by (apply (FirstUxCapsule_same st stP _ _ HsameP); exact Hfirst).
    destruct Hux as [(Hno & _)|(i0 & p0 & s0 & r0 & Hfirst0 & _ & -> & HstU)].
    { exfalso. eapply NoUxCapsule_not_first; eauto. }
    destruct (FirstUxCapsule_unique _ _ _ _ _ HfirstP Hfirst0) as [<- <-].
    destruct Hfirst as (Hp & Hisux & _).
    assert (Hi : (i < length (mCapsulePtr st))%nat) by (eapply lookup_lt_Some; eauto).
    assert (HsU : mCapsuleStatusArray stU !! i = Some EFI_SUCCESS).
    { rewrite HstU. apply list_lookup_insert_eq.
      rewrite HstatP, (wf_status_length _ Hwf). exact Hi. }
    split.
    + rewrite HstatE.
      assert (HpU : mCapsulePtr stU !! i = Some p)
        by (rewrite (same_ptr _ _ HsameStU); exact Hp).
      specialize (Hinside i EFI_SUCCESS p ltac:(lia) HsU HpU).
      unfold IndexOutcome, SweepVerdict in Hinside.
      rewrite EFI_SUCCESS_not_pending in Hinside. exact Hinside.
    + exists s0, r0. rewrite !UxCalls_app.
      rewrite (Housekeeping_UxCalls evs0 Hhk0), (Housekeeping_UxCalls evsE HhkE).
      rewrite (UxCalls_none evsS HswEv). reflexivity.
  - intros Hno. rewrite !UxCalls_app.
    rewrite (Housekeeping_UxCalls evs0 Hhk0), (Housekeeping_UxCalls evsE HhkE).
    rewrite (UxCalls_none evsS HswEv).
    destruct Hux as [(_ & -> & _)|(i0 & p0 & s0 & r0 & Hfirst0 & _)]; [reflexivity|].
    exfalso. apply (NoUxCapsule_not_first stP i0 p0); [|exact Hfirst0].
    apply (NoUxCapsule_same st stP HsameP). exact Hno.
  - intros i s p Hs Hp Hnot.
    assert (Hi : (i < length (mCapsulePtr st))%nat) by (eapply lookup_lt_Some; eauto).
    rewrite HstatE.
    apply (IndexOutcome_incl FirstRound stU st s p _ evsS).
    + symmetry. exact HmemU.
    + intros e He. apply in_or_app. right. apply in_or_app. right.
      apply in_or_app. left. exact He.
    + apply Hinside; [lia| |rewrite (same_ptr _ _ HsameStU); exact Hp].
      rewrite (HstatU i p Hp Hnot). exact Hs.
  - repeat (apply Forall_app; split).
    + eapply Forall_impl; [exact Hbk0|]. intros e. apply Bookkeeping_dispatch.
    + destruct Hux as [(_ & -> & _)|(i0 & p0 & s0 & r0 & _ & _ & -> & _)];
        repeat constructor.
    + eapply Forall_impl; [exact Hevents|]. intros e.
      destruct e; simpl; try tauto. intros [->| ->]; split; discriminate.
    + eapply Forall_impl; [exact HbkE|]. intros e. apply Bookkeeping_dispatch.
Qed.


Lemma DispatchCapsules_spec (FirstRound : bool) (st : State W) :
  wf st ->
  wp (DispatchCapsules FirstRound)
     (fun r st' => r = EFI_SUCCESS /\ exists evs, PassEffect FirstRound st st' evs) st.
Proof.
  intros Hwf. unfold DispatchCapsules.
  assert (Hpub : exists evsP,
             Forall PublisherEvent evsP /\
             (if FirstRound then PopulateCapsuleInConfigurationTable else ret tt) st
             = Ok tt (replay evsP st)).
  { destruct FirstRound.
    - exists (PopulateEvents st). split; [apply PopulateEvents_publisher|].
      apply PopulateCapsuleInConfigurationTable_spec. exact Hwf.
    - exists []. split; [constructor|reflexivity]. }
  destruct Hpub as (evsP & HevsP & Hpop).
  apply wp_bind. unfold wp at 1. rewrite Hpop.
  apply wp_bind, wp_emit.
  set (stP := record (EvReportStatusCode EFI_PROGRESS_CODE UpdatingFirmware)
                (replay evsP st)).
  assert (HsameP : same_capsules st stP)
    by (eapply same_capsules_trans; [apply replay_same|apply same_capsules_record]).
  assert (HwfP : wf stP) by (eapply same_capsules_wf; eauto).
  apply wp_bind, wp_gets. apply wp_bind.
  eapply wp_mono; [|apply (ProcessUxCapsule_spec _ 0 stP HwfP)].
  2:{ rewrite (wf_total _ HwfP). reflexivity. }
  2:{ intros j q Hj. lia. }
  intros [] stU (evsU & HsameU & HtrU & HneedU & Hux).
  assert (HwfU : wf stU) by (eapply same_capsules_wf; eauto).
  apply wp_bind, wp_gets. apply wp_bind.
  eapply wp_mono; [|apply (ProcessRemainingCapsules_spec FirstRound _ 0 stU HwfU)].
  2:{ rewrite (wf_total _ HwfU). reflexivity. }
  intros [] stS (evsS & HsameS & HtrS & Hsweep).
  rewrite Nat.add_0_l, (wf_total _ HwfU) in Hsweep.
  rewrite (same_ptr _ _ HsameU), (same_ptr _ _ HsameP) in Hsweep.
  apply wp_bind. unfold wp at 1, LocateEsrtManagement.
  set (sE := ext_LocateEsrtManagement (world stS)).
  assert (Htail : exists evsE,
             Forall Bookkeeping evsE /\
             forall Q : unit -> State W -> Prop,
               Q tt (replay evsE stS) ->
               wp (if negb (EFI_ERROR sE) then SyncEsrtFmp else ret tt) Q
                  (record (EvLocateEsrtManagement sE) stS)).
  { destruct (negb (EFI_ERROR sE)).
    - exists [EvLocateEsrtManagement sE; EvSyncEsrtFmp].
      split; [repeat constructor|]. intros Q HQ. exact HQ.
    - exists [EvLocateEsrtManagement sE].
      split; [repeat constructor|]. intros Q HQ. exact HQ. }
  destruct Htail as (evsE & HevsE & Hwp).
  apply wp_bind. apply Hwp.
  apply wp_bind, wp_emit. apply wp_ret.
  split; [reflexivity|].
  exists ((evsP ++ [EvReportStatusCode EFI_PROGRESS_CODE UpdatingFirmware]) ++ evsU ++ evsS ++
          (evsE ++ [EvReportStatusCode EFI_PROGRESS_CODE ProcessCapsulesEnd])).
  apply (PassEffect_assemble FirstRound st stP stU stS); auto.
  - unfold stP. simpl. apply replay_status.
  - unfold stP. simpl. apply replay_reset.
  - unfold stP. simpl. rewrite replay_trace, app_assoc. reflexivity.
  - apply Forall_app. split.
    + eapply Forall_impl; [exact HevsP|]. intros e. apply PublisherEvent_bookkeeping.
    + constructor; [simpl; auto|constructor].
  - eapply same_capsules_trans; [apply replay_same|apply same_capsules_record].
  - simpl. apply replay_status.
  - simpl. apply replay_reset.
  - simpl. rewrite replay_trace, app_assoc. reflexivity.
  - apply Forall_app. split; [exact HevsE|].
    constructor; [simpl; auto|constructor].
Qed.

Lemma boot_state_record e (st : State W) : boot_state st -> boot_state (record e st).
Proof. intros []. split; assumption. Qed.

(** Discovery on the first round, from the boot state. *)
Lemma DiscoverCapsules_first (st : State W) :
  boot_state st ->
  exists st1 evs,
    DiscoverCapsules true st = Ok tt st1 /\
    Discovered (record (EvReportStatusCode EFI_PROGRESS_CODE ProcessCapsulesBegin) st)
      st1 evs.
Proof.
  intros Hboot.
  pose proof (InitCapsulePtr_spec _
                (boot_state_record
                   (EvReportStatusCode EFI_PROGRESS_CODE ProcessCapsulesBegin) st Hboot))
    as Hinit.
  apply wp_ok in Hinit as ([] & st1 & Hrun & evs & Hdisc).
  exists st1, evs. split; [|exact Hdisc].
  unfold DiscoverCapsules, bind, REPORT_STATUS_CODE, emit, modify. exact Hrun.
Qed.

(** [ProcessTheseCapsules], given the state in which discovery leaves
    the module. *)
Lemma ProcessTheseCapsules_spec (FirstRound : bool) (st st1 : State W) :
  DiscoverCapsules FirstRound st = Ok tt st1 -> wf st1 ->
  exists st',
    ProcessTheseCapsules FirstRound st = Ok EFI_SUCCESS st' /\
    if ShortCircuit st1 then st' = st1
    else exists evs, PassEffect FirstRound st1 st' evs.
Proof.
  intros Hdisc Hwf1. unfold ProcessTheseCapsules, ShortCircuit.
  unfold bind at 1. rewrite Hdisc. unfold bind at 1, gets.
  destruct (mCapsuleTotalNumber st1 =? 0); [exists st1; split; reflexivity|].
  unfold bind at 1. rewrite (AreAllImagesProcessed_spec st1 Hwf1).
  simpl orb.
  destruct (forallb (fun s => negb (s =? EFI_NOT_READY)) (mCapsuleStatusArray st1));
    [exists st1; split; reflexivity|].
  pose proof (DispatchCapsules_spec FirstRound st1 Hwf1) as Hd.
  apply wp_ok in Hd as (r & st' & Hrun & -> & Heff).
  exists st'. split; [exact Hrun|exact Heff].
Qed.


Lemma PassEffect_wf (FirstRound : bool) (st1 st' : State W) evs :
  PassEffect FirstRound st1 st' evs -> wf st1 -> wf st'.
Proof. intros Heff. apply same_capsules_wf. exact (pass_same _ _ _ _ Heff). Qed.

(** Every pass from a legitimate start runs to completion. *)
Lemma pass_run (FirstRound : bool) (st : State W) :
  PassStart FirstRound st -> exists st1 st' new evs, PassRun FirstRound st st1 st' new evs.
Proof.
  intros Hstart.
  assert (Hdisc : exists st1 evsD,
             DiscoverCapsules FirstRound st = Ok tt st1 /\ wf st1 /\
             trace st1 = trace st ++
               EvReportStatusCode EFI_PROGRESS_CODE ProcessCapsulesBegin :: evsD /\
             Forall PublisherEvent evsD /\
             ((exists k n, In (EvAllocatePool k n false) evsD) ->
              mCapsuleTotalNumber st1 = 0) /\
             mNeedReset st1 = mNeedReset st /\ CapsuleMemory st1 = CapsuleMemory st /\
             (FirstRound = true -> AllPending st1) /\
             (FirstRound = false ->
              mCapsulePtr st1 = mCapsulePtr st /\
              mCapsuleStatusArray st1 = mCapsuleStatusArray st)).
  { destruct FirstRound; simpl in Hstart.
    - destruct (DiscoverCapsules_first st Hstart) as (st1 & evsD & Hrun & Hd).
      destruct Hd as [Hwf Hpend Hres Hmem Hfmp Htr Hev Hcaps Hfail].
      exists st1, evsD.
      split; [exact Hrun|]. split; [exact Hwf|].
      split; [rewrite Htr; simpl; rewrite <- app_assoc; reflexivity|].
      split; [exact Hev|]. split; [exact Hfail|].
      split; [exact Hres|]. split; [exact Hmem|].
      split; [auto|discriminate].
    - exists (record (EvReportStatusCode EFI_PROGRESS_CODE ProcessCapsulesBegin) st), [].
      split; [reflexivity|].
      split; [eapply same_capsules_wf; [apply same_capsules_record|exact Hstart]|].
      split; [reflexivity|]. split; [constructor|].
      split; [intros (k & n & [])|].
      split; [reflexivity|]. split; [reflexivity|].
      split; [discriminate|auto]. }
  destruct Hdisc as (st1 & evsD & Hrun & Hwf1 & Htr1 & HevD & Hfail & Hres & Hmem & Hfirst & Hlater).
  destruct (ProcessTheseCapsules_spec FirstRound st st1 Hrun Hwf1) as (st' & Hret & Heff).
  destruct (ShortCircuit st1) eqn:Hsc.
  - subst st'.
    exists st1, st1, ((EvReportStatusCode EFI_PROGRESS_CODE ProcessCapsulesBegin :: evsD) ++ []), [].
    split; auto.
    + rewrite app_nil_r. exact Htr1.
    + exists evsD. auto.
    + rewrite Hsc. auto.
  - destruct Heff as (evs & Heff).
    exists st1, st', ((EvReportStatusCode EFI_PROGRESS_CODE ProcessCapsulesBegin :: evsD) ++ evs), evs.
    split; auto.
    + eapply PassEffect_wf; eauto.
    + rewrite (pass_trace _ _ _ _ Heff), Htr1, <- app_assoc. reflexivity.
    + exists evsD. auto.
    + rewrite Hsc. exact Heff.
Qed.

End Pass.

(** ** The progress reporter *)

Section Progress.
Context {W : Type} {PF : Platform W}.

(** C8, as amended. [UpdateImageProgress] rejects a percentage above
    100 with [EFI_INVALID_PARAMETER] and leaves the state, trace
    included, untouched. Otherwise it disarms the watchdog, re-arms it
    when the percentage is not 100 and the timeout is not zero, the
    timeout being that of the progress protocol when there is one and
    300 seconds otherwise, then calls the display with the percentage
    and the colour and returns what the display returned. *)
Theorem UpdateImageProgress_behaviour (Completion : Z) (st : State W) :
  UpdateImageProgress Completion st =
  if 100 <? Completion then Ok EFI_INVALID_PARAMETER st
  else ReportOutcome
         (EvSetWatchdogTimer 0 ::
          (if (Completion =? 100) || (ProgressSeconds st =? 0) then []
           else [EvSetWatchdogTimer (ProgressSeconds st)]))
         Completion (ProgressColor st) st.
Proof.
  unfold UpdateImageProgress, ReportOutcome, ProgressSeconds, ProgressColor.
  destruct (100 <? Completion); [reflexivity|].
  unfold bind, gets, SetWatchdogTimer, DisplayUpdateProgress, emit, modify, ret.
  destruct (mFmpProgress st) as [fmp|];
    destruct (Completion =? 100); simpl negb; simpl orb; cbv iota; try reflexivity.
  destruct (WatchdogSeconds fmp =? 0); reflexivity.
Qed.

(** C10. [Update_Image_Progress] takes the percentage from the low
    eight bits of its argument and the colour from bits 8 to 31. It
    rejects the call, without any other effect, exactly when the low
    byte is above 100, whatever the full value; otherwise it disarms
    the watchdog, re-arms it with the PCD timeout unless the low byte is
    100, and calls the display with the low byte and the colour. *)
Theorem Update_Image_Progress_low_byte (Completion : Z) (st : State W) :
  let Percentage := Completion mod 2 ^ 8 in
  let Color := (Completion / 2 ^ 8) mod 2 ^ 24 in
  (forall k, Z.testbit Percentage k = (k <? 8) && Z.testbit Completion k) /\
  (forall k, Z.testbit Color k =
             (0 <=? k) && (k <? 24) && Z.testbit Completion (k + 8)) /\
  Update_Image_Progress Completion st =
  if 100 <? Percentage then Ok EFI_INVALID_PARAMETER st
  else ReportOutcome
         (EvSetWatchdogTimer 0 ::
          (if Percentage =? 100 then []
           else [EvSetWatchdogTimer PcdCapsuleUpdateWatchdogTimeInSeconds]))
         Percentage (Some Color) st.
Proof.
  intros Percentage Color.
  assert (Hpct : Z.land Completion 0xFF = Percentage).
  { change 0xFF with (Z.ones 8). apply Z.land_ones. lia. }
  assert (Hcol : UINT32 (Z.land (Z.shiftr Completion 8) 0xFFFFFF) = Color).
  { change 0xFFFFFF with (Z.ones 24). rewrite Z.land_ones by lia.
    rewrite Z.shiftr_div_pow2 by lia. unfold UINT32, Color.
    apply Z.mod_small.
    pose proof (Z.mod_pos_bound (Completion / 2 ^ 8) (2 ^ 24) ltac:(lia)). lia. }
  split; [|split].
  - intros k. unfold Percentage. destruct (Z.ltb_spec k 8).
    + destruct (Z.ltb_spec k 0).
      * rewrite !Z.testbit_neg_r by lia. reflexivity.
      * rewrite Z.mod_pow2_bits_low by lia. reflexivity.
    + rewrite Z.mod_pow2_bits_high by lia. reflexivity.
  - intros k. unfold Color. destruct (Z.leb_spec 0 k); simpl andb.
    + destruct (Z.ltb_spec k 24).
      * rewrite Z.mod_pow2_bits_low by lia.
        rewrite Z.div_pow2_bits by lia. reflexivity.
      * rewrite Z.mod_pow2_bits_high by lia. reflexivity.
    + apply Z.testbit_neg_r. lia.
  - unfold Update_Image_Progress. rewrite Hpct, Hcol.
    destruct (100 <? Percentage); [reflexivity|].
    unfold ReportOutcome, bind, SetWatchdogTimer, DisplayUpdateProgress, emit, modify, ret.
    destruct (Percentage =? 100); reflexivity.
Qed.

End Progress.

(** C8, as worded: with a progress protocol whose timeout is zero, a
    report of 50 percent disarms the watchdog and does not re-arm it. *)
Lemma UpdateImageProgress_zero_timeout_not_rearmed :
  ~ ReportAsSpecified (PF := ScenarioPlatform Plain) 50
      (WithProgress NoWatchdogProgress (BootWith [])).
Proof.
  unfold ReportAsSpecified. intros Heq.
  apply (f_equal (fun r => match r with
                           | Ok _ s => length (trace s)
                           | _ => O
                           end)) in Heq.
  vm_compute in Heq. discriminate.
Qed.

(** ** The reset coordinator *)

Section Reset.
Context {W : Type} {PF : Platform W}.

Lemma ProcessCapsules_unfold (st : State W) :
  ProcessCapsules st =
  match ProcessTheseCapsules true st with
  | Ok Status st' =>
      if mNeedReset st'
      then NoReturn (replay [EvReportStatusCode EFI_PROGRESS_CODE ResettingSystem;
                             EvResetSystemWithSubtype EfiResetCold
                               gCapsuleUpdateCompleteResetGuid] st')
      else Ok Status st'
  | Fault => Fault
  | NoReturn st' => NoReturn st'
  end.
Proof.
  unfold ProcessCapsules. unfold bind at 1.
  destruct (ProcessTheseCapsules true st) as [Status st'| |st']; try reflexivity.
  unfold bind, gets. destruct (mNeedReset st'); reflexivity.
Qed.

Lemma PassRun_events (FirstRound : bool) (st st1 st' : State W) new evs :
  PassRun FirstRound st st1 st' new evs ->
  exists rest,
    new = EvReportStatusCode EFI_PROGRESS_CODE ProcessCapsulesBegin :: rest /\
    Forall DispatchEvent rest.
Proof.
  intros Hrun. destruct (run_split _ _ _ _ _ _ Hrun) as (evsD & -> & _ & HevD & _).
  exists (evsD ++ evs). split; [reflexivity|].
  apply Forall_app. split.
  - eapply Forall_impl; [exact HevD|]. intros e He.
    apply Bookkeeping_dispatch, PublisherEvent_bookkeeping, He.
  - pose proof (run_effect _ _ _ _ _ _ Hrun) as Heff.
    destruct (ShortCircuit st1).
    + destruct Heff as [_ ->]. constructor.
    + exact (pass_events _ _ _ _ Heff).
Qed.

(** C9. From the boot state, [ProcessCapsules] runs one pass of
    [ProcessTheseCapsules] with [FirstRound = TRUE]: the pass returns
    [EFI_SUCCESS], its calls begin with the one begin report and contain
    no other begin report and no reset. Then, if [mNeedReset] is set,
    the resetting status code is reported, the platform is reset cold
    with [gCapsuleUpdateCompleteResetGuid], and control never comes back;
    if [mNeedReset] is clear, nothing more is called and the status of
    the pass is returned. So [ProcessCapsules] returns only with
    [mNeedReset] clear. *)
Theorem ProcessCapsules_one_pass_then_reset (st : State W) :
  boot_state st ->
  exists st' rest,
    ProcessTheseCapsules true st = Ok EFI_SUCCESS st' /\
    trace st' =
      trace st ++ EvReportStatusCode EFI_PROGRESS_CODE ProcessCapsulesBegin :: rest /\
    Forall DispatchEvent rest /\
    ProcessCapsules st =
      (if mNeedReset st'
       then NoReturn (replay [EvReportStatusCode EFI_PROGRESS_CODE ResettingSystem;
                              EvResetSystemWithSubtype EfiResetCold
                                gCapsuleUpdateCompleteResetGuid] st')
       else Ok EFI_SUCCESS st') /\
    (forall Status st'', ProcessCapsules st = Ok Status st'' ->
       st'' = st' /\ mNeedReset st'' = false).
Proof.
  intros Hboot.
  destruct (pass_run true st Hboot) as (st1 & st' & new & evs & Hrun).
  destruct (PassRun_events _ _ _ _ _ _ Hrun) as (rest & -> & Hrest).
  pose proof (run_return _ _ _ _ _ _ Hrun) as Hret.
  exists st', rest.
  split; [exact Hret|]. split; [exact (run_trace _ _ _ _ _ _ Hrun)|].
  split; [exact Hrest|].
  rewrite ProcessCapsules_unfold, Hret.
  split; [reflexivity|].
  intros Status st''. destruct (mNeedReset st') eqn:Hneed; [discriminate|].
  intros Heq. injection Heq as _ <-. auto.
Qed.

End Reset.

(** ** Consequences for one entry *)

Section Entries.
Context {W : Type} {PF : Platform W}.

Lemma pending_not_short (st1 : State W) i :
  wf st1 -> mCapsuleStatusArray st1 !! i = Some EFI_NOT_READY ->
  ShortCircuit st1 = false.
Proof.
  intros Hwf Hs. unfold ShortCircuit. apply orb_false_iff. split.
  - apply Z.eqb_neq. apply lookup_lt_Some in Hs.
    rewrite (wf_status_length _ Hwf) in Hs.
    rewrite <- (wf_ptr_length _ Hwf). lia.
  - destruct (forallb (fun s => negb (s =? EFI_NOT_READY)) (mCapsuleStatusArray st1))
      eqn:Hall; [|reflexivity].
    rewrite forallb_forall in Hall.
    assert (Hin : In EFI_NOT_READY (mCapsuleStatusArray st1)).
    { apply list_elem_of_In. eapply list_elem_of_lookup_2. exact Hs. }
    specialize (Hall _ Hin). discriminate.
Qed.

Lemma short_not_pending (st1 : State W) i s :
  wf st1 -> ShortCircuit st1 = true -> mCapsuleStatusArray st1 !! i = Some s ->
  (s =? EFI_NOT_READY) = false.
Proof.
  intros Hwf Hsc Hs. destruct (s =? EFI_NOT_READY) eqn:Hp; [|reflexivity].
  apply Z.eqb_eq in Hp. subst s.
  rewrite (pending_not_short st1 i Hwf Hs) in Hsc. discriminate.
Qed.

(** The calls of the image processor in a pass are those made after
    discovery. *)
Lemma PassRun_process (FirstRound : bool) (st st1 st' : State W) new evs p w s r :
  PassRun FirstRound st st1 st' new evs ->
  In (EvProcessThisCapsuleImage p w s r) new <->
  In (EvProcessThisCapsuleImage p w s r) evs.
Proof.
  intros Hrun. destruct (run_split _ _ _ _ _ _ Hrun) as (evsD & -> & _ & HevD & _).
  split.
  - intros Hin. apply in_app_or in Hin as [[Hin|Hin]|Hin]; [discriminate| |exact Hin].
    rewrite List.Forall_forall in HevD. destruct (HevD _ Hin).
  - intros Hin. apply in_or_app. right. exact Hin.
Qed.

(** Which capsules the image processor is called for. *)
Lemma PassRun_applied (FirstRound : bool) (st st1 st' : State W) new evs p w s r :
  PassRun FirstRound st st1 st' new evs ->
  In (EvProcessThisCapsuleImage p w s r) new ->
  (w = false /\ exists i, FirstUxCapsule st1 i p) \/
  (w = true /\ SweepVerdict FirstRound st1 EFI_NOT_READY p = VApply).
Proof.
  intros Hrun Hin. apply (PassRun_process _ _ _ _ _ _ _ _ _ _ Hrun) in Hin.
  pose proof (run_effect _ _ _ _ _ _ Hrun) as Heff.
  destruct (ShortCircuit st1).
  - destruct Heff as [_ ->]. destruct Hin.
  - exact (pass_applied _ _ _ _ Heff _ _ _ _ Hin).
Qed.

(** Where an entry that is not the Windows UX capsule stands after a pass. *)
Lemma PassRun_outcome (FirstRound : bool) (st st1 st' : State W) new evs i s p :
  PassRun FirstRound st st1 st' new evs ->
  mCapsuleStatusArray st1 !! i = Some s -> mCapsulePtr st1 !! i = Some p ->
  ~ FirstUxCapsule st1 i p ->
  IndexOutcome FirstRound st1 s p (mCapsuleStatusArray st' !! i) new.
Proof.
  intros Hrun Hs Hp Hnot.
  pose proof (run_effect _ _ _ _ _ _ Hrun) as Heff.
  destruct (ShortCircuit st1) eqn:Hsc.
  - destruct Heff as [-> _]. unfold IndexOutcome, SweepVerdict.
    rewrite (short_not_pending st1 i s (run_wf _ _ _ _ _ _ Hrun) Hsc Hs). exact Hs.
  - apply (IndexOutcome_incl FirstRound st1 st1 s p _ evs); [reflexivity| |].
    + destruct (run_split _ _ _ _ _ _ Hrun) as (evsD & -> & _).
      intros e He. apply in_or_app. right. exact He.
    + exact (pass_other _ _ _ _ Heff i s p Hs Hp Hnot).
Qed.


Lemma not_ux_not_first (st1 : State W) i p :
  IsUxCapsule st1 p = false -> ~ FirstUxCapsule st1 i p.
Proof. intros Hux (_ & Hux' & _). congruence. Qed.

(** A capsule that is neither the Windows UX capsule nor accepted by the
    second loop is not handed to the image processor. *)
Lemma PassRun_not_applied (FirstRound : bool) (st st1 st' : State W) new evs p :
  PassRun FirstRound st st1 st' new evs ->
  IsUxCapsule st1 p = false ->
  SweepVerdict FirstRound st1 EFI_NOT_READY p <> VApply ->
  ~ Applied p new.
Proof.
  intros Hrun Hux Hv (w & s & r & Hin).
  destruct (PassRun_applied _ _ _ _ _ _ _ _ _ _ Hrun Hin) as [(_ & i & Hfirst)|(_ & Hv')].
  - exact (not_ux_not_first st1 i p Hux Hfirst).
  - exact (Hv Hv').
Qed.

(** A later round starts from the arrays the earlier pass left. *)
Lemma Later_run (st' st2 : State W) :
  Later st' st2 ->
  exists st1 st3 new evs,
    PassRun false st2 st1 st3 new evs /\
    mCapsulePtr st1 = mCapsulePtr st' /\
    mCapsuleStatusArray st1 = mCapsuleStatusArray st' /\
    CapsuleMemory st1 = CapsuleMemory st'.
Proof.
  intros [Hwf Hptr Hstat Hmem].
  destruct (pass_run false st2 Hwf) as (st1 & st3 & new & evs & Hrun).
  exists st1, st3, new, evs. split; [exact Hrun|].
  destruct (run_later _ _ _ _ _ _ Hrun eq_refl) as [Hp Hs].
  rewrite Hp, Hs, (run_memory _ _ _ _ _ _ Hrun). auto.
Qed.


Lemma PassRun_same (FirstRound : bool) (st st1 st' : State W) new evs :
  PassRun FirstRound st st1 st' new evs -> same_capsules st1 st'.
Proof.
  intros Hrun. pose proof (run_effect _ _ _ _ _ _ Hrun) as Heff.
  destruct (ShortCircuit st1).
  - destruct Heff as [-> _]. apply same_capsules_refl.
  - exact (pass_same _ _ _ _ Heff).
Qed.

Lemma PassRun_unique (FirstRound : bool) (st st1 st1' st' : State W) new evs :
  PassRun FirstRound st st1' st' new evs ->
  DiscoverCapsules FirstRound st = Ok tt st1 -> st1' = st1.
Proof.
  intros Hrun Hd. rewrite (run_discover _ _ _ _ _ _ Hrun) in Hd. congruence.
Qed.

(** C7. An entry handled by the second loop whose capsule fails
    [IsFmpCapsule], or passes it and fails [ValidateFmpCapsule], has
    status [EFI_ABORTED] after the pass, and the image processor has not
    been called for the capsule.
    The outcome is final: a later pass leaves the status [EFI_ABORTED]
    and does not call the image processor for the capsule either. *)
Theorem failed_probe_or_validation_aborts
    (FirstRound : bool) (st st1 : State W) (i : nat) (p : Z) :
  PassStart FirstRound st ->
  DiscoverCapsules FirstRound st = Ok tt st1 ->
  HandledBySweep st1 i p ->
  IsFmpCapsule p = false \/
  (IsFmpCapsule p = true /\ EFI_ERROR (fst (ValidateFmpCapsule p)) = true) ->
  exists st' new,
    ProcessTheseCapsules FirstRound st = Ok EFI_SUCCESS st' /\
    trace st' = trace st ++ new /\
    mCapsuleStatusArray st' !! i = Some EFI_ABORTED /\
    ~ Applied p new /\
    forall st2, Later st' st2 ->
      exists st3 new2,
        ProcessTheseCapsules false st2 = Ok EFI_SUCCESS st3 /\
        trace st3 = trace st2 ++ new2 /\
        mCapsuleStatusArray st3 !! i = Some EFI_ABORTED /\
        ~ Applied p new2.
Proof.
  intros Hstart Hd [Hp Hs Hux] Hbad.
  destruct (pass_run FirstRound st Hstart) as (st1' & st' & new & evs & Hrun).
  rewrite (PassRun_unique _ _ _ _ _ _ _ Hrun Hd) in Hrun. clear st1'.
  assert (Hverdict : forall FR (stx : State W),
             CapsuleMemory stx = CapsuleMemory st1 ->
             SweepVerdict FR stx EFI_NOT_READY p = VAbort).
  { intros FR stx Hm. rewrite (SweepVerdict_same FR st1 stx _ _ Hm).
    unfold SweepVerdict. rewrite Z.eqb_refl, Hux. simpl.
    destruct Hbad as [-> | [-> ->]]; reflexivity. }
  pose proof (PassRun_same _ _ _ _ _ _ Hrun) as Hsame.
  assert (Hfinal : mCapsuleStatusArray st' !! i = Some EFI_ABORTED).
  { pose proof (PassRun_outcome _ _ _ _ _ _ i _ p Hrun Hs Hp
                  (not_ux_not_first st1 i p Hux)) as Hout.
    unfold IndexOutcome in Hout. rewrite (Hverdict FirstRound st1 eq_refl) in Hout.
    exact Hout. }
  exists st', new.
  split; [exact (run_return _ _ _ _ _ _ Hrun)|].
  split; [exact (run_trace _ _ _ _ _ _ Hrun)|].
  split; [exact Hfinal|].
  split.
  { apply (PassRun_not_applied _ _ _ _ _ _ p Hrun Hux).
    rewrite (Hverdict FirstRound st1 eq_refl). discriminate. }
  intros st2 Hlater.
  destruct (Later_run st' st2 Hlater) as (st1b & st3 & new2 & evs2 & Hrun2 & Hptr2 & Hstat2 & Hmem2).
  assert (Hmem : CapsuleMemory st1b = CapsuleMemory st1)
    by (rewrite Hmem2; exact (same_memory _ _ Hsame)).
  assert (Hux2 : IsUxCapsule st1b p = false)
    by (unfold IsUxCapsule in *; rewrite Hmem; exact Hux).
  exists st3, new2.
  split; [exact (run_return _ _ _ _ _ _ Hrun2)|].
  split; [exact (run_trace _ _ _ _ _ _ Hrun2)|].
  split.
  - assert (Hs2 : mCapsuleStatusArray st1b !! i = Some EFI_ABORTED)
      by (rewrite Hstat2; exact Hfinal).
    assert (Hp2 : mCapsulePtr st1b !! i = Some p)
      by (rewrite Hptr2, (same_ptr _ _ Hsame); exact Hp).
    pose proof (PassRun_outcome _ _ _ _ _ _ i _ p Hrun2 Hs2 Hp2
                  (not_ux_not_first st1b i p Hux2)) as Hout.
    unfold IndexOutcome, SweepVerdict in Hout.
    rewrite EFI_ABORTED_not_pending in Hout. exact Hout.
  - apply (PassRun_not_applied _ _ _ _ _ _ p Hrun2 Hux2).
    rewrite (Hverdict false st1b Hmem). discriminate.
Qed.

(** C1. An entry handled by the second loop whose capsule passes
    [IsFmpCapsule] and [ValidateFmpCapsule]:
    - on the first round with a non-zero [EmbeddedDriverCount] (the
      count is unsigned, so: greater than zero), the image processor is
      not called for the capsule and the status is still [EFI_NOT_READY]
      after the pass; and any later pass with [FirstRound = FALSE] calls
      the image processor for it;
    - in every other case ([FirstRound] false, or a zero count) the
      image processor is called for it in this very pass. *)
Theorem embedded_driver_deferral
    (FirstRound : bool) (st st1 : State W) (i : nat) (p : Z) :
  PassStart FirstRound st ->
  DiscoverCapsules FirstRound st = Ok tt st1 ->
  HandledBySweep st1 i p ->
  IsFmpCapsule p = true ->
  EFI_ERROR (fst (ValidateFmpCapsule p)) = false ->
  exists st' new,
    ProcessTheseCapsules FirstRound st = Ok EFI_SUCCESS st' /\
    trace st' = trace st ++ new /\
    if FirstRound && negb (snd (ValidateFmpCapsule p) =? 0)
    then
      mCapsuleStatusArray st' !! i = Some EFI_NOT_READY /\
      ~ Applied p new /\
      forall st2, Later st' st2 ->
        exists st3 new2 s r,
          ProcessTheseCapsules false st2 = Ok EFI_SUCCESS st3 /\
          trace st3 = trace st2 ++ new2 /\
          In (EvProcessThisCapsuleImage p true s r) new2
    else
      exists s r, In (EvProcessThisCapsuleImage p true s r) new.
Proof.
  intros Hstart Hd [Hp Hs Hux] Hfmp Hval.
  destruct (pass_run FirstRound st Hstart) as (st1' & st' & new & evs & Hrun).
  rewrite (PassRun_unique _ _ _ _ _ _ _ Hrun Hd) in Hrun. clear st1'.
  assert (Hverdict : forall FR (stx : State W),
             CapsuleMemory stx = CapsuleMemory st1 ->
             SweepVerdict FR stx EFI_NOT_READY p =
             if FR && negb (snd (ValidateFmpCapsule p) =? 0) then VDefer else VApply).
  { intros FR stx Hm. rewrite (SweepVerdict_same FR st1 stx _ _ Hm).
    unfold SweepVerdict. rewrite Z.eqb_refl, Hux, Hfmp, Hval. reflexivity. }
  pose proof (PassRun_same _ _ _ _ _ _ Hrun) as Hsame.
  pose proof (PassRun_outcome _ _ _ _ _ _ i _ p Hrun Hs Hp
                (not_ux_not_first st1 i p Hux)) as Hout.
  unfold IndexOutcome in Hout. rewrite (Hverdict FirstRound st1 eq_refl) in Hout.
  exists st', new.
  split; [exact (run_return _ _ _ _ _ _ Hrun)|].
  split; [exact (run_trace _ _ _ _ _ _ Hrun)|].
  destruct (FirstRound && negb (snd (ValidateFmpCapsule p) =? 0)) eqn:Hdefer.
  - split; [exact Hout|]. split.
    { apply (PassRun_not_applied _ _ _ _ _ _ p Hrun Hux).
      rewrite (Hverdict FirstRound st1 eq_refl), Hdefer. discriminate. }
    intros st2 Hlater.
    destruct (Later_run st' st2 Hlater)
      as (st1b & st3 & new2 & evs2 & Hrun2 & Hptr2 & Hstat2 & Hmem2).
    assert (Hmem : CapsuleMemory st1b = CapsuleMemory st1)
      by (rewrite Hmem2; exact (same_memory _ _ Hsame)).
    assert (Hux2 : IsUxCapsule st1b p = false)
      by (unfold IsUxCapsule in *; rewrite Hmem; exact Hux).
    assert (Hs2 : mCapsuleStatusArray st1b !! i = Some EFI_NOT_READY)
      by (rewrite Hstat2; exact Hout).
    assert (Hp2 : mCapsulePtr st1b !! i = Some p)
      by (rewrite Hptr2, (same_ptr _ _ Hsame); exact Hp).
    pose proof (PassRun_outcome _ _ _ _ _ _ i _ p Hrun2 Hs2 Hp2
                  (not_ux_not_first st1b i p Hux2)) as Hout2.
    unfold IndexOutcome in Hout2. rewrite (Hverdict false st1b Hmem) in Hout2.
    simpl in Hout2. destruct Hout2 as (s & r & Hin & _).
    exists st3, new2, s, r.
    split; [exact (run_return _ _ _ _ _ _ Hrun2)|].
    split; [exact (run_trace _ _ _ _ _ _ Hrun2)|]. exact Hin.
  - destruct Hout as (s & r & Hin & _). exists s, r. exact Hin.
Qed.

End Entries.

(** ** The return value of a pass *)

Section ReturnValue.
Context {W : Type} {PF : Platform W}.

(** C4, as the code behaves. Every run of [ProcessTheseCapsules] from a
    legitimate start returns [EFI_SUCCESS], whatever the validators and
    the image processor answer: the [EFI_OUT_OF_RESOURCES] that the
    header comment of the function announces is never returned. A pool
    allocation that fails during discovery is not reported to the
    caller: discovery ends with no capsule at all and the pass returns
    [EFI_SUCCESS] at once, in the state discovery left. What becomes of
    a capsule is in the status array only for the entries that the
    second loop handles: such an entry ends [EFI_ABORTED] when the probe
    or the validation fails, with the result of the image processor
    when that is called, and stays [EFI_NOT_READY] when it is deferred.
    The first Windows UX capsule of a pass that does not return early
    ends [EFI_SUCCESS] whatever the image processor answered for it. *)
Theorem pass_returns_success (FirstRound : bool) (st : State W) :
  PassStart FirstRound st ->
  exists st1 st' evsD new,
    DiscoverCapsules FirstRound st = Ok tt st1 /\
    trace st1 = trace st ++ evsD /\
    ProcessTheseCapsules FirstRound st = Ok EFI_SUCCESS st' /\
    trace st' = trace st ++ new /\
    (existsb AllocationFailed evsD = true ->
     mCapsuleTotalNumber st1 = 0 /\ st' = st1) /\
    (forall i p, HandledBySweep st1 i p ->
       IndexOutcome FirstRound st1 EFI_NOT_READY p (mCapsuleStatusArray st' !! i) new) /\
    (forall i p, ShortCircuit st1 = false -> FirstUxCapsule st1 i p ->
       mCapsuleStatusArray st' !! i = Some EFI_SUCCESS).
Proof.
  intros Hstart.
  destruct (pass_run FirstRound st Hstart) as (st1 & st' & new & evs & Hrun).
  destruct (run_split _ _ _ _ _ _ Hrun) as (evsD & _ & Htr & _ & Hfail).
  exists st1, st', (EvReportStatusCode EFI_PROGRESS_CODE ProcessCapsulesBegin :: evsD), new.
  split; [exact (run_discover _ _ _ _ _ _ Hrun)|].
  split; [exact Htr|].
  split; [exact (run_return _ _ _ _ _ _ Hrun)|].
  split; [exact (run_trace _ _ _ _ _ _ Hrun)|].
  split; [|split].
  - intros Hex. simpl in Hex. apply existsb_exists in Hex as (e & Hin & He).
    assert (Hzero : mCapsuleTotalNumber st1 = 0).
    { apply Hfail. destruct e; try discriminate.
      destruct Allocated; [discriminate|]. eauto. }
    split; [exact Hzero|].
    pose proof (run_effect _ _ _ _ _ _ Hrun) as Heff.
    unfold ShortCircuit in Heff. rewrite Hzero in Heff. simpl in Heff.
    destruct Heff as [-> _]. reflexivity.
  - intros i p [Hp Hs Hux].
    exact (PassRun_outcome _ _ _ _ _ _ i _ p Hrun Hs Hp (not_ux_not_first st1 i p Hux)).
  - intros i p Hsc Hfirst.
    pose proof (run_effect _ _ _ _ _ _ Hrun) as Heff. rewrite Hsc in Heff.
    exact (proj1 (pass_ux _ _ _ _ Heff i p Hfirst)).
Qed.

End ReturnValue.

(** ** The reset flag *)

Section ResetFlag.
Context {W : Type} {PF : Platform W}.

Lemma ResetDemand_publisher (st : State W) evs :
  Forall PublisherEvent evs -> existsb (ResetDemand st) evs = false.
Proof.
  intros Hall. apply Housekeeping_ResetDemand.
  eapply Forall_impl; [exact Hall|]. intros e He.
  apply Bookkeeping_housekeeping, PublisherEvent_bookkeeping, He.
Qed.

Lemma PassRun_reset (FirstRound : bool) (st st1 st' : State W) new evs :
  PassRun FirstRound st st1 st' new evs ->
  mNeedReset st' = mNeedReset st || existsb (ResetDemand st) new.
Proof.
  intros Hrun. destruct (run_split _ _ _ _ _ _ Hrun) as (evsD & -> & _ & HevD & _).
  rewrite existsb_app. cbn [existsb ResetDemand]. rewrite orb_false_l.
  rewrite (ResetDemand_publisher st evsD HevD), orb_false_l.
  pose proof (run_effect _ _ _ _ _ _ Hrun) as Heff.
  destruct (ShortCircuit st1).
  - destruct Heff as [-> ->]. simpl. rewrite orb_false_r.
    exact (run_reset _ _ _ _ _ _ Hrun).
  - rewrite (pass_reset _ _ _ _ Heff), (run_reset _ _ _ _ _ _ Hrun). f_equal.
    unfold ResetDemand. rewrite (run_memory _ _ _ _ _ _ Hrun). reflexivity.
Qed.

(** C2, as amended. After a pass, [mNeedReset] is its value before the
    pass OR-ed with the reset demands of the pass, where a demand is
    raised only by a call of the image processor made in the second
    loop whose result is not [EFI_NOT_READY]: by the reset hint of that
    call, or by the reboot flag of the capsule it was made for. A
    flagged capsule that is aborted, deferred, not ready, or is the
    Windows UX capsule raises none. No step of the pass clears the flag:
    not discovery, not publishing, not the Windows UX loop, not an
    iteration of the second loop. *)
Theorem reset_flag_accumulates (FirstRound : bool) (st : State W) :
  PassStart FirstRound st ->
  exists st1 st' new,
    DiscoverCapsules FirstRound st = Ok tt st1 /\
    ProcessTheseCapsules FirstRound st = Ok EFI_SUCCESS st' /\
    trace st' = trace st ++ new /\
    mNeedReset st' = mNeedReset st || existsb (ResetDemand st) new /\
    mNeedReset st1 = mNeedReset st /\
    (forall stx : State W, wf stx ->
       exists sty, PopulateCapsuleInConfigurationTable stx = Ok tt sty /\
                   mNeedReset sty = mNeedReset stx) /\
    (forall stx : State W, wf stx ->
       exists sty, ProcessUxCapsule (length (mCapsulePtr stx)) 0 stx = Ok tt sty /\
                   mNeedReset sty = mNeedReset stx) /\
    (forall (stx : State W) i, wf stx -> (i < length (mCapsulePtr stx))%nat ->
       exists sty evs, ProcessOneCapsule FirstRound i stx = Ok tt sty /\
                       trace sty = trace stx ++ evs /\
                       mNeedReset sty = mNeedReset stx || existsb (ResetDemand stx) evs).
Proof.
  intros Hstart.
  destruct (pass_run FirstRound st Hstart) as (st1 & st' & new & evs & Hrun).
  exists st1, st', new.
  split; [exact (run_discover _ _ _ _ _ _ Hrun)|].
  split; [exact (run_return _ _ _ _ _ _ Hrun)|].
  split; [exact (run_trace _ _ _ _ _ _ Hrun)|].
  split; [exact (PassRun_reset _ _ _ _ _ _ Hrun)|].
  split; [exact (run_reset _ _ _ _ _ _ Hrun)|].
  split; [|split].
  - intros stx Hwf. exists (replay (PopulateEvents stx) stx).
    split; [apply PopulateCapsuleInConfigurationTable_spec; exact Hwf|].
    apply replay_reset.
  - intros stx Hwf.
    pose proof (ProcessUxCapsule_spec (length (mCapsulePtr stx)) 0 stx Hwf eq_refl) as Hux.
    apply wp_ok in Hux as ([] & sty & Hrun' & evsU & _ & _ & Hneed & _).
    + exists sty. auto.
    + intros j q Hj. lia.
  - intros stx i Hwf Hi.
    pose proof (ProcessOneCapsule_spec FirstRound i stx Hwf Hi) as Hstep.
    apply wp_ok in Hstep as ([] & sty & Hrun' & evs' & _ & Htr & Heff).
    exists sty, evs'. split; [exact Hrun'|]. split; [exact Htr|].
    exact (StepEffect_reset _ _ _ _ _ Heff).
Qed.

End ResetFlag.

(** ** The Windows UX capsule in a pass *)

Section UxPass.
Context {W : Type} {PF : Platform W}.

Lemma PassRun_UxCalls (FirstRound : bool) (st st1 st' : State W) new evs :
  PassRun FirstRound st st1 st' new evs -> UxCalls new = UxCalls evs.
Proof.
  intros Hrun. destruct (run_split _ _ _ _ _ _ Hrun) as (evsD & -> & _ & HevD & _).
  rewrite UxCalls_app.
  change (UxCalls (?e :: evsD)) with (UxCalls evsD).
  rewrite Housekeeping_UxCalls; [reflexivity|].
  eapply Forall_impl; [exact HevD|]. intros e He.
  apply Bookkeeping_housekeeping, PublisherEvent_bookkeeping, He.
Qed.

(** C3, as amended. In every pass that gets past the two early returns
    (there is a capsule, and some status is still [EFI_NOT_READY]), the
    image processor is called for the first capsule with the Windows UX
    GUID and the status of that entry is [EFI_SUCCESS] after the pass,
    whatever status [s] the call returned. That call is the only one
    made the Windows UX way (without a [ResetRequired] pointer); the
    status of any other entry with the Windows UX GUID is left as it
    was. The pass returns [EFI_SUCCESS]. *)
Theorem ux_capsule_always_succeeds
    (FirstRound : bool) (st st1 : State W) (i : nat) (p : Z) :
  PassStart FirstRound st ->
  DiscoverCapsules FirstRound st = Ok tt st1 ->
  ShortCircuit st1 = false ->
  FirstUxCapsule st1 i p ->
  exists st' new s r,
    ProcessTheseCapsules FirstRound st = Ok EFI_SUCCESS st' /\
    trace st' = trace st ++ new /\
    mCapsuleStatusArray st' !! i = Some EFI_SUCCESS /\
    UxCalls new = [EvProcessThisCapsuleImage p false s r] /\
    forall j q,
      j <> i -> mCapsulePtr st1 !! j = Some q -> IsUxCapsule st1 q = true ->
      mCapsuleStatusArray st' !! j = mCapsuleStatusArray st1 !! j.
Proof.
  intros Hstart Hd Hsc Hfirst.
  destruct (pass_run FirstRound st Hstart) as (st1' & st' & new & evs & Hrun).
  rewrite (PassRun_unique _ _ _ _ _ _ _ Hrun Hd) in Hrun. clear st1'.
  pose proof (run_effect _ _ _ _ _ _ Hrun) as Heff. rewrite Hsc in Heff.
  destruct (pass_ux _ _ _ _ Heff i p Hfirst) as (Hstatus & s & r & Hcalls).
  exists st', new, s, r.
  split; [exact (run_return _ _ _ _ _ _ Hrun)|].
  split; [exact (run_trace _ _ _ _ _ _ Hrun)|].
  split; [exact Hstatus|].
  split; [rewrite (PassRun_UxCalls _ _ _ _ _ _ Hrun); exact Hcalls|].
  intros j q Hne Hq Huxq.
  assert (Hj : (j < length (mCapsulePtr st1))%nat) by (eapply lookup_lt_Some; eauto).
  destruct (wf_lookup st1 j (run_wf _ _ _ _ _ _ Hrun) Hj) as (sj & q' & Hsj & Hq' & _).
  assert (Hnot : ~ FirstUxCapsule st1 j q).
  { intros Hfj. destruct (FirstUxCapsule_unique _ _ _ _ _ Hfirst Hfj). auto. }
  pose proof (pass_other _ _ _ _ Heff j sj q Hsj Hq Hnot) as Hout.
  unfold IndexOutcome, SweepVerdict in Hout. rewrite Huxq in Hout.
  rewrite Hsj. destruct (negb (sj =? EFI_NOT_READY)); exact Hout.
Qed.

End UxPass.

(** ** Status accounting *)

Section Accounting.
Context {W : Type} {PF : Platform W}.






End Accounting.

(** ** The published tables *)

Section Published.
Context {W : Type} {PF : Platform W}.

Lemma wf_no_capsule (st : State W) :
  wf st -> mCapsuleTotalNumber st = 0 -> mCapsulePtr st = [].
Proof.
  intros Hwf Hz. pose proof (wf_ptr_length _ Hwf) as Hlen. rewrite Hz in Hlen.
  destruct (mCapsulePtr st); [reflexivity|simpl in Hlen; lia].
Qed.

(** C5, as amended. The publishing step always returns and changes
    neither the capsule arrays nor the statuses. When its two scratch
    caches are allocated, it allocates one table per distinct GUID of
    the flagged capsules, in first-seen order, and passes to
    [InstallConfigurationTable], under each GUID whose table was
    allocated (and under no other key), the table of that GUID: the
    flagged capsules with that GUID, in discovery order, preceded by
    their number. The configuration table gets an entry for exactly the
    GUIDs whose table was allocated and whose install call did not
    fail, each with that table: a failed table allocation or a failed
    install call skips that GUID only. When a scratch cache cannot be
    allocated, no table is allocated, [InstallConfigurationTable] is
    not called and no entry is added. *)
Theorem publisher_registers_groups (st : State W) :
  wf st ->
  exists st' evs,
    PopulateCapsuleInConfigurationTable st = Ok tt st' /\
    trace st' = trace st ++ evs /\
    mCapsulePtr st' = mCapsulePtr st /\
    mCapsuleStatusArray st' = mCapsuleStatusArray st /\
    (if ScratchAllocated st then PublishedGroups st evs /\ InstalledGroups st evs
     else Registered evs = [] /\ TableAllocations evs = [] /\ Installed evs = []) /\
    List.NoDup (DistinctIdentities st) /\
    (forall g, In g (DistinctIdentities st) <->
               exists p, In p (mCapsulePtr st) /\ Flagged st p = true /\ GuidOf st p = g) /\
    (forall g,
       CapsuleArrayNumber (GroupTable st g) = Z.of_nat (length (CapsulePtr (GroupTable st g))) /\
       CapsulePtr (GroupTable st g) =
       List.filter (fun p => Flagged st p && CompareGuid g (GuidOf st p)) (mCapsulePtr st)).
Proof.
  intros Hwf.
  exists (replay (PopulateEvents st) st), (PopulateEvents st).
  split; [apply PopulateCapsuleInConfigurationTable_spec; exact Hwf|].
  split; [apply replay_trace|].
  split; [exact (same_ptr _ _ (replay_same _ st))|].
  split; [apply replay_status|].
  split; [|split; [apply FirstOccurrences_NoDup|split;
                   [apply DistinctIdentities_In|intros g; split; reflexivity]]].
  unfold ScratchAllocated, PopulateEvents, PublishedGroups, InstalledGroups.
  destruct (mCapsuleTotalNumber st =? 0) eqn:Htot.
  { apply Z.eqb_eq in Htot.
    assert (Hids : DistinctIdentities st = []).
    { unfold DistinctIdentities. rewrite (wf_no_capsule st Hwf Htot). reflexivity. }
    rewrite Hids. destruct (_ && _); repeat split; reflexivity. }
  destruct (ext_AllocatePool (world st) ZeroPool (8 * mCapsuleTotalNumber st)) eqn:Hok1;
    simpl negb; simpl andb; cbv iota; [|repeat split; reflexivity].
  destruct (ext_AllocatePool _ ZeroPool (16 * mCapsuleTotalNumber st)) eqn:Hok2;
    simpl negb; cbv iota; [|repeat split; reflexivity].
  match goal with |- context [PublishEvents st (DistinctIdentities st) ?w] =>
    destruct (PublishEvents_registered st (DistinctIdentities st) w) as [Hlen Hreg];
    destruct (PublishEvents_installed st (DistinctIdentities st) w) as [Hlen' Hins];
    set (pub := PublishEvents st (DistinctIdentities st) w) in *
  end.
  assert (Hta : TableAllocations
                  ([EvAllocatePool ZeroPool (8 * mCapsuleTotalNumber st) true;
                    EvAllocatePool ZeroPool (16 * mCapsuleTotalNumber st) true] ++
                   pub ++ [EvFreePool; EvFreePool]) = TableAllocations pub).
  { unfold TableAllocations. rewrite !flat_map_app. simpl. apply app_nil_r. }
  assert (Hrg : Registered
                  ([EvAllocatePool ZeroPool (8 * mCapsuleTotalNumber st) true;
                    EvAllocatePool ZeroPool (16 * mCapsuleTotalNumber st) true] ++
                   pub ++ [EvFreePool; EvFreePool]) = Registered pub).
  { unfold Registered. rewrite !flat_map_app. simpl. apply app_nil_r. }
  assert (Hto : TableOutcomes
                  ([EvAllocatePool ZeroPool (8 * mCapsuleTotalNumber st) true;
                    EvAllocatePool ZeroPool (16 * mCapsuleTotalNumber st) true] ++
                   pub ++ [EvFreePool; EvFreePool]) = TableOutcomes pub).
  { unfold TableOutcomes. rewrite !flat_map_app. simpl. apply app_nil_r. }
  assert (Hin : Installed
                  ([EvAllocatePool ZeroPool (8 * mCapsuleTotalNumber st) true;
                    EvAllocatePool ZeroPool (16 * mCapsuleTotalNumber st) true] ++
                   pub ++ [EvFreePool; EvFreePool]) = Installed pub).
  { unfold Installed. rewrite !flat_map_app. simpl. apply app_nil_r. }
  rewrite Hta, Hrg, Hto, Hin.
  split; [split; [exact Hlen|exact Hreg]|split; [exact Hlen'|exact Hins]].
Qed.

End Published.

(** ** The properties at sample inputs *)

(** [vm_compute in H], with the conversion checked by the virtual machine. *)
Ltac vm_in H :=
  let T := type of H in
  let T' := eval vm_compute in T in
  let Hc := fresh "Hc" in
  assert (Hc : T = T') by (vm_compute; reflexivity);
  rewrite Hc in H; clear Hc.

Ltac boot_state_tac :=
  split;
  [ reflexivity | reflexivity | reflexivity | vm_compute; reflexivity
  | vm_compute; repeat constructor; intros Heq; discriminate Heq ].

Lemma ThreeCapsules_boot : boot_state (PF := ScenarioPlatform Mixed) ThreeCapsules.
Proof. boot_state_tac. Defined.

(** C7 at the first of the three capsules, which is not a
    firmware-management capsule. *)
Lemma failed_probe_or_validation_aborts_witness :
  exists st',
    ProcessTheseCapsules (PF := ScenarioPlatform Mixed) true ThreeCapsules
    = Ok EFI_SUCCESS st' /\
    mCapsuleStatusArray st' !! 0%nat = Some EFI_ABORTED.
Proof.
  destruct (failed_probe_or_validation_aborts (PF := ScenarioPlatform Mixed)
              true ThreeCapsules ThreeCapsulesDiscovered 0%nat 0x5000)
    as (st' & new & Hrun & _ & Hstatus & _).
  - exact ThreeCapsules_boot.
  - vm_compute. reflexivity.
  - split; vm_compute; reflexivity.
  - left. vm_compute. reflexivity.
  - exists st'. split; [exact Hrun | exact Hstatus].
Defined.

(** C1 at the third of the three capsules, which embeds two drivers. *)
Lemma embedded_driver_deferral_witness :
  exists st',
    ProcessTheseCapsules (PF := ScenarioPlatform Mixed) true ThreeCapsules
    = Ok EFI_SUCCESS st' /\
    mCapsuleStatusArray st' !! 2%nat = Some EFI_NOT_READY.
Proof.
  destruct (embedded_driver_deferral (PF := ScenarioPlatform Mixed)
              true ThreeCapsules ThreeCapsulesDiscovered 2%nat 0x3000)
    as (st' & new & Hrun & _ & Hcase).
  - exact ThreeCapsules_boot.
  - vm_compute. reflexivity.
  - split; vm_compute; reflexivity.
  - vm_compute. reflexivity.
  - vm_compute. reflexivity.
  - exists st'. split; [exact Hrun | exact (proj1 Hcase)].
Defined.

(** C9 at the three capsules. *)
Lemma ProcessCapsules_one_pass_then_reset_witness :
  exists st',
    ProcessTheseCapsules (PF := ScenarioPlatform Mixed) true ThreeCapsules
    = Ok EFI_SUCCESS st' /\
    ProcessCapsules (PF := ScenarioPlatform Mixed) ThreeCapsules =
      (if mNeedReset st'
       then NoReturn (replay (PF := ScenarioPlatform Mixed)
                        [EvReportStatusCode EFI_PROGRESS_CODE ResettingSystem;
                         EvResetSystemWithSubtype EfiResetCold SampleResetGuid] st')
       else Ok EFI_SUCCESS st').
Proof.
  destruct (ProcessCapsules_one_pass_then_reset (PF := ScenarioPlatform Mixed)
              ThreeCapsules ThreeCapsules_boot)
    as (st' & rest & Hrun & _ & _ & Hreset & _).
  exists st'. split; [exact Hrun | exact Hreset].
Defined.

Lemma OneCapsule_boot : boot_state (PF := ScenarioPlatform NoMemory) OneCapsule.
Proof. boot_state_tac. Defined.

(** C4 where no allocation succeeds. *)
Lemma pass_returns_success_witness :
  exists st',
    ProcessTheseCapsules (PF := ScenarioPlatform NoMemory) true OneCapsule
    = Ok EFI_SUCCESS st'.
Proof.
  destruct (pass_returns_success (PF := ScenarioPlatform NoMemory) true OneCapsule
              OneCapsule_boot)
    as (st1 & st' & evsD & new & _ & _ & Hrun & _).
  exists st'. exact Hrun.
Defined.

(** C4, as worded: with one valid capsule and no memory, the allocation
    of [mCapsulePtr] fails during discovery and the pass still returns
    [EFI_SUCCESS], not [EFI_OUT_OF_RESOURCES]. *)
Lemma allocation_failure_not_propagated :
  ~ ReturnAsSpecified (PF := ScenarioPlatform NoMemory) true OneCapsule.
Proof.
  intros Hspec.
  specialize (Hspec EFI_SUCCESS
                (StateOf (ProcessTheseCapsules (PF := ScenarioPlatform NoMemory)
                            true OneCapsule) OneCapsule)
                (StateOf (DiscoverCapsules (PF := ScenarioPlatform NoMemory)
                            true OneCapsule) OneCapsule)
                [EvReportStatusCode EFI_PROGRESS_CODE ProcessCapsulesBegin;
                 EvAllocatePool ZeroPool 8 false]).
  assert (Hr : EFI_SUCCESS = EFI_OUT_OF_RESOURCES).
  { apply Hspec; vm_compute; reflexivity. }
  discriminate Hr.
Qed.

(** C2, as amended, at the three capsules. *)
Lemma reset_flag_accumulates_witness :
  exists st' new,
    ProcessTheseCapsules (PF := ScenarioPlatform Mixed) true ThreeCapsules
    = Ok EFI_SUCCESS st' /\
    trace st' = trace ThreeCapsules ++ new /\
    mNeedReset st' =
    mNeedReset ThreeCapsules ||
    existsb (ResetDemand (PF := ScenarioPlatform Mixed) ThreeCapsules) new.
Proof.
  destruct (reset_flag_accumulates (PF := ScenarioPlatform Mixed) true ThreeCapsules
              ThreeCapsules_boot)
    as (st1 & st' & new & _ & Hrun & Htr & Hreset & _).
  exists st', new. split; [exact Hrun|]. split; [exact Htr | exact Hreset].
Defined.

(** C2, as worded: a capsule that carries the reboot flag and is not a
    firmware-management capsule is aborted, and [mNeedReset] stays
    clear although a flagged capsule went through the pass. *)
Lemma aborted_flagged_capsule_demands_no_reset :
  ~ ResetFlagAsSpecified (PF := ScenarioPlatform Unsupported) true FlaggedCapsule.
Proof.
  intros Hspec.
  specialize (Hspec EFI_SUCCESS
                (StateOf (DiscoverCapsules (PF := ScenarioPlatform Unsupported)
                            true FlaggedCapsule) FlaggedCapsule)
                (StateOf (ProcessTheseCapsules (PF := ScenarioPlatform Unsupported)
                            true FlaggedCapsule) FlaggedCapsule)
                (trace (StateOf (ProcessTheseCapsules (PF := ScenarioPlatform Unsupported)
                                   true FlaggedCapsule) FlaggedCapsule))).
  assert (Hr : false = true).
  { etransitivity; [|etransitivity; [apply Hspec|]]; vm_compute; reflexivity. }
  discriminate Hr.
Qed.

Lemma TwoUxCapsules_boot : boot_state (PF := ScenarioPlatform Mixed) TwoUxCapsules.
Proof. boot_state_tac. Defined.

(** C3, as amended, where the display of the Windows UX capsule fails
    with [EFI_UNSUPPORTED]. *)
Lemma ux_capsule_always_succeeds_witness :
  exists st',
    ProcessTheseCapsules (PF := ScenarioPlatform Mixed) true TwoUxCapsules
    = Ok EFI_SUCCESS st' /\
    mCapsuleStatusArray st' !! 1%nat = Some EFI_SUCCESS.
Proof.
  destruct (ux_capsule_always_succeeds (PF := ScenarioPlatform Mixed)
              true TwoUxCapsules TwoUxCapsulesDiscovered 1%nat 0x1000)
    as (st' & new & s & r & Hrun & _ & Hstatus & _).
  - exact TwoUxCapsules_boot.
  - vm_compute. reflexivity.
  - vm_compute. reflexivity.
  - split; [vm_compute; reflexivity|]. split; [vm_compute; reflexivity|].
    intros j q Hj Hq. assert (j = 0%nat) as -> by lia.
    vm_in Hq. injection Hq as <-. vm_compute. reflexivity.
  - exists st'. split; [exact Hrun | exact Hstatus].
Defined.

(** C3, as worded: after a first round that has processed the only
    capsule, a Windows UX capsule, a later round returns before its
    first loop and the image processor is not called. *)
Lemma ux_capsule_not_processed_when_all_done :
  ~ UxAsSpecified (PF := ScenarioPlatform Plain) false UxAlreadyProcessed.
Proof.
  intros Hspec.
  destruct (Hspec (StateOf (DiscoverCapsules (PF := ScenarioPlatform Plain)
                              false UxAlreadyProcessed) UxAlreadyProcessed)
                  0%nat 0x1000)
    as (st' & new & s & r & Hrun & Htr & _ & Hcalls).
  - vm_compute. reflexivity.
  - vm_compute. discriminate.
  - split; [vm_compute; reflexivity|]. split; [vm_compute; reflexivity|].
    intros j q Hj. lia.
  - assert (Hlast : trace st' =
                    trace UxAlreadyProcessed ++
                    [EvReportStatusCode EFI_PROGRESS_CODE ProcessCapsulesBegin]).
    { vm_in Hrun. injection Hrun as <-. vm_compute. reflexivity. }
    rewrite Hlast in Htr. apply app_inv_head in Htr. subst new.
    vm_in Hcalls. discriminate Hcalls.
Qed.



Lemma PersistedCapsules_wf : wf PersistedCapsules.
Proof.
  split; [reflexivity | reflexivity |].
  vm_compute. repeat constructor; intros Heq; discriminate Heq.
Defined.

(** C5, as amended, at the publishing example of the specification, on
    a platform whose configuration table cannot take an entry for
    [GuidA]: two tables are passed to [InstallConfigurationTable],
    [GuidA -> [0x2000; 0x3000]] and [GuidB -> [0x4000]], and only the
    second becomes an entry; the unflagged capsule at [0x5000] is in
    none. *)
Lemma publisher_registers_groups_witness :
  exists st' evs,
    PopulateCapsuleInConfigurationTable (PF := NoRoomForGuidA) PersistedCapsules
    = Ok tt st' /\
    trace st' = trace PersistedCapsules ++ evs /\
    Registered evs =
    [(GuidA, mkCapsuleTable 2 [0x2000; 0x3000]); (GuidB, mkCapsuleTable 1 [0x4000])] /\
    Installed evs = [(GuidB, mkCapsuleTable 1 [0x4000])].
Proof.
  destruct (publisher_registers_groups (PF := NoRoomForGuidA)
              PersistedCapsules PersistedCapsules_wf)
    as (st' & evs & Hrun & Htr & _).
  exists st', evs. split; [exact Hrun|]. split; [exact Htr|].
  vm_in Hrun. injection Hrun as <-.
  vm_in Htr. subst evs. split; vm_compute; reflexivity.
Defined.

(** C5, as worded: when the first scratch cache cannot be allocated,
    the publisher returns without allocating or registering any table,
    although there are two identities to publish and no table
    allocation failed. *)
Lemma nothing_published_without_scratch :
  ~ PublishedAsSpecified (PF := ScenarioPlatform NoScratch) PersistedCapsules.
Proof.
  intros Hspec.
  destruct (Hspec (StateOf (PopulateCapsuleInConfigurationTable
                              (PF := ScenarioPlatform NoScratch) PersistedCapsules)
                     PersistedCapsules)
                  [EvAllocatePool ZeroPool 32 false]) as [Hlen _].
  - vm_compute. reflexivity.
  - vm_compute. reflexivity.
  - vm_in Hlen. discriminate Hlen.
Qed.

(** * Further properties of the module *)

(** ** Discovery in detail *)

Section MoreDiscovery.
Context {W : Type} {PF : Platform W}.

Lemma MarkAndCountHobs_marks (hobs : list EFI_HOB) (Total : Z) :
  fst (MarkAndCountHobs hobs Total) = map MarkHob hobs.
Proof.
  revert Total. induction hobs as [|h hobs IH]; intros Total; [reflexivity|].
  cbn [MarkAndCountHobs map]. unfold MarkHob at 1, IsCapsuleHob.
  destruct (HobType h =? EFI_HOB_TYPE_UEFI_CAPSULE); simpl andb.
  - destruct (IsValidCapsuleHeader (BaseAddress h) (Length h)); simpl negb; cbv iota;
      cbn [fst]; rewrite IH; reflexivity.
  - cbn [fst]. rewrite IH. reflexivity.
Qed.

Lemma MarkHob_valid (h : EFI_HOB) : ValidCapsuleHob (MarkHob h) = ValidCapsuleHob h.
Proof.
  unfold MarkHob, ValidCapsuleHob, IsCapsuleHob.
  destruct (HobType h =? EFI_HOB_TYPE_UEFI_CAPSULE) eqn:Hty; simpl andb.
  - destruct (IsValidCapsuleHeader (BaseAddress h) (Length h)) eqn:Hv; simpl negb; cbv iota.
    + rewrite Hty, Hv. reflexivity.
    + reflexivity.
  - rewrite Hty. reflexivity.
Qed.

Lemma MarkHob_address (h : EFI_HOB) : BaseAddress (MarkHob h) = BaseAddress h.
Proof. unfold MarkHob. destruct (_ && _); reflexivity. Qed.

Lemma MarkHob_capsule (h : EFI_HOB) :
  IsCapsuleHob (MarkHob h) = true ->
  MarkHob h = h /\ IsValidCapsuleHeader (BaseAddress h) (Length h) = true.
Proof.
  unfold MarkHob, IsCapsuleHob.
  destruct (HobType h =? EFI_HOB_TYPE_UEFI_CAPSULE) eqn:Hty; simpl andb.
  - destruct (IsValidCapsuleHeader (BaseAddress h) (Length h)); simpl negb; cbv iota.
    + auto.
    + cbn [HobType]. intros Heq. discriminate Heq.
  - cbv iota. rewrite Hty. intros Heq. discriminate Heq.
Qed.

Lemma DiscoveredCapsules_marked (hobs : list EFI_HOB) :
  DiscoveredCapsules (map MarkHob hobs) = DiscoveredCapsules hobs.
Proof.
  unfold DiscoveredCapsules. induction hobs as [|h hobs IH]; [reflexivity|].
  cbn [map List.filter]. rewrite MarkHob_valid.
  destruct (ValidCapsuleHob h); cbn [map]; rewrite ?MarkHob_address, IH; reflexivity.
Qed.

(** [InitCapsulePtr] from any state whose counter cannot wrap. *)
Lemma InitCapsulePtr_general (st : State W) :
  let caps := DiscoveredCapsules (HobList st) in
  let T := mCapsuleTotalNumber st + Z.of_nat (length caps) in
  0 <= mCapsuleTotalNumber st -> T < 2 ^ 32 ->
  InitCapsulePtr st =
  let st0 := set_mCapsuleTotalNumber T (set_HobList (map MarkHob (HobList st)) st) in
  if T =? 0 then Ok tt st0
  else
    let ok1 := ext_AllocatePool (world st) ZeroPool (8 * T) in
    let st1 := record (EvAllocatePool ZeroPool (8 * T) ok1) st0 in
    if negb ok1 then Ok tt (set_mCapsuleTotalNumber 0 (set_mCapsulePtr [] st1))
    else
      let ok2 := ext_AllocatePool (world st1) ZeroPool (8 * T) in
      let st2 := record (EvAllocatePool ZeroPool (8 * T) ok2)
                   (set_mCapsulePtr (replicate (Z.to_nat T) 0) st1) in
      if negb ok2
      then Ok tt (set_mCapsuleTotalNumber 0
                    (set_mCapsulePtr []
                       (record EvFreePool (set_mCapsuleStatusArray [] st2))))
      else Ok tt (set_mCapsulePtr
                    (caps ++ replicate (Z.to_nat (mCapsuleTotalNumber st)) 0)
                    (set_mCapsuleStatusArray
                       (replicate (Z.to_nat T) EFI_NOT_READY) st2)).
Proof.
  intros caps T H0 Hlt. subst caps T.
  pose proof (MarkAndCountHobs_count (HobList st) (mCapsuleTotalNumber st) H0) as Hcnt.
  pose proof (MarkAndCountHobs_capsules (HobList st) (mCapsuleTotalNumber st)) as Hcaps.
  pose proof (MarkAndCountHobs_marks (HobList st) (mCapsuleTotalNumber st)) as Hmark.
  unfold DiscoveredCapsules in *. rewrite length_map in Hlt. rewrite !length_map.
  specialize (Hcnt Hlt).
  destruct st as [need ptr status T0 fmp hobs mem w tr].
  cbn [mCapsuleTotalNumber HobList world] in *.
  set (valid := List.filter ValidCapsuleHob hobs) in *.
  set (T := T0 + Z.of_nat (length valid)) in *.
  unfold InitCapsulePtr.
  cbv beta iota zeta delta
    [bind gets ret modify emit AllocatePool FreePool
     set_mNeedReset set_mCapsulePtr set_mCapsuleStatusArray
     set_mCapsuleTotalNumber set_HobList record
     mNeedReset mCapsulePtr mCapsuleStatusArray mCapsuleTotalNumber mFmpProgress
     HobList CapsuleMemory world trace].
  rewrite Hcnt, Hmark.
  destruct (T =? 0) eqn:Hz; [reflexivity|].
  destruct (ext_AllocatePool w ZeroPool (8 * T)) eqn:Hok1;
    cbv beta iota zeta delta [negb]; [|reflexivity].
  destruct (ext_AllocatePool (env_step _ w) ZeroPool (8 * T)) eqn:Hok2;
    cbv beta iota zeta delta [negb]; [|reflexivity].
  rewrite FillCapsulePtr_spec.
  2:{ cbn [mCapsulePtr]. rewrite <- Hmark, Hcaps. fold valid.
      rewrite length_replicate. lia. }
  cbn [mCapsulePtr]. rewrite <- Hmark, Hcaps. fold valid.
  rewrite take_0, app_nil_l, Nat.add_0_l, drop_replicate.
  replace (Z.to_nat T - length valid)%nat with (Z.to_nat T0) by lia.
  reflexivity.
Qed.

(** The outcomes of [InitCapsulePtr]. *)
Lemma InitCapsulePtr_outcome (st : State W) :
  0 <= mCapsuleTotalNumber st ->
  mCapsuleTotalNumber st + Z.of_nat (length (DiscoveredCapsules (HobList st))) < 2 ^ 32 ->
  exists st1 evs,
    InitCapsulePtr st = Ok tt st1 /\ trace st1 = trace st ++ evs /\
    HobList st1 = map MarkHob (HobList st) /\
    mNeedReset st1 = mNeedReset st /\
    Forall PublisherEvent evs /\
    if existsb AllocationFailed evs
    then mCapsuleTotalNumber st1 = 0 /\ mCapsulePtr st1 = [] /\
         (mCapsuleStatusArray st1 = [] \/
          mCapsuleStatusArray st1 = mCapsuleStatusArray st) /\
         Frees evs = ScratchAllocations evs
    else mCapsuleTotalNumber st1 =
           mCapsuleTotalNumber st + Z.of_nat (length (DiscoveredCapsules (HobList st))) /\
         (evs = [] /\ mCapsuleTotalNumber st1 = 0 /\
          mCapsulePtr st1 = mCapsulePtr st /\
          mCapsuleStatusArray st1 = mCapsuleStatusArray st \/
          mCapsulePtr st1 =
            DiscoveredCapsules (HobList st) ++
            replicate (Z.to_nat (mCapsuleTotalNumber st)) 0 /\
          mCapsuleStatusArray st1 =
            replicate (Z.to_nat (mCapsuleTotalNumber st) +
                       length (DiscoveredCapsules (HobList st))) EFI_NOT_READY /\
          Frees evs = 0%nat).
Proof.
  intros H0 Hlt. pose proof (InitCapsulePtr_general st H0 Hlt) as Hrun.
  destruct st as [need ptr status T0 fmp hobs mem w tr].
  cbn [mCapsuleTotalNumber HobList mCapsulePtr mCapsuleStatusArray mNeedReset trace] in *.
  set (caps := DiscoveredCapsules hobs) in *.
  set (T := T0 + Z.of_nat (length caps)) in *.
  cbv beta iota zeta delta
    [set_mNeedReset set_mCapsulePtr set_mCapsuleStatusArray
     set_mCapsuleTotalNumber set_HobList record
     mNeedReset mCapsulePtr mCapsuleStatusArray mCapsuleTotalNumber mFmpProgress
     HobList CapsuleMemory world trace] in Hrun.
  destruct (T =? 0) eqn:Hz.
  { eexists _, []. split; [exact Hrun|]. cbn.
    split; [symmetry; apply app_nil_r|]. split; [reflexivity|]. split; [reflexivity|].
    split; [constructor|]. split; [reflexivity|]. left.
    apply Z.eqb_eq in Hz. auto. }
  destruct (ext_AllocatePool w ZeroPool (8 * T)) eqn:Hok1;
    cbv beta iota zeta delta [negb] in Hrun.
  2:{ eexists _, [EvAllocatePool ZeroPool (8 * T) false]. split; [exact Hrun|]. cbn.
      split; [reflexivity|]. split; [reflexivity|]. split; [reflexivity|].
      split; [repeat constructor|]. auto. }
  destruct (ext_AllocatePool (env_step _ w) ZeroPool (8 * T)) eqn:Hok2;
    cbv beta iota zeta delta [negb] in Hrun.
  2:{ eexists _, [EvAllocatePool ZeroPool (8 * T) true;
                  EvAllocatePool ZeroPool (8 * T) false; EvFreePool].
      split; [exact Hrun|]. cbn.
      split; [rewrite <- !app_assoc; reflexivity|].
      split; [reflexivity|]. split; [reflexivity|].
      split; [repeat constructor|]. auto. }
  eexists _, [EvAllocatePool ZeroPool (8 * T) true; EvAllocatePool ZeroPool (8 * T) true].
  split; [exact Hrun|]. cbn.
  split; [rewrite <- !app_assoc; reflexivity|].
  split; [reflexivity|]. split; [reflexivity|].
  split; [repeat constructor|]. split; [reflexivity|]. right.
  split; [reflexivity|]. split; [|reflexivity].
  f_equal. unfold T. lia.
Qed.

(** X1. Discovery from the boot state. When no pool allocation fails,
    [mCapsulePtr] holds the addresses of the capsule HOBs that pass
    [IsValidCapsuleHeader], in HOB order, [mCapsuleTotalNumber] is their
    number, every status is [EFI_NOT_READY], and nothing is freed. When
    an allocation fails, discovery ends with no capsule and both arrays
    [NULL], and the buffer it had obtained, if any, has been freed. *)
Theorem discovery_collects_valid_capsules (st : State W) :
  boot_state st ->
  exists st1 evs,
    InitCapsulePtr st = Ok tt st1 /\ trace st1 = trace st ++ evs /\
    if existsb AllocationFailed evs
    then mCapsuleTotalNumber st1 = 0 /\ mCapsulePtr st1 = [] /\
         mCapsuleStatusArray st1 = [] /\ Frees evs = ScratchAllocations evs
    else mCapsulePtr st1 = DiscoveredCapsules (HobList st) /\
         mCapsuleStatusArray st1 =
           replicate (length (DiscoveredCapsules (HobList st))) EFI_NOT_READY /\
         mCapsuleTotalNumber st1 =
           Z.of_nat (length (DiscoveredCapsules (HobList st))) /\
         Frees evs = 0%nat.
Proof.
  intros [Htot Hptr Hstat Hcount Hnn].
  destruct (InitCapsulePtr_outcome st) as (st1 & evs & Hrun & Htr & _ & _ & _ & Hout).
  { rewrite Htot. lia. }
  { rewrite Htot. lia. }
  exists st1, evs. split; [exact Hrun|]. split; [exact Htr|].
  rewrite Htot, Hptr, Hstat in Hout. simpl Z.to_nat in Hout.
  rewrite Z.add_0_l, app_nil_r, Nat.add_0_l in Hout.
  destruct (existsb AllocationFailed evs).
  - destruct Hout as (Hz & Hp & Hs & Hf). repeat split; auto. destruct Hs; auto.
  - destruct Hout as (Ht & [(-> & Hz & Hp & Hs)|(Hp & Hs & Hf)]).
    + rewrite Hz in Ht.
      assert (Hnil : DiscoveredCapsules (HobList st) = [])
        by (destruct (DiscoveredCapsules (HobList st)); [reflexivity|simpl in Ht; lia]).
      rewrite Hnil. auto.
    + auto.
Qed.

(** X2. Discovery retypes every capsule HOB whose header is not valid
    to [EFI_HOB_TYPE_UNUSED] and changes no other HOB, whatever becomes
    of the allocations. Afterwards every HOB still typed as a capsule
    is one of the original list and passes [IsValidCapsuleHeader], and
    the list holds the same valid capsules as before. *)
Theorem discovery_retypes_invalid_capsule_hobs (st : State W) :
  boot_state st ->
  exists st1,
    InitCapsulePtr st = Ok tt st1 /\
    HobList st1 = map MarkHob (HobList st) /\
    (forall h, In h (HobList st1) -> IsCapsuleHob h = true ->
       In h (HobList st) /\ IsValidCapsuleHeader (BaseAddress h) (Length h) = true) /\
    DiscoveredCapsules (HobList st1) = DiscoveredCapsules (HobList st).
Proof.
  intros [Htot Hptr Hstat Hcount Hnn].
  destruct (InitCapsulePtr_outcome st) as (st1 & evs & Hrun & _ & Hhobs & _).
  { rewrite Htot. lia. }
  { rewrite Htot. lia. }
  exists st1. split; [exact Hrun|]. split; [exact Hhobs|].
  rewrite Hhobs. split; [|apply DiscoveredCapsules_marked].
  intros h Hin Hcap. apply in_map_iff in Hin as (h0 & <- & Hin0).
  destruct (MarkHob_capsule h0 Hcap) as [Heq Hvalid].
  rewrite Heq. auto.
Qed.

(** X3. [InitCapsulePtr] counts on top of the current value of
    [mCapsuleTotalNumber]. Run a second time over the same HOB list, with
    no allocation failing, it leaves [mCapsuleTotalNumber] at twice the
    number of valid capsules (as long as that fits the 32-bit counter);
    the pointer array holds the capsules
    followed by as many [NULL] pointers, and all statuses, those of the
    first run included, are [EFI_NOT_READY]. *)
Theorem discovery_twice_doubles_the_tables (st : State W) :
  boot_state st ->
  2 * Z.of_nat (length (DiscoveredCapsules (HobList st))) < 2 ^ 32 ->
  exists st1 st2 evs,
    InitCapsulePtr st = Ok tt st1 /\ InitCapsulePtr st1 = Ok tt st2 /\
    trace st2 = trace st ++ evs /\
    (existsb AllocationFailed evs = false ->
     mCapsuleTotalNumber st2 = 2 * Z.of_nat (length (DiscoveredCapsules (HobList st))) /\
     mCapsulePtr st2 =
       DiscoveredCapsules (HobList st) ++
       replicate (length (DiscoveredCapsules (HobList st))) 0 /\
     mCapsuleStatusArray st2 =
       replicate (2 * length (DiscoveredCapsules (HobList st))) EFI_NOT_READY).
Proof.
  intros [Htot Hptr Hstat Hcount Hnn] Hdouble.
  set (caps := DiscoveredCapsules (HobList st)) in *.
  destruct (InitCapsulePtr_outcome st)
    as (st1 & evs1 & Hrun1 & Htr1 & Hhobs1 & _ & _ & Hout1).
  { rewrite Htot. lia. }
  { rewrite Htot. fold caps. lia. }
  fold caps in Hout1. rewrite Htot, Hptr, Hstat in Hout1. simpl Z.to_nat in Hout1.
  rewrite Z.add_0_l, app_nil_r, Nat.add_0_l in Hout1.
  assert (Hcaps1 : DiscoveredCapsules (HobList st1) = caps)
    by (rewrite Hhobs1; apply DiscoveredCapsules_marked).
  assert (Hbound : 0 <= mCapsuleTotalNumber st1 <= Z.of_nat (length caps)).
  { destruct (existsb AllocationFailed evs1).
    - destruct Hout1 as (-> & _). lia.
    - destruct Hout1 as (-> & _). lia. }
  destruct (InitCapsulePtr_outcome st1)
    as (st2 & evs2 & Hrun2 & Htr2 & _ & _ & _ & Hout2).
  { lia. }
  { rewrite Hcaps1. lia. }
  rewrite Hcaps1 in Hout2.
  exists st1, st2, (evs1 ++ evs2).
  split; [exact Hrun1|]. split; [exact Hrun2|].
  split; [rewrite Htr2, Htr1, app_assoc; reflexivity|].
  rewrite existsb_app. intros Hnone. apply orb_false_iff in Hnone as [Hn1 Hn2].
  rewrite Hn1 in Hout1. rewrite Hn2 in Hout2.
  destruct Hout1 as (Ht1 & Hcase1). destruct Hout2 as (Ht2 & Hcase2).
  rewrite Ht1 in Ht2, Hcase2. rewrite Nat2Z.id in Hcase2.
  split; [lia|].
  destruct Hcase1 as [(_ & Hz1 & Hp1 & Hs1)|(Hp1 & Hs1 & _)].
  - assert (Hnil : caps = [])
      by (rewrite Hz1 in Ht1; destruct caps; [reflexivity|simpl in Ht1; lia]).
    rewrite Hnil in *. simpl.
    destruct Hcase2 as [(_ & _ & Hp2 & Hs2)|(Hp2 & Hs2 & _)].
    + rewrite Hp2, Hs2, Hp1, Hs1. auto.
    + rewrite Hp2, Hs2. auto.
  - destruct Hcase2 as [(_ & Hz2 & Hp2 & Hs2)|(Hp2 & Hs2 & _)].
    + assert (Hnil : caps = []) by (destruct caps; [reflexivity|simpl in Ht2; lia]).
      rewrite Hnil in *. simpl. rewrite Hp2, Hs2, Hp1, Hs1. auto.
    + rewrite Hp2, Hs2. split; [reflexivity|]. f_equal. lia.
Qed.

End MoreDiscovery.

(** ** Early returns *)

Section EarlyReturns.
Context {W : Type} {PF : Platform W}.

(** X4. With no valid capsule HOB, [ProcessTheseCapsules] makes one
    call, the begin report, allocates nothing, leaves both arrays [NULL]
    and returns [EFI_SUCCESS]; [ProcessCapsules] then returns that status
    unless [mNeedReset] was already set, in which case it resets the
    platform all the same. *)
Theorem no_capsule_no_work (st : State W) :
  boot_state st -> DiscoveredCapsules (HobList st) = [] ->
  exists st',
    ProcessTheseCapsules true st = Ok EFI_SUCCESS st' /\
    trace st' = trace st ++ [EvReportStatusCode EFI_PROGRESS_CODE ProcessCapsulesBegin] /\
    mCapsuleTotalNumber st' = 0 /\ mCapsulePtr st' = [] /\
    mCapsuleStatusArray st' = [] /\ mNeedReset st' = mNeedReset st /\
    ProcessCapsules st =
      if mNeedReset st
      then NoReturn (replay [EvReportStatusCode EFI_PROGRESS_CODE ResettingSystem;
                             EvResetSystemWithSubtype EfiResetCold
                               gCapsuleUpdateCompleteResetGuid] st')
      else Ok EFI_SUCCESS st'.
Proof.
  intros [Htot Hptr Hstat Hcount Hnn] Hnil.
  set (stB := record (EvReportStatusCode EFI_PROGRESS_CODE ProcessCapsulesBegin) st).
  pose proof (InitCapsulePtr_general stB) as Hinit. cbv zeta in Hinit.
  change (HobList stB) with (HobList st) in Hinit.
  change (mCapsuleTotalNumber stB) with (mCapsuleTotalNumber st) in Hinit.
  rewrite Hnil, Htot in Hinit.
  change (0 + Z.of_nat (length (@nil Z))) with 0 in Hinit.
  change (0 =? 0) with true in Hinit. cbv iota in Hinit.
  specialize (Hinit ltac:(lia) ltac:(lia)).
  set (st' := set_mCapsuleTotalNumber 0 (set_HobList (map MarkHob (HobList st)) stB)) in *.
  assert (Hpass : ProcessTheseCapsules true st = Ok EFI_SUCCESS st').
  { unfold ProcessTheseCapsules, DiscoverCapsules, REPORT_STATUS_CODE.
    unfold bind at 1. unfold bind at 1, emit, modify. fold stB. rewrite Hinit.
    reflexivity. }
  exists st'. split; [exact Hpass|].
  split; [reflexivity|]. split; [reflexivity|].
  split; [exact Hptr|]. split; [exact Hstat|]. split; [reflexivity|].
  rewrite ProcessCapsules_unfold, Hpass. reflexivity.
Qed.

(** X5. [AreAllImagesProcessed] returns [TRUE] exactly when no status
    is [EFI_NOT_READY], an empty table included; it makes no call and
    changes nothing. *)
Theorem AreAllImagesProcessed_decides (st : State W) :
  wf st ->
  exists b, AreAllImagesProcessed st = Ok b st /\ (b = true <-> AllTerminal st).
Proof.
  intros Hwf. eexists. split; [apply AreAllImagesProcessed_spec; exact Hwf|].
  rewrite forallb_forall. unfold AllTerminal. split.
  - intros Hall i s Hs Heq. subst s.
    assert (Hin : In EFI_NOT_READY (mCapsuleStatusArray st))
      by (apply list_elem_of_In; eapply list_elem_of_lookup_2; exact Hs).
    specialize (Hall _ Hin). discriminate Hall.
  - intros Hall s Hin. apply list_elem_of_In, list_elem_of_lookup in Hin as (i & Hs).
    apply negb_true_iff, Z.eqb_neq. exact (Hall i s Hs).
Qed.

End EarlyReturns.

(** ** The published tables in detail *)

Section MorePublisher.
Context {W : Type} {PF : Platform W}.

Lemma filter_disjoint_app {A} (f g : A -> bool) (l : list A) :
  (forall x, In x l -> f x = true -> g x = false) ->
  Permutation (List.filter f l ++ List.filter g l) (List.filter (fun x => f x || g x) l).
Proof.
  induction l as [|a l IH]; intros Hdis; [constructor|].
  assert (IH' : Permutation (List.filter f l ++ List.filter g l)
                  (List.filter (fun x => f x || g x) l))
    by (apply IH; intros x Hx; apply Hdis; right; exact Hx).
  cbn [List.filter]. destruct (f a) eqn:Hf.
  - rewrite (Hdis a (or_introl eq_refl) Hf). simpl. constructor. exact IH'.
  - destruct (g a); simpl.
    + symmetry. apply Permutation_cons_app. symmetry. exact IH'.
    + exact IH'.
Qed.

Lemma existsb_map {A B} (f : B -> bool) (h : A -> B) (l : list A) :
  existsb f (map h l) = existsb (fun x => f (h x)) l.
Proof. induction l as [|a l IH]; [reflexivity|]. simpl. rewrite IH. reflexivity. Qed.

Lemma existsb_CompareGuid (ks : list EFI_GUID) (g : EFI_GUID) :
  existsb (fun k => CompareGuid k g) ks = true <-> In g ks.
Proof.
  rewrite existsb_exists. split.
  - intros (k & Hin & Hk). apply CompareGuid_eq in Hk. subst k. exact Hin.
  - intros Hin. exists g. split; [exact Hin|apply CompareGuid_refl].
Qed.

(** The groups of distinct GUIDs share no capsule and miss none. *)
Lemma groups_partition (st : State W) (ks : list EFI_GUID) (l : list Z) :
  List.NoDup ks ->
  Permutation
    (concat (map (fun g => List.filter
                              (fun p => Flagged st p && CompareGuid g (GuidOf st p)) l) ks))
    (List.filter
       (fun p => Flagged st p && existsb (fun g => CompareGuid g (GuidOf st p)) ks) l).
Proof.
  induction ks as [|k ks IH]; intros Hnd.
  - simpl. induction l as [|p l IHl]; [constructor|].
    simpl. rewrite andb_false_r. exact IHl.
  - inversion Hnd as [|k' ks' Hnot Hnd']; subst.
    cbn [map concat].
    eapply Permutation_trans; [apply Permutation_app_head; apply IH; exact Hnd'|].
    eapply Permutation_trans; [apply filter_disjoint_app|].
    + intros p _ Hp. apply andb_true_iff in Hp as [_ Hk].
      apply CompareGuid_eq in Hk. subst k.
      apply andb_false_iff. right.
      destruct (existsb (fun g => CompareGuid g (GuidOf st p)) ks) eqn:Hex; [|reflexivity].
      apply existsb_CompareGuid in Hex. contradiction.
    + erewrite List.filter_ext; [apply Permutation_refl|].
      intros p. cbn [existsb]. destruct (Flagged st p); reflexivity.
Qed.

Lemma Registered_app evs1 evs2 : Registered (evs1 ++ evs2) = Registered evs1 ++ Registered evs2.
Proof. apply flat_map_app. Qed.

Lemma Frees_app evs1 evs2 : Frees (evs1 ++ evs2) = (Frees evs1 + Frees evs2)%nat.
Proof. unfold Frees. rewrite List.filter_app, length_app. reflexivity. Qed.

Lemma ScratchAllocations_app evs1 evs2 :
  ScratchAllocations (evs1 ++ evs2) = (ScratchAllocations evs1 + ScratchAllocations evs2)%nat.
Proof. unfold ScratchAllocations. rewrite List.filter_app, length_app. reflexivity. Qed.

Lemma RuntimeAllocations_app evs1 evs2 :
  RuntimeAllocations (evs1 ++ evs2) = (RuntimeAllocations evs1 + RuntimeAllocations evs2)%nat.
Proof. unfold RuntimeAllocations. rewrite List.filter_app, length_app. reflexivity. Qed.

(** The GUIDs under which the second step of the publisher registers a
    table, and its use of the pools. *)
Lemma PublishEvents_keys (st : State W) ids w :
  exists ks,
    Registered (PublishEvents st ids w) = map (fun g => (g, GroupTable st g)) ks /\
    (forall g, In g ks -> In g ids) /\
    (List.NoDup ids -> List.NoDup ks) /\
    (existsb AllocationFailed (PublishEvents st ids w) = false -> ks = ids) /\
    Frees (PublishEvents st ids w) = 0%nat /\
    ScratchAllocations (PublishEvents st ids w) = 0%nat /\
    RuntimeAllocations (PublishEvents st ids w) = length ks.
Proof.
  revert w. induction ids as [|g ids IH]; intros w.
  - exists []. repeat split; auto.
  - cbn [PublishEvents].
    destruct (ext_AllocatePool w RuntimePool (GroupTableSize st g)) eqn:Hok.
    + match goal with |- context [PublishEvents st ids ?w'] =>
        destruct (IH w') as (ks & Hreg & Hincl & Hnd & Hall & Hf & Hs & Hr);
        set (rest := PublishEvents st ids w') in *
      end.
      exists (g :: ks).
      change (Registered (_ :: _ :: rest)) with ((g, GroupTable st g) :: Registered rest).
      change (Frees (_ :: _ :: rest)) with (Frees rest).
      change (ScratchAllocations (_ :: _ :: rest)) with (ScratchAllocations rest).
      change (RuntimeAllocations (_ :: _ :: rest)) with (S (RuntimeAllocations rest)).
      change (existsb AllocationFailed (_ :: _ :: rest))
        with (existsb AllocationFailed rest).
      rewrite Hreg, Hf, Hs, Hr.
      split; [reflexivity|]. split; [|split; [|split; [|auto]]].
      * intros g' [->|Hin]; [left; reflexivity|right; apply Hincl; exact Hin].
      * intros Hnodup. inversion Hnodup as [|g' ids' Hnot Hnodup']; subst.
        constructor; [|apply Hnd; exact Hnodup'].
        intros Hin. apply Hnot, Hincl, Hin.
      * intros Hnone. rewrite (Hall Hnone). reflexivity.
    + match goal with |- context [PublishEvents st ids ?w'] =>
        destruct (IH w') as (ks & Hreg & Hincl & Hnd & Hall & Hf & Hs & Hr);
        set (rest := PublishEvents st ids w') in *
      end.
      exists ks.
      change (Registered (_ :: rest)) with (Registered rest).
      change (Frees (_ :: rest)) with (Frees rest).
      change (ScratchAllocations (_ :: rest)) with (ScratchAllocations rest).
      change (RuntimeAllocations (_ :: rest)) with (RuntimeAllocations rest).
      change (existsb AllocationFailed (_ :: rest)) with true.
      split; [exact Hreg|]. split; [|split; [|split; [|auto]]].
      * intros g' Hin. right. apply Hincl. exact Hin.
      * intros Hnodup. inversion Hnodup; subst. auto.
      * intros Heq. discriminate Heq.
Qed.

(** The same for the whole publishing step. *)
Lemma PopulateEvents_keys (st : State W) :
  wf st ->
  exists ks,
    Registered (PopulateEvents st) = map (fun g => (g, GroupTable st g)) ks /\
    (forall g, In g ks -> In g (DistinctIdentities st)) /\
    List.NoDup ks /\
    (existsb AllocationFailed (PopulateEvents st) = false -> ks = DistinctIdentities st) /\
    Frees (PopulateEvents st) = ScratchAllocations (PopulateEvents st) /\
    RuntimeAllocations (PopulateEvents st) = length ks.
Proof.
  intros Hwf. unfold PopulateEvents.
  destruct (mCapsuleTotalNumber st =? 0) eqn:Htot.
  { exists []. split; [reflexivity|]. split; [intros g []|].
    split; [constructor|]. split; [|auto].
    intros _. apply Z.eqb_eq in Htot. unfold DistinctIdentities.
    rewrite (wf_no_capsule st Hwf Htot). reflexivity. }
  destruct (ext_AllocatePool (world st) ZeroPool (8 * mCapsuleTotalNumber st)) eqn:Hok1;
    cbv beta iota zeta delta [negb].
  2:{ exists []. split; [reflexivity|]. split; [intros g []|].
      split; [constructor|]. split; [|auto].
      intros Heq. discriminate Heq. }
  destruct (ext_AllocatePool _ ZeroPool (16 * mCapsuleTotalNumber st)) eqn:Hok2;
    cbv beta iota zeta delta [negb].
  2:{ exists []. split; [reflexivity|]. split; [intros g []|].
      split; [constructor|]. split; [|auto].
      intros Heq. discriminate Heq. }
  match goal with |- context [PublishEvents st (DistinctIdentities st) ?w] =>
    destruct (PublishEvents_keys st (DistinctIdentities st) w)
      as (ks & Hreg & Hincl & Hnd & Hall & Hf & Hs & Hr);
    set (pub := PublishEvents st (DistinctIdentities st) w) in *
  end.
  exists ks.
  rewrite !Registered_app, !Frees_app, !ScratchAllocations_app, !RuntimeAllocations_app.
  rewrite !existsb_app, Hreg, Hf, Hs, Hr.
  split; [simpl; apply app_nil_r|]. split; [exact Hincl|].
  split; [apply Hnd, FirstOccurrences_NoDup|].
  split; [|split; [reflexivity|unfold RuntimeAllocations; simpl; lia]].
  simpl. rewrite orb_false_r. exact Hall.
Qed.

(** X6. Whatever allocation fails, the publisher registers no GUID
    twice, and every table it registers is the non-empty group of its
    GUID: it holds the discovered capsules that carry
    [CAPSULE_FLAGS_POPULATE_SYSTEM_TABLE] and that GUID, and no other
    pointer, and its count is the number of its pointers. *)
Theorem published_tables_are_distinct_groups (st : State W) :
  wf st ->
  exists st' evs,
    PopulateCapsuleInConfigurationTable st = Ok tt st' /\
    trace st' = trace st ++ evs /\
    List.NoDup (map fst (Registered evs)) /\
    forall g t, In (g, t) (Registered evs) ->
      CapsulePtr t <> [] /\
      CapsuleArrayNumber t = Z.of_nat (length (CapsulePtr t)) /\
      forall p, In p (CapsulePtr t) <->
                In p (mCapsulePtr st) /\ Flagged st p = true /\ GuidOf st p = g.
Proof.
  intros Hwf.
  exists (replay (PopulateEvents st) st), (PopulateEvents st).
  split; [apply PopulateCapsuleInConfigurationTable_spec; exact Hwf|].
  split; [apply replay_trace|].
  destruct (PopulateEvents_keys st Hwf) as (ks & Hreg & Hincl & Hnd & _).
  rewrite Hreg. split.
  - rewrite map_map. simpl. rewrite map_id. exact Hnd.
  - intros g t Hin. apply in_map_iff in Hin as (g' & Heq & Hin).
    injection Heq as <- <-. cbn [GroupTable CapsulePtr CapsuleArrayNumber].
    split; [apply DistinctIdentities_group, Hincl, Hin|].
    split; [reflexivity|]. intros p. apply IdentityGroup_In.
Qed.

Lemma Installed_app evs1 evs2 : Installed (evs1 ++ evs2) = Installed evs1 ++ Installed evs2.
Proof. apply flat_map_app. Qed.

(** The GUIDs for which the second step of the publisher adds an entry
    to the configuration table. *)
Lemma PublishEvents_entries (st : State W) ids w :
  exists ks,
    Installed (PublishEvents st ids w) = map (fun g => (g, GroupTable st g)) ks /\
    (forall g, In g ks -> In g ids) /\
    (List.NoDup ids -> List.NoDup ks) /\
    (existsb AllocationFailed (PublishEvents st ids w) = false ->
     existsb InstallFailed (PublishEvents st ids w) = false -> ks = ids).
Proof.
  revert w. induction ids as [|g ids IH]; intros w.
  - exists []. repeat split; auto.
  - cbn [PublishEvents].
    destruct (ext_AllocatePool w RuntimePool (GroupTableSize st g)) eqn:Hok.
    + match goal with |- context [PublishEvents st ids ?w'] =>
        destruct (IH w') as (ks & Hreg & Hincl & Hnd & Hall);
        set (rest := PublishEvents st ids w') in *
      end.
      match goal with |- context [EvInstallConfigurationTable g (GroupTable st g) ?s] =>
        set (Status := s) in *
      end.
      change (Installed (_ :: _ :: rest))
        with ((if EFI_ERROR Status then [] else [(g, GroupTable st g)]) ++ Installed rest).
      change (existsb AllocationFailed (_ :: _ :: rest))
        with (existsb AllocationFailed rest).
      change (existsb InstallFailed (_ :: _ :: rest))
        with (EFI_ERROR Status || existsb InstallFailed rest).
      destruct (EFI_ERROR Status); cbn [app orb].
      * exists ks. split; [exact Hreg|]. split; [|split].
        -- intros g' Hin. right. apply Hincl. exact Hin.
        -- intros Hnodup. inversion Hnodup; subst. auto.
        -- intros _ Heq. discriminate Heq.
      * exists (g :: ks). rewrite Hreg. split; [reflexivity|]. split; [|split].
        -- intros g' [->|Hin]; [left; reflexivity|right; apply Hincl; exact Hin].
        -- intros Hnodup. inversion Hnodup as [|g' ids' Hnot Hnodup']; subst.
           constructor; [|apply Hnd; exact Hnodup'].
           intros Hin. apply Hnot, Hincl, Hin.
        -- intros Hnone Hnone'. rewrite (Hall Hnone Hnone'). reflexivity.
    + match goal with |- context [PublishEvents st ids ?w'] =>
        destruct (IH w') as (ks & Hreg & Hincl & Hnd & Hall);
        set (rest := PublishEvents st ids w') in *
      end.
      exists ks.
      change (Installed (_ :: rest)) with (Installed rest).
      change (existsb AllocationFailed (_ :: rest)) with true.
      split; [exact Hreg|]. split; [|split].
      * intros g' Hin. right. apply Hincl. exact Hin.
      * intros Hnodup. inversion Hnodup; subst. auto.
      * intros Heq. discriminate Heq.
Qed.

(** The same for the whole publishing step. *)
Lemma PopulateEvents_entries (st : State W) :
  wf st ->
  exists ks,
    Installed (PopulateEvents st) = map (fun g => (g, GroupTable st g)) ks /\
    (forall g, In g ks -> In g (DistinctIdentities st)) /\
    List.NoDup ks /\
    (existsb AllocationFailed (PopulateEvents st) = false ->
     existsb InstallFailed (PopulateEvents st) = false -> ks = DistinctIdentities st).
Proof.
  intros Hwf. unfold PopulateEvents.
  destruct (mCapsuleTotalNumber st =? 0) eqn:Htot.
  { exists []. split; [reflexivity|]. split; [intros g []|].
    split; [constructor|].
    intros _ _. apply Z.eqb_eq in Htot. unfold DistinctIdentities.
    rewrite (wf_no_capsule st Hwf Htot). reflexivity. }
  destruct (ext_AllocatePool (world st) ZeroPool (8 * mCapsuleTotalNumber st)) eqn:Hok1;
    cbv beta iota zeta delta [negb].
  2:{ exists []. split; [reflexivity|]. split; [intros g []|].
      split; [constructor|].
      intros Heq. discriminate Heq. }
  destruct (ext_AllocatePool _ ZeroPool (16 * mCapsuleTotalNumber st)) eqn:Hok2;
    cbv beta iota zeta delta [negb].
  2:{ exists []. split; [reflexivity|]. split; [intros g []|].
      split; [constructor|].
      intros Heq. discriminate Heq. }
  match goal with |- context [PublishEvents st (DistinctIdentities st) ?w] =>
    destruct (PublishEvents_entries st (DistinctIdentities st) w)
      as (ks & Hreg & Hincl & Hnd & Hall);
    set (pub := PublishEvents st (DistinctIdentities st) w) in *
  end.
  exists ks.
  rewrite !Installed_app, !existsb_app, Hreg.
  split; [simpl; apply app_nil_r|]. split; [exact Hincl|].
  split; [apply Hnd, FirstOccurrences_NoDup|].
  simpl. rewrite !orb_false_r. exact Hall.
Qed.

(** X7. The entries that the publisher adds to the configuration table
    share no capsule: taken together their tables hold, each as often as
    it was discovered, the flagged capsules whose GUID got an entry, and
    only a GUID of a flagged capsule gets one. When no allocation and no
    call of [InstallConfigurationTable] fails, these are all the flagged
    capsules, so every one of them is published exactly once. *)
Theorem published_tables_partition (st : State W) :
  wf st ->
  exists st' evs,
    PopulateCapsuleInConfigurationTable st = Ok tt st' /\
    trace st' = trace st ++ evs /\
    Permutation (PublishedCapsules evs)
      (List.filter (fun p => Flagged st p && PublishedGuid evs (GuidOf st p))
         (mCapsulePtr st)) /\
    (forall g, PublishedGuid evs g = true -> In g (DistinctIdentities st)) /\
    (existsb AllocationFailed evs = false -> existsb InstallFailed evs = false ->
     Permutation (PublishedCapsules evs) (List.filter (Flagged st) (mCapsulePtr st))).
Proof.
  intros Hwf.
  exists (replay (PopulateEvents st) st), (PopulateEvents st).
  split; [apply PopulateCapsuleInConfigurationTable_spec; exact Hwf|].
  split; [apply replay_trace|].
  destruct (PopulateEvents_entries st Hwf) as (ks & Hreg & Hincl & Hnd & Hall).
  assert (Hpub : PublishedCapsules (PopulateEvents st) =
                 concat (map (fun g => List.filter
                                         (fun p => Flagged st p && CompareGuid g (GuidOf st p))
                                         (mCapsulePtr st)) ks)).
  { unfold PublishedCapsules. rewrite Hreg, map_map. reflexivity. }
  assert (Hkey : forall g, PublishedGuid (PopulateEvents st) g =
                           existsb (fun k => CompareGuid k g) ks).
  { intros g. unfold PublishedGuid. rewrite Hreg, existsb_map. reflexivity. }
  assert (Hparts : Permutation (PublishedCapsules (PopulateEvents st))
                     (List.filter
                        (fun p => Flagged st p &&
                                  PublishedGuid (PopulateEvents st) (GuidOf st p))
                        (mCapsulePtr st))).
  { rewrite Hpub.
    erewrite (List.filter_ext
                (fun p => Flagged st p && PublishedGuid (PopulateEvents st) (GuidOf st p)));
      [apply groups_partition; exact Hnd|].
    intros p. rewrite Hkey. reflexivity. }
  split; [exact Hparts|].
  split; [intros g Hg; rewrite Hkey in Hg; apply Hincl, existsb_CompareGuid, Hg|].
  intros Hnone Hnone'. specialize (Hall Hnone Hnone'). subst ks.
  eapply Permutation_trans; [exact Hparts|].
  erewrite filter_ext_in; [apply Permutation_refl|].
  intros p Hp. rewrite Hkey.
  destruct (Flagged st p) eqn:Hf; [|reflexivity]. simpl.
  apply existsb_CompareGuid, DistinctIdentities_In. eauto.
Qed.

(** X8. The publisher frees as many buffers as it obtained zero-pool
    buffers: its two scratch caches are released on every path, also
    when the second one cannot be allocated. Every runtime-pool table it
    obtained is handed to [InstallConfigurationTable], whatever that call
    answers. [mNeedReset], the HOB list and [mCapsuleTotalNumber] are
    left as they were. *)
Theorem publisher_pool_balance (st : State W) :
  wf st ->
  exists st' evs,
    PopulateCapsuleInConfigurationTable st = Ok tt st' /\
    trace st' = trace st ++ evs /\
    Frees evs = ScratchAllocations evs /\
    RuntimeAllocations evs = length (Registered evs) /\
    (ScratchAllocations evs <= 2)%nat /\
    mNeedReset st' = mNeedReset st /\ HobList st' = HobList st /\
    mCapsuleTotalNumber st' = mCapsuleTotalNumber st.
Proof.
  intros Hwf.
  exists (replay (PopulateEvents st) st), (PopulateEvents st).
  split; [apply PopulateCapsuleInConfigurationTable_spec; exact Hwf|].
  split; [apply replay_trace|].
  destruct (PopulateEvents_keys st Hwf) as (ks & Hreg & _ & _ & _ & Hf & Hr).
  split; [exact Hf|]. split; [rewrite Hr, Hreg, length_map; reflexivity|].
  split.
  { rewrite <- Hf. unfold PopulateEvents.
    destruct (_ =? 0); [unfold Frees; simpl; lia|].
    destruct (negb _); [unfold Frees; simpl; lia|].
    destruct (negb _); [unfold Frees; simpl; lia|].
    rewrite !Frees_app.
    match goal with |- context [PublishEvents st ?ids ?w] =>
      destruct (PublishEvents_keys st ids w) as (ks' & _ & _ & _ & _ & Hf' & _)
    end.
    rewrite Hf'. unfold Frees. simpl. lia. }
  split; [apply replay_reset|].
  pose proof (replay_same (PopulateEvents st) st) as Hsame.
  split; [exact (same_hobs _ _ Hsame)|exact (same_total _ _ Hsame)].
Qed.

Lemma FirstOccurrences_length (l : list EFI_GUID) :
  (length (FirstOccurrences l) <= length l)%nat.
Proof.
  induction l as [|g l IH]; [reflexivity|].
  cbn [FirstOccurrences length].
  pose proof (List.filter_length_le (fun g' => negb (CompareGuid g g')) (FirstOccurrences l)).
  lia.
Qed.

(** X17. The two scratch caches of the publisher are big enough: the
    first loop records at most [mCapsuleTotalNumber] GUIDs in
    [CapsuleGuidCache], and the inner loop of the second step gathers at
    most [mCapsuleTotalNumber] pointers in [CapsulePtrCache], for any
    GUID, so that no write falls outside the buffers, which were
    allocated for [mCapsuleTotalNumber] entries each. Neither loop makes
    a call or changes the state. *)
Theorem publisher_caches_fit (st : State W) :
  wf st ->
  exists Cache,
    CollectGuids (Z.to_nat (mCapsuleTotalNumber st)) 0 [] st = Ok Cache st /\
    Z.of_nat (length Cache) <= mCapsuleTotalNumber st /\
    forall Guid, exists PtrCache,
      GatherCapsules (Z.to_nat (mCapsuleTotalNumber st)) 0 Guid [] st = Ok PtrCache st /\
      Z.of_nat (length PtrCache) <= mCapsuleTotalNumber st.
Proof.
  intros Hwf. pose proof (wf_total st Hwf) as Htot.
  pose proof (wf_ptr_length _ Hwf) as Hlen.
  eexists. split; [apply CollectGuids_spec; [exact Hwf|lia]|].
  rewrite drop_0, CollectFrom_nil. split.
  - pose proof (FirstOccurrences_length
                  (map (GuidOf st) (List.filter (Flagged st) (mCapsulePtr st)))) as Hle.
    rewrite length_map in Hle.
    pose proof (List.filter_length_le (Flagged st) (mCapsulePtr st)). lia.
  - intros Guid. eexists. split; [apply GatherCapsules_spec; [exact Hwf|lia]|].
    rewrite drop_0, app_nil_l.
    pose proof (List.filter_length_le
                  (fun p => Flagged st p && CompareGuid Guid (GuidOf st p))
                  (mCapsulePtr st)). lia.
Qed.

End MorePublisher.

(** ** The calls of a pass, in order *)

Section PassLog.
Context {W : Type} {PF : Platform W}.

Lemma wp_of_run {A} (m : M W A) (Q : A -> State W -> Prop) st a st' :
  m st = Ok a st' -> Q a st' -> wp m Q st.
Proof. unfold wp. intros ->. auto. Qed.

Lemma ProcessorCalls_app evs1 evs2 :
  ProcessorCalls (evs1 ++ evs2) = ProcessorCalls evs1 ++ ProcessorCalls evs2.
Proof. apply flat_map_app. Qed.

Lemma OutcomeReports_app evs1 evs2 :
  OutcomeReports (evs1 ++ evs2) = OutcomeReports evs1 ++ OutcomeReports evs2.
Proof. apply List.filter_app. Qed.

Lemma TerminalResults_app evs1 evs2 :
  TerminalResults (evs1 ++ evs2) = TerminalResults evs1 ++ TerminalResults evs2.
Proof. apply flat_map_app. Qed.

(** The calls around the two loops are neither calls of the image
    processor nor outcome reports. *)
Lemma Bookkeeping_quiet evs :
  Forall Bookkeeping evs ->
  ProcessorCalls evs = [] /\ OutcomeReports evs = [] /\ TerminalResults evs = [].
Proof.
  induction 1 as [|e evs He _ (IH1 & IH2 & IH3)]; [auto|].
  change (e :: evs) with ([e] ++ evs).
  rewrite ProcessorCalls_app, OutcomeReports_app, TerminalResults_app, IH1, IH2, IH3.
  destruct e; try contradiction; try (repeat split; reflexivity).
  destruct He as [-> | ->]; repeat split; reflexivity.
Qed.

Lemma EsrtSync_bookkeeping s : Forall Bookkeeping (EsrtSync s).
Proof. unfold EsrtSync. destruct (EFI_ERROR s); repeat constructor. Qed.

(** One iteration of the second loop, as a list of calls. *)
Lemma StepEffect_log (FirstRound : bool) i (st st' : State W) evs s p :
  StepEffect FirstRound i st st' evs ->
  mCapsuleStatusArray st !! i = Some s -> mCapsulePtr st !! i = Some p ->
  ProcessorCalls evs =
    match SweepVerdict FirstRound st s p with VApply => [(p, true)] | _ => [] end /\
  OutcomeReports evs = map OutcomeReport (TerminalResults evs) /\
  Forall ProcessingEvent evs.
Proof.
  intros (s0 & p0 & Hs0 & Hp0 & Hv) Hs Hp.
  rewrite Hs in Hs0. rewrite Hp in Hp0. injection Hs0 as <-. injection Hp0 as <-.
  destruct (SweepVerdict FirstRound st s p).
  - destruct Hv as (-> & _). repeat split. constructor.
  - destruct Hv as (-> & _). repeat split. constructor.
  - destruct Hv as (-> & _). repeat split. constructor.
  - destruct Hv as (s' & r & _ & _ & -> & _).
    unfold ProcessorCalls, OutcomeReports, TerminalResults.
    cbn [flat_map List.filter IsOutcomeReport].
    destruct (s' =? EFI_NOT_READY).
    + repeat split. repeat constructor.
    + unfold OutcomeReport.
      destruct (EFI_ERROR s') eqn:Herr;
        cbn [flat_map List.filter app map IsOutcomeReport]; rewrite ?Herr;
        (split; [reflexivity|]); (split; [reflexivity|]);
        (constructor; [exact I|]); (constructor; [simpl; auto|constructor]).
Qed.

Lemma StepEffect_drop (FirstRound : bool) i (st st' : State W) evs :
  StepEffect FirstRound i st st' evs ->
  drop (S i) (mCapsuleStatusArray st') = drop (S i) (mCapsuleStatusArray st).
Proof.
  intros (s & p & _ & _ & Hv).
  destruct (SweepVerdict FirstRound st s p).
  - destruct Hv as (_ & -> & _). reflexivity.
  - destruct Hv as (_ & -> & _). apply drop_insert_lt. lia.
  - destruct Hv as (_ & -> & _). reflexivity.
  - destruct Hv as (s' & r & _ & -> & _). apply drop_insert_lt. lia.
Qed.

Lemma SweepTargets_same (FirstRound : bool) (st st' : State W) statuses ptrs :
  CapsuleMemory st' = CapsuleMemory st ->
  SweepTargets FirstRound st' statuses ptrs = SweepTargets FirstRound st statuses ptrs.
Proof.
  intros Hm. revert ptrs. induction statuses as [|s statuses IH]; intros ptrs; [reflexivity|].
  destruct ptrs as [|p ptrs]; [reflexivity|]. cbn [SweepTargets].
  rewrite (SweepVerdict_same FirstRound st st' s p Hm), IH. reflexivity.
Qed.

(** The second loop, as a list of calls. *)
Lemma ProcessRemainingCapsules_log (FirstRound : bool) (count lo : nat) (st : State W) :
  wf st -> (lo + count = length (mCapsulePtr st))%nat ->
  exists st' evs,
    ProcessRemainingCapsules FirstRound count lo st = Ok tt st' /\
    same_capsules st st' /\
    trace st' = trace st ++ evs /\
    ProcessorCalls evs =
      map (fun p => (p, true))
        (SweepTargets FirstRound st (drop lo (mCapsuleStatusArray st))
           (drop lo (mCapsulePtr st))) /\
    OutcomeReports evs = map OutcomeReport (TerminalResults evs) /\
    Forall ProcessingEvent evs.
Proof.
  revert lo st. induction count as [|k IH]; intros lo st Hwf Hlen.
  - exists st, []. split; [reflexivity|]. split; [apply same_capsules_refl|].
    split; [symmetry; apply app_nil_r|].
    rewrite (drop_ge (mCapsulePtr st)) by lia.
    rewrite (drop_ge (mCapsuleStatusArray st)) by (rewrite (wf_status_length _ Hwf); lia).
    repeat split. constructor.
  - assert (Hlo : (lo < length (mCapsulePtr st))%nat) by lia.
    destruct (wf_lookup st lo Hwf Hlo) as (s & p & Hs & Hp & _).
    pose proof (ProcessOneCapsule_spec FirstRound lo st Hwf Hlo) as Hone.
    apply wp_ok in Hone as ([] & st1 & Hrun1 & evs1 & Hsame1 & Htr1 & Hstep).
    assert (Hwf1 : wf st1) by (eapply same_capsules_wf; eauto).
    assert (Hlen1 : (S lo + k = length (mCapsulePtr st1))%nat)
      by (rewrite (same_ptr _ _ Hsame1); lia).
    destruct (IH (S lo) st1 Hwf1 Hlen1)
      as (st' & evs2 & Hrun2 & Hsame2 & Htr2 & Hcalls2 & Hrep2 & Hev2).
    destruct (StepEffect_log _ _ _ _ _ s p Hstep Hs Hp) as (Hcalls1 & Hrep1 & Hev1).
    exists st', (evs1 ++ evs2).
    split; [cbn [ProcessRemainingCapsules]; unfold bind; rewrite Hrun1; exact Hrun2|].
    split; [eapply same_capsules_trans; eauto|].
    split; [rewrite Htr2, Htr1, app_assoc; reflexivity|].
    rewrite ProcessorCalls_app, OutcomeReports_app, TerminalResults_app, map_app.
    rewrite Hcalls1, Hcalls2, Hrep1, Hrep2.
    split; [|split; [reflexivity|apply Forall_app; auto]].
    rewrite (drop_S _ _ _ Hs), (drop_S _ _ _ Hp). cbn [SweepTargets].
    rewrite (StepEffect_drop _ _ _ _ _ Hstep), (same_ptr _ _ Hsame1).
    rewrite (SweepTargets_same FirstRound st st1 _ _ (same_memory _ _ Hsame1)).
    destruct (SweepVerdict FirstRound st s p); reflexivity.
Qed.

Lemma find_first {A} (f : A -> bool) (l : list A) i x :
  l !! i = Some x -> f x = true ->
  (forall j y, (j < i)%nat -> l !! j = Some y -> f y = false) ->
  List.find f l = Some x.
Proof.
  revert i. induction l as [|a l IH]; intros i Hi Hx Hbefore; [discriminate Hi|].
  destruct i as [|i].
  - injection Hi as ->. simpl. rewrite Hx. reflexivity.
  - simpl. rewrite (Hbefore 0%nat a) by (lia || reflexivity).
    apply (IH i); auto. intros j y Hj Hy. apply (Hbefore (S j) y); [lia|exact Hy].
Qed.

Lemma find_none {A} (f : A -> bool) (l : list A) :
  (forall j y, l !! j = Some y -> f y = false) -> List.find f l = None.
Proof.
  induction l as [|a l IH]; intros Hall; [reflexivity|].
  simpl. rewrite (Hall 0%nat a) by reflexivity.
  apply IH. intros j y Hy. apply (Hall (S j) y). exact Hy.
Qed.

(** The first loop, as a list of calls. *)
Lemma UxEffect_log (st st' : State W) evs :
  UxEffect st st' evs ->
  ProcessorCalls evs = map (fun p => (p, false)) (UxTarget st) /\
  OutcomeReports evs = [] /\ TerminalResults evs = [] /\
  Forall ProcessingEvent evs.
Proof.
  unfold UxTarget.
  intros [(Hno & -> & _)|(i & p & s & r & (Hp & Hux & Hbefore) & _ & -> & _)].
  - rewrite (find_none _ _ Hno). repeat split. constructor.
  - rewrite (find_first _ _ i p Hp Hux Hbefore). repeat split. repeat constructor.
Qed.

(** The status the first loop writes does not change what the second
    loop applies. *)
Lemma SweepTargets_insert_ux (FirstRound : bool) (st : State W) statuses ptrs i p v :
  ptrs !! i = Some p -> IsUxCapsule st p = true ->
  SweepTargets FirstRound st (<[i := v]> statuses) ptrs =
  SweepTargets FirstRound st statuses ptrs.
Proof.
  revert ptrs i. induction statuses as [|s statuses IH]; intros ptrs i Hp Hux; [reflexivity|].
  destruct ptrs as [|q ptrs]; [destruct i; reflexivity|].
  destruct i as [|i].
  - injection Hp as ->. change (<[0%nat := v]> (s :: statuses)) with (v :: statuses).
    cbn [SweepTargets]. unfold SweepVerdict. rewrite Hux.
    destruct (negb (v =? EFI_NOT_READY)), (negb (s =? EFI_NOT_READY)); reflexivity.
  - change (<[S i := v]> (s :: statuses)) with (s :: <[i := v]> statuses).
    cbn [SweepTargets]. rewrite (IH ptrs i Hp Hux). reflexivity.
Qed.

Lemma UxTarget_same (st st' : State W) : same_capsules st st' -> UxTarget st' = UxTarget st.
Proof.
  intros Hsame. unfold UxTarget, IsUxCapsule.
  rewrite (same_ptr _ _ Hsame), (same_memory _ _ Hsame). reflexivity.
Qed.

(** The part of a pass that follows the early returns, as a list of calls. *)
Lemma DispatchCapsules_log (FirstRound : bool) (st : State W) :
  wf st ->
  exists st' mid sE,
    DispatchCapsules FirstRound st = Ok EFI_SUCCESS st' /\
    trace st' =
      trace st ++ (if FirstRound then PopulateEvents st else []) ++
      EvReportStatusCode EFI_PROGRESS_CODE UpdatingFirmware :: mid ++
      EsrtSync sE ++ [EvReportStatusCode EFI_PROGRESS_CODE ProcessCapsulesEnd] /\
    ProcessorCalls mid =
      map (fun p => (p, false)) (UxTarget st) ++
      map (fun p => (p, true))
        (SweepTargets FirstRound st (mCapsuleStatusArray st) (mCapsulePtr st)) /\
    OutcomeReports mid = map OutcomeReport (TerminalResults mid) /\
    Forall ProcessingEvent mid.
Proof.
  intros Hwf.
  set (evsP := if FirstRound then PopulateEvents st else []).
  cut (wp (DispatchCapsules FirstRound)
         (fun r st' => r = EFI_SUCCESS /\ exists mid sE,
            trace st' =
              trace st ++ evsP ++
              EvReportStatusCode EFI_PROGRESS_CODE UpdatingFirmware :: mid ++
              EsrtSync sE ++ [EvReportStatusCode EFI_PROGRESS_CODE ProcessCapsulesEnd] /\
            ProcessorCalls mid =
              map (fun p => (p, false)) (UxTarget st) ++
              map (fun p => (p, true))
                (SweepTargets FirstRound st (mCapsuleStatusArray st) (mCapsulePtr st)) /\
            OutcomeReports mid = map OutcomeReport (TerminalResults mid) /\
            Forall ProcessingEvent mid) st).
  { intros Hwp. apply wp_ok in Hwp as (r & st' & Hrun & -> & mid & sE & Hrest).
    exists st', mid, sE. split; [exact Hrun|exact Hrest]. }
  assert (Hpop : (if FirstRound then PopulateCapsuleInConfigurationTable else ret tt) st
                 = Ok tt (replay evsP st)).
  { unfold evsP. destruct FirstRound; [|reflexivity].
    apply PopulateCapsuleInConfigurationTable_spec. exact Hwf. }
  unfold DispatchCapsules.
  apply wp_bind. eapply wp_of_run; [exact Hpop|].
  apply wp_bind, wp_emit.
  set (stP := record (EvReportStatusCode EFI_PROGRESS_CODE UpdatingFirmware)
                (replay evsP st)).
  assert (HsameP : same_capsules st stP)
    by (eapply same_capsules_trans; [apply replay_same|apply same_capsules_record]).
  assert (HwfP : wf stP) by (eapply same_capsules_wf; eauto).
  assert (HstatP : mCapsuleStatusArray stP = mCapsuleStatusArray st)
    by (unfold stP; simpl; apply replay_status).
  assert (HtrP : trace stP =
                 trace st ++ evsP ++ [EvReportStatusCode EFI_PROGRESS_CODE UpdatingFirmware])
    by (unfold stP; simpl; rewrite replay_trace, app_assoc; reflexivity).
  apply wp_bind, wp_gets. apply wp_bind.
  eapply wp_mono; [|apply (ProcessUxCapsule_spec _ 0 stP HwfP)].
  2:{ rewrite (wf_total _ HwfP). reflexivity. }
  2:{ intros j q Hj. lia. }
  intros [] stU (evsU & HsameU & HtrU & _ & Hux).
  assert (HwfU : wf stU) by (eapply same_capsules_wf; eauto).
  destruct (UxEffect_log _ _ _ Hux) as (HcallsU & HrepU & HtermU & HevU).
  apply wp_bind, wp_gets. apply wp_bind.
  destruct (ProcessRemainingCapsules_log FirstRound
              (Z.to_nat (mCapsuleTotalNumber stU)) 0 stU HwfU)
    as (stS & evsS & HrunS & HsameS & HtrS & HcallsS & HrepS & HevS).
  { rewrite (wf_total _ HwfU). reflexivity. }
  eapply wp_of_run; [exact HrunS|].
  apply wp_bind. unfold wp at 1, LocateEsrtManagement.
  set (sE := ext_LocateEsrtManagement (world stS)).
  assert (Hfinal :
            trace stS ++ EsrtSync sE ++
              [EvReportStatusCode EFI_PROGRESS_CODE ProcessCapsulesEnd] =
            trace st ++ evsP ++
              EvReportStatusCode EFI_PROGRESS_CODE UpdatingFirmware :: (evsU ++ evsS) ++
              EsrtSync sE ++ [EvReportStatusCode EFI_PROGRESS_CODE ProcessCapsulesEnd]).
  { rewrite HtrS, HtrU, HtrP. rewrite <- !app_assoc. reflexivity. }
  assert (Hmid : ProcessorCalls (evsU ++ evsS) =
                   map (fun p => (p, false)) (UxTarget st) ++
                   map (fun p => (p, true))
                     (SweepTargets FirstRound st (mCapsuleStatusArray st) (mCapsulePtr st)) /\
                 OutcomeReports (evsU ++ evsS) =
                   map OutcomeReport (TerminalResults (evsU ++ evsS)) /\
                 Forall ProcessingEvent (evsU ++ evsS)).
  { rewrite ProcessorCalls_app, OutcomeReports_app, TerminalResults_app.
    rewrite HcallsU, HcallsS, HrepU, HtermU, HrepS.
    split; [|split; [reflexivity|apply Forall_app; auto]].
    rewrite (UxTarget_same st stP HsameP). f_equal. f_equal.
    rewrite !drop_0.
    assert (HsameStU : same_capsules st stU) by (eapply same_capsules_trans; eauto).
    rewrite (SweepTargets_same FirstRound st stU _ _ (same_memory _ _ HsameStU)).
    rewrite (same_ptr _ _ HsameStU).
    destruct Hux as [(_ & _ & ->)|(i & p & s & r & (Hp & Hisux & _) & _ & _ & ->)].
    - rewrite HstatP. reflexivity.
    - rewrite HstatP. apply (SweepTargets_insert_ux FirstRound st _ _ i p).
      + rewrite <- (same_ptr _ _ HsameP). exact Hp.
      + unfold IsUxCapsule in *. rewrite <- (same_memory _ _ HsameP). exact Hisux. }
  apply wp_bind.
  destruct (EFI_ERROR sE) eqn:Herr; simpl negb; cbv iota.
  - apply wp_ret. apply wp_bind, wp_emit. apply wp_ret.
    split; [reflexivity|]. exists (evsU ++ evsS), sE.
    split; [|exact Hmid].
    rewrite <- Hfinal. unfold EsrtSync. rewrite Herr. simpl.
    rewrite <- !app_assoc. reflexivity.
  - unfold SyncEsrtFmp. apply wp_emit. apply wp_bind, wp_emit. apply wp_ret.
    split; [reflexivity|]. exists (evsU ++ evsS), sE.
    split; [|exact Hmid].
    rewrite <- Hfinal. unfold EsrtSync. rewrite Herr. simpl.
    rewrite <- !app_assoc. reflexivity.
Qed.

Lemma ProcessTheseCapsules_unfold (FirstRound : bool) (st st1 : State W) :
  DiscoverCapsules FirstRound st = Ok tt st1 -> wf st1 ->
  ProcessTheseCapsules FirstRound st =
  if ShortCircuit st1 then Ok EFI_SUCCESS st1 else DispatchCapsules FirstRound st1.
Proof.
  intros Hdisc Hwf1. unfold ProcessTheseCapsules, ShortCircuit.
  unfold bind at 1. rewrite Hdisc. unfold bind at 1, gets.
  destruct (mCapsuleTotalNumber st1 =? 0); [reflexivity|].
  unfold bind at 1. rewrite (AreAllImagesProcessed_spec st1 Hwf1).
  simpl orb.
  destruct (forallb (fun s => negb (s =? EFI_NOT_READY)) (mCapsuleStatusArray st1));
    reflexivity.
Qed.

(** A whole pass, as a list of calls. *)
Lemma pass_log (FirstRound : bool) (st st1 : State W) :
  PassStart FirstRound st -> DiscoverCapsules FirstRound st = Ok tt st1 ->
  exists st' evsD mid sE,
    ProcessTheseCapsules FirstRound st = Ok EFI_SUCCESS st' /\
    trace st' =
      trace st ++ EvReportStatusCode EFI_PROGRESS_CODE ProcessCapsulesBegin ::
      PassCalls (ShortCircuit st1) evsD (if FirstRound then PopulateEvents st1 else [])
        mid sE /\
    wf st1 /\ Forall PublisherEvent evsD /\ (FirstRound = false -> evsD = []) /\
    ProcessorCalls mid =
      map (fun p => (p, false)) (UxTarget st1) ++
      map (fun p => (p, true))
        (SweepTargets FirstRound st1 (mCapsuleStatusArray st1) (mCapsulePtr st1)) /\
    OutcomeReports mid = map OutcomeReport (TerminalResults mid) /\
    Forall ProcessingEvent mid.
Proof.
  intros Hstart Hd.
  destruct (pass_run FirstRound st Hstart) as (st1' & st0 & new & evs & Hrun).
  rewrite (PassRun_unique _ _ _ _ _ _ _ Hrun Hd) in Hrun. clear st1'.
  pose proof (run_wf _ _ _ _ _ _ Hrun) as Hwf1.
  destruct (run_split _ _ _ _ _ _ Hrun) as (evsD & _ & Htr1 & HevD & _).
  assert (Hlater : FirstRound = false -> evsD = []).
  { intros ->. injection Hd as <-. simpl in Htr1.
    apply app_inv_head in Htr1. injection Htr1 as <-. reflexivity. }
  rewrite (ProcessTheseCapsules_unfold FirstRound st st1 Hd Hwf1).
  destruct (DispatchCapsules_log FirstRound st1 Hwf1)
    as (st' & mid & sE & Hdis & Htr & Hcalls & Hrep & Hev).
  unfold PassCalls. destruct (ShortCircuit st1).
  - exists st1, evsD, mid, sE. split; [reflexivity|].
    split; [rewrite app_nil_r; exact Htr1|]. auto 10.
  - exists st', evsD, mid, sE. split; [exact Hdis|].
    split; [|auto 10].
    rewrite Htr, Htr1. rewrite <- !app_assoc. reflexivity.
Qed.

End PassLog.

(** ** What a pass calls, and when *)

Section PassOrder.
Context {W : Type} {PF : Platform W}.

Lemma PublisherEvent_quiet evs :
  Forall PublisherEvent evs ->
  ProcessorCalls evs = [] /\ OutcomeReports evs = [] /\ TerminalResults evs = [].
Proof.
  intros Hall. apply Bookkeeping_quiet.
  eapply Forall_impl; [exact Hall|]. intros e. apply PublisherEvent_bookkeeping.
Qed.

(** The calls of a pass outside its processing phase are neither calls
    of the image processor nor outcome reports. *)
Lemma PassCalls_processing (Short : bool) evsD evsP mid sE :
  Forall PublisherEvent evsD -> Forall PublisherEvent evsP ->
  let new := EvReportStatusCode EFI_PROGRESS_CODE ProcessCapsulesBegin ::
             PassCalls Short evsD evsP mid sE in
  ProcessorCalls new = (if Short then [] else ProcessorCalls mid) /\
  OutcomeReports new = (if Short then [] else OutcomeReports mid) /\
  TerminalResults new = (if Short then [] else TerminalResults mid).
Proof.
  intros HevD HevP new. subst new.
  destruct (PublisherEvent_quiet evsD HevD) as (HD1 & HD2 & HD3).
  destruct (PublisherEvent_quiet evsP HevP) as (HP1 & HP2 & HP3).
  destruct (Bookkeeping_quiet _ (EsrtSync_bookkeeping sE)) as (HE1 & HE2 & HE3).
  change (ProcessorCalls (?e :: PassCalls Short evsD evsP mid sE))
    with (ProcessorCalls (PassCalls Short evsD evsP mid sE)).
  change (OutcomeReports (?e :: PassCalls Short evsD evsP mid sE))
    with (OutcomeReports (PassCalls Short evsD evsP mid sE)).
  change (TerminalResults (?e :: PassCalls Short evsD evsP mid sE))
    with (TerminalResults (PassCalls Short evsD evsP mid sE)).
  unfold PassCalls.
  rewrite ProcessorCalls_app, OutcomeReports_app, TerminalResults_app, HD1, HD2, HD3.
  destruct Short; [auto|].
  rewrite ProcessorCalls_app, OutcomeReports_app, TerminalResults_app, HP1, HP2, HP3.
  change (ProcessorCalls (?e :: mid ++ ?tl)) with (ProcessorCalls (mid ++ tl)).
  change (OutcomeReports (?e :: mid ++ ?tl)) with (OutcomeReports (mid ++ tl)).
  change (TerminalResults (?e :: mid ++ ?tl)) with (TerminalResults (mid ++ tl)).
  rewrite !ProcessorCalls_app, !OutcomeReports_app, !TerminalResults_app, HE1, HE2, HE3.
  simpl. rewrite !app_nil_r. auto.
Qed.

Lemma pass_publisher_events (FirstRound : bool) (st1 : State W) :
  Forall PublisherEvent (if FirstRound then PopulateEvents st1 else []).
Proof. destruct FirstRound; [apply PopulateEvents_publisher|constructor]. Qed.

(** X9. The image processor is called, in this order and no more: for
    the first capsule in discovery order that carries the Windows UX
    GUID, without a [ResetRequired] pointer; then, with one, for every
    entry that the second loop applies, in index order: status
    [EFI_NOT_READY], not the Windows UX GUID, accepted by [IsFmpCapsule]
    and [ValidateFmpCapsule], and on the first round without embedded
    drivers. A pass that returns early calls it for none. *)
Theorem pass_call_sequence (FirstRound : bool) (st st1 : State W) :
  PassStart FirstRound st -> DiscoverCapsules FirstRound st = Ok tt st1 ->
  exists st' new,
    ProcessTheseCapsules FirstRound st = Ok EFI_SUCCESS st' /\
    trace st' = trace st ++ new /\
    ProcessorCalls new = ExpectedCalls FirstRound st1.
Proof.
  intros Hstart Hd.
  destruct (pass_log FirstRound st st1 Hstart Hd)
    as (st' & evsD & mid & sE & Hrun & Htr & _ & HevD & _ & Hcalls & _).
  eexists st', _. split; [exact Hrun|]. split; [exact Htr|].
  destruct (PassCalls_processing (ShortCircuit st1) evsD _ mid sE HevD
              (pass_publisher_events FirstRound st1)) as (Hc & _).
  rewrite Hc. unfold ExpectedCalls. rewrite Hcalls. reflexivity.
Qed.

(** X10. The update-failed and update-success status codes of a pass
    are, in order, one for each call of the second loop that was not
    answered [EFI_NOT_READY]: the error code with update-failed when the
    answer is an error status, the progress code with update-success
    otherwise. The call for the Windows UX capsule is not reported,
    whatever it answers, nor is an aborted or deferred capsule. *)
Theorem pass_outcome_reports (FirstRound : bool) (st st1 : State W) :
  PassStart FirstRound st -> DiscoverCapsules FirstRound st = Ok tt st1 ->
  exists st' new,
    ProcessTheseCapsules FirstRound st = Ok EFI_SUCCESS st' /\
    trace st' = trace st ++ new /\
    OutcomeReports new = map OutcomeReport (TerminalResults new).
Proof.
  intros Hstart Hd.
  destruct (pass_log FirstRound st st1 Hstart Hd)
    as (st' & evsD & mid & sE & Hrun & Htr & _ & HevD & _ & _ & Hrep & _).
  eexists st', _. split; [exact Hrun|]. split; [exact Htr|].
  destruct (PassCalls_processing (ShortCircuit st1) evsD _ mid sE HevD
              (pass_publisher_events FirstRound st1)) as (_ & Ho & Ht).
  rewrite Ho, Ht. destruct (ShortCircuit st1); [reflexivity|exact Hrep].
Qed.

(** X11. The calls of a pass come in phases: the begin report; the pool
    calls of discovery (none on a later round); then, unless the pass
    returns early, the calls of the publisher (none on a later round),
    the updating-firmware report, the calls of the image processor with
    their outcome reports, one lookup of the ESRT management protocol
    followed by [SyncEsrtFmp] exactly when the lookup succeeded, and the
    end report. A pass that returns early makes no call after
    discovery: no ESRT synchronisation and no end report. *)
Theorem pass_phases (FirstRound : bool) (st st1 : State W) :
  PassStart FirstRound st -> DiscoverCapsules FirstRound st = Ok tt st1 ->
  exists st' evsD mid Status,
    ProcessTheseCapsules FirstRound st = Ok EFI_SUCCESS st' /\
    trace st' =
      trace st ++ EvReportStatusCode EFI_PROGRESS_CODE ProcessCapsulesBegin ::
      PassCalls (ShortCircuit st1) evsD
        (if FirstRound then PopulateEvents st1 else []) mid Status /\
    Forall PublisherEvent evsD /\ (FirstRound = false -> evsD = []) /\
    Forall ProcessingEvent mid.
Proof.
  intros Hstart Hd.
  destruct (pass_log FirstRound st st1 Hstart Hd)
    as (st' & evsD & mid & sE & Hrun & Htr & _ & HevD & Hlater & _ & _ & Hev).
  exists st', evsD, mid, sE. auto.
Qed.

Lemma ProcessingEvent_not_publisher evs :
  Forall ProcessingEvent evs -> Forall (fun e => ~ PublisherEvent e) evs.
Proof.
  intros Hall. eapply Forall_impl; [exact Hall|].
  intros e He Hp. destruct e; contradiction.
Qed.

(** X12. A pass with [FirstRound = FALSE] does not discover or publish
    again: it makes no pool allocation, frees nothing and installs no
    configuration table, and it leaves [mCapsulePtr],
    [mCapsuleTotalNumber], the HOB list and the length of the status
    array as they were, so that another pass can follow. *)
Theorem later_pass_keeps_the_tables (st : State W) :
  wf st ->
  exists st' new,
    ProcessTheseCapsules false st = Ok EFI_SUCCESS st' /\
    trace st' = trace st ++ new /\
    Forall (fun e => ~ PublisherEvent e) new /\
    mCapsulePtr st' = mCapsulePtr st /\
    mCapsuleTotalNumber st' = mCapsuleTotalNumber st /\
    HobList st' = HobList st /\
    length (mCapsuleStatusArray st') = length (mCapsuleStatusArray st) /\
    wf st'.
Proof.
  intros Hwf.
  set (st1 := record (EvReportStatusCode EFI_PROGRESS_CODE ProcessCapsulesBegin) st).
  assert (Hd : DiscoverCapsules false st = Ok tt st1) by reflexivity.
  destruct (pass_log false st st1 Hwf Hd)
    as (st' & evsD & mid & sE & Hrun & Htr & _ & _ & Hlater & _ & _ & Hev).
  rewrite (Hlater eq_refl) in Htr.
  destruct (pass_run false st Hwf) as (st1' & st'' & new & evs & Hpass).
  rewrite (PassRun_unique _ _ _ _ _ _ _ Hpass Hd) in Hpass. clear st1'.
  pose proof (run_return _ _ _ _ _ _ Hpass) as Hret.
  rewrite Hrun in Hret. injection Hret as <-.
  pose proof (PassRun_same _ _ _ _ _ _ Hpass) as Hsame.
  eexists st', _. split; [exact Hrun|]. split; [exact Htr|].
  split.
  { constructor; [intros []|]. unfold PassCalls. rewrite !app_nil_l.
    destruct (ShortCircuit st1); [constructor|].
    constructor; [intros []|].
    apply Forall_app. split; [apply ProcessingEvent_not_publisher; exact Hev|].
    apply Forall_app. split.
    - unfold EsrtSync. destruct (EFI_ERROR sE); repeat constructor; intros [].
    - constructor; [intros []|constructor]. }
  split; [exact (same_ptr _ _ Hsame)|]. split; [exact (same_total _ _ Hsame)|].
  split; [exact (same_hobs _ _ Hsame)|]. split; [exact (same_length _ _ Hsame)|].
  exact (run_wf_final _ _ _ _ _ _ Hpass).
Qed.

(** X13. [ProcessCapsules] resets the platform exactly when [mNeedReset]
    was set on entry or a call of the second loop, answered with a
    result other than [EFI_NOT_READY], asked for a reset or was made for
    a capsule that carries the reboot flag; otherwise it returns
    [EFI_SUCCESS]. *)
Theorem reset_decision (st : State W) :
  boot_state st ->
  exists st' new,
    ProcessTheseCapsules true st = Ok EFI_SUCCESS st' /\
    trace st' = trace st ++ new /\
    ProcessCapsules st =
      if mNeedReset st || existsb (ResetDemand st) new
      then NoReturn (replay [EvReportStatusCode EFI_PROGRESS_CODE ResettingSystem;
                             EvResetSystemWithSubtype EfiResetCold
                               gCapsuleUpdateCompleteResetGuid] st')
      else Ok EFI_SUCCESS st'.
Proof.
  intros Hboot.
  destruct (pass_run true st Hboot) as (st1 & st' & new & evs & Hpass).
  exists st', new.
  split; [exact (run_return _ _ _ _ _ _ Hpass)|].
  split; [exact (run_trace _ _ _ _ _ _ Hpass)|].
  rewrite ProcessCapsules_unfold, (run_return _ _ _ _ _ _ Hpass).
  rewrite (PassRun_reset _ _ _ _ _ _ Hpass). reflexivity.
Qed.

Lemma single_is_first {A} (f : A -> bool) (l : list A) i x :
  (length (List.filter f l) <= 1)%nat -> l !! i = Some x -> f x = true ->
  forall j y, (j < i)%nat -> l !! j = Some y -> f y = false.
Proof.
  revert i. induction l as [|a l IH]; intros i Hone Hi Hx j y Hj Hy; [discriminate Hi|].
  destruct i as [|i]; [lia|]. cbn [List.filter] in Hone.
  assert (Hin : In x (List.filter f l)).
  { apply List.filter_In. split; [|exact Hx].
    apply list_elem_of_In. eapply list_elem_of_lookup_2. exact Hi. }
  destruct (f a) eqn:Hfa.
  - simpl in Hone. destruct (List.filter f l); [destruct Hin|simpl in Hone; lia].
  - destruct j as [|j]; [injection Hy as <-; exact Hfa|].
    apply (IH i Hone Hi Hx j y); [lia|exact Hy].
Qed.

(** X14. A pass with [FirstRound = FALSE] over capsules of which at
    most one carries the Windows UX GUID leaves no entry
    [EFI_NOT_READY], unless the image processor answered
    [EFI_NOT_READY] to one of its calls. [AreAllImagesProcessed] then
    returns [TRUE], and a further pass makes the begin report and
    returns at once. *)
Theorem later_pass_settles_everything (st : State W) :
  wf st ->
  (length (List.filter (IsUxCapsule st) (mCapsulePtr st)) <= 1)%nat ->
  exists st' new,
    ProcessTheseCapsules false st = Ok EFI_SUCCESS st' /\
    trace st' = trace st ++ new /\
    (NoNotReady new ->
     AllTerminal st' /\
     AreAllImagesProcessed st' = Ok true st' /\
     ProcessTheseCapsules false st' =
       Ok EFI_SUCCESS
         (record (EvReportStatusCode EFI_PROGRESS_CODE ProcessCapsulesBegin) st')).
Proof.
  intros Hwf Hone.
  destruct (pass_run false st Hwf) as (st1 & st' & new & evs & Hpass).
  exists st', new.
  split; [exact (run_return _ _ _ _ _ _ Hpass)|].
  split; [exact (run_trace _ _ _ _ _ _ Hpass)|].
  intros Hnone.
  pose proof (run_wf _ _ _ _ _ _ Hpass) as Hwf1.
  pose proof (run_wf_final _ _ _ _ _ _ Hpass) as Hwf'.
  pose proof (PassRun_same _ _ _ _ _ _ Hpass) as Hsame.
  destruct (run_later _ _ _ _ _ _ Hpass eq_refl) as [Hptr1 Hstat1].
  pose proof (run_memory _ _ _ _ _ _ Hpass) as Hmem1.
  assert (Hone1 : (length (List.filter (IsUxCapsule st1) (mCapsulePtr st1)) <= 1)%nat).
  { unfold IsUxCapsule in *. rewrite Hptr1, Hmem1. exact Hone. }
  assert (Hall : AllTerminal st').
  { intros i s' Hs'.
    assert (Hi : (i < length (mCapsulePtr st1))%nat).
    { apply lookup_lt_Some in Hs'.
      rewrite (same_length _ _ Hsame), (wf_status_length _ Hwf1) in Hs'. exact Hs'. }
    destruct (wf_lookup st1 i Hwf1 Hi) as (s & p & Hs & Hp & _).
    pose proof (run_effect _ _ _ _ _ _ Hpass) as Heff.
    destruct (ShortCircuit st1) eqn:Hsc.
    { destruct Heff as [-> _]. rewrite Hs in Hs'. injection Hs' as <-.
      apply Z.eqb_neq. exact (short_not_pending st1 i s Hwf1 Hsc Hs). }
    destruct (IsUxCapsule st1 p) eqn:Hux.
    - assert (Hfirst : FirstUxCapsule st1 i p).
      { split; [exact Hp|]. split; [exact Hux|].
        exact (single_is_first _ _ i p Hone1 Hp Hux). }
      destruct (pass_ux _ _ _ _ Heff i p Hfirst) as (Hsucc & _).
      rewrite Hsucc in Hs'. injection Hs' as <-. discriminate.
    - pose proof (pass_other _ _ _ _ Heff i s p Hs Hp (not_ux_not_first st1 i p Hux))
        as Hout.
      unfold IndexOutcome, SweepVerdict in Hout. rewrite Hux in Hout.
      destruct (s =? EFI_NOT_READY) eqn:Hpend; simpl negb in Hout; cbv iota in Hout.
      2:{ rewrite Hout in Hs'. injection Hs' as <-. apply Z.eqb_neq. exact Hpend. }
      destruct (IsFmpCapsule p); simpl negb in Hout; cbv iota in Hout.
      2:{ rewrite Hout in Hs'. injection Hs' as <-. discriminate. }
      destruct (EFI_ERROR (fst (ValidateFmpCapsule p))).
      { rewrite Hout in Hs'. injection Hs' as <-. discriminate. }
      simpl andb in Hout. cbv iota in Hout.
      destruct Hout as (s'' & r & Hin & Hfin).
      rewrite Hfin in Hs'. injection Hs' as <-.
      intros ->. apply (Hnone p true r).
      apply (PassRun_process _ _ _ _ _ _ _ _ _ _ Hpass). exact Hin. }
  assert (Hforall : forallb (fun s => negb (s =? EFI_NOT_READY)) (mCapsuleStatusArray st')
                    = true).
  { apply forallb_forall. intros s Hin.
    apply list_elem_of_In, list_elem_of_lookup in Hin as (i & Hs).
    apply negb_true_iff, Z.eqb_neq. exact (Hall i s Hs). }
  split; [exact Hall|].
  split; [rewrite (AreAllImagesProcessed_spec st' Hwf'), Hforall; reflexivity|].
  set (stB := record (EvReportStatusCode EFI_PROGRESS_CODE ProcessCapsulesBegin) st').
  assert (HwfB : wf stB)
    by (eapply same_capsules_wf; [apply same_capsules_record|exact Hwf']).
  rewrite (ProcessTheseCapsules_unfold false st' stB eq_refl HwfB).
  unfold ShortCircuit. change (mCapsuleStatusArray stB) with (mCapsuleStatusArray st').
  rewrite Hforall, orb_true_r. reflexivity.
Qed.

(** X18. The status recorded for a capsule that the second loop
    applies is the status the image processor returned for it: the entry
    of a pending capsule that is not the Windows UX capsule and passes
    [IsFmpCapsule] and [ValidateFmpCapsule], on a later round or without
    embedded drivers, holds after the pass the result of a call made
    for that capsule with a [ResetRequired] pointer. *)
Theorem applied_capsule_records_its_result
    (FirstRound : bool) (st st1 : State W) (i : nat) (p : Z) :
  PassStart FirstRound st ->
  DiscoverCapsules FirstRound st = Ok tt st1 ->
  HandledBySweep st1 i p ->
  IsFmpCapsule p = true ->
  EFI_ERROR (fst (ValidateFmpCapsule p)) = false ->
  FirstRound = false \/ snd (ValidateFmpCapsule p) = 0 ->
  exists st' new s r,
    ProcessTheseCapsules FirstRound st = Ok EFI_SUCCESS st' /\
    trace st' = trace st ++ new /\
    In (EvProcessThisCapsuleImage p true s r) new /\
    mCapsuleStatusArray st' !! i = Some s.
Proof.
  intros Hstart Hd [Hp Hs Hux] Hfmp Hval Hround.
  destruct (pass_run FirstRound st Hstart) as (st1' & st' & new & evs & Hpass).
  rewrite (PassRun_unique _ _ _ _ _ _ _ Hpass Hd) in Hpass. clear st1'.
  pose proof (PassRun_outcome _ _ _ _ _ _ i _ p Hpass Hs Hp
                (not_ux_not_first st1 i p Hux)) as Hout.
  unfold IndexOutcome, SweepVerdict in Hout.
  rewrite Z.eqb_refl, Hux, Hfmp, Hval in Hout. simpl negb in Hout. cbv iota in Hout.
  assert (Hdefer : FirstRound && negb (snd (ValidateFmpCapsule p) =? 0) = false).
  { destruct Hround as [-> | ->]; [reflexivity|]. rewrite Z.eqb_refl. apply andb_false_r. }
  rewrite Hdefer in Hout. destruct Hout as (s & r & Hin & Hfin).
  exists st', new, s, r.
  split; [exact (run_return _ _ _ _ _ _ Hpass)|].
  split; [exact (run_trace _ _ _ _ _ _ Hpass)|]. auto.
Qed.

(** X19. Every pass, from the boot state on the first round or from
    well-formed tables on a later round, returns with well-formed
    tables: [mCapsulePtr] and [mCapsuleStatusArray] have
    [mCapsuleTotalNumber] entries each and no capsule pointer is [NULL].
    So no pass reads or writes outside the two arrays or through a
    [NULL] capsule pointer, and a pass with [FirstRound = FALSE] can
    always follow. *)
Theorem pass_keeps_the_tables_well_formed (FirstRound : bool) (st : State W) :
  PassStart FirstRound st ->
  exists st' st'',
    ProcessTheseCapsules FirstRound st = Ok EFI_SUCCESS st' /\
    wf st' /\
    ProcessTheseCapsules false st' = Ok EFI_SUCCESS st'' /\
    wf st''.
Proof.
  intros Hstart.
  destruct (pass_run FirstRound st Hstart) as (st1 & st' & new & evs & Hpass).
  pose proof (run_wf_final _ _ _ _ _ _ Hpass) as Hwf'.
  destruct (pass_run false st' Hwf') as (st2 & st'' & new2 & evs2 & Hpass2).
  exists st', st''.
  split; [exact (run_return _ _ _ _ _ _ Hpass)|]. split; [exact Hwf'|].
  split; [exact (run_return _ _ _ _ _ _ Hpass2)|].
  exact (run_wf_final _ _ _ _ _ _ Hpass2).
Qed.

End PassOrder.

(** ** The two progress reporters *)

Section MoreProgress.
Context {W : Type} {PF : Platform W}.

Lemma PackProgress_add (Percentage Color : Z) :
  0 <= Percentage < 2 ^ 8 -> 0 <= Color ->
  PackProgress Percentage Color = Color * 2 ^ 8 + Percentage.
Proof.
  intros Hp Hc. unfold PackProgress.
  assert (Hdis : Z.land (Z.shiftl Color 8) Percentage = 0).
  { apply Z.bits_inj'. intros n Hn. rewrite Z.land_spec, Z.bits_0.
    destruct (Z.ltb_spec n 8).
    - rewrite Z.shiftl_spec_low by lia. reflexivity.
    - destruct (Z.eqb_spec Percentage 0) as [->|Hnz].
      + rewrite Z.bits_0. apply andb_false_r.
      + assert (Hlog : Z.log2 Percentage < 8) by (apply Z.log2_lt_pow2; lia).
        rewrite (Z.bits_above_log2 Percentage n); [apply andb_false_r|lia|lia]. }
  rewrite <- Z.lxor_lor by exact Hdis.
  rewrite <- Z.add_nocarry_lxor by exact Hdis.
  rewrite Z.shiftl_mul_pow2 by lia. reflexivity.
Qed.

(** The fields [Update_Image_Progress] reads from a packed argument. *)
Lemma PackProgress_fields (Percentage Color High : Z) :
  0 <= Percentage < 2 ^ 8 -> 0 <= Color < 2 ^ 24 ->
  Z.land (PackProgress Percentage Color + High * 2 ^ 32) 0xFF = Percentage /\
  UINT32 (Z.land (Z.shiftr (PackProgress Percentage Color + High * 2 ^ 32) 8) 0xFFFFFF)
  = Color.
Proof.
  intros Hp Hc. rewrite PackProgress_add by lia.
  change 0xFF with (Z.ones 8). change 0xFFFFFF with (Z.ones 24).
  rewrite !Z.land_ones by lia. rewrite Z.shiftr_div_pow2 by lia.
  replace (Color * 2 ^ 8 + Percentage + High * 2 ^ 32)
    with (Percentage + (Color + High * 2 ^ 24) * 2 ^ 8) by lia.
  split.
  - rewrite Z.mod_add by lia. apply Z.mod_small. lia.
  - rewrite Z.div_add by lia. rewrite (Z.div_small Percentage) by lia.
    rewrite Z.add_0_l, Z.mod_add by lia. rewrite (Z.mod_small Color) by lia.
    unfold UINT32. apply Z.mod_small. lia.
Qed.

(** X15. [Update_Image_Progress] undoes the packing of its argument: given
    a percentage up to 100 in the low byte and a 24-bit colour in the
    bits above it, it displays that percentage in that colour, returns
    what the display returns, and cancels the watchdog and arms it again
    with the PCD timeout unless the percentage is 100. Whatever the
    caller has put in the upper 32 bits of the argument is ignored. *)
Theorem Update_Image_Progress_unpacks (Percentage Color High : Z) (st : State W) :
  0 <= Percentage <= 100 -> 0 <= Color < 2 ^ 24 -> 0 <= High < 2 ^ 32 ->
  Update_Image_Progress (PackProgress Percentage Color + High * 2 ^ 32) st =
  ReportOutcome
    (EvSetWatchdogTimer 0 ::
     (if Percentage =? 100 then []
      else [EvSetWatchdogTimer PcdCapsuleUpdateWatchdogTimeInSeconds]))
    Percentage (Some Color) st.
Proof.
  intros Hp Hc _.
  destruct (PackProgress_fields Percentage Color High ltac:(lia) Hc) as [Hlow Hcol].
  unfold Update_Image_Progress. rewrite Hlow, Hcol.
  destruct (Z.ltb_spec 100 Percentage); [lia|].
  unfold ReportOutcome, bind, SetWatchdogTimer, DisplayUpdateProgress, emit, modify, ret.
  destruct (Percentage =? 100); reflexivity.
Qed.

(** X16. With a progress protocol whose timeout is the PCD timeout,
    that timeout not zero, and whose colour fits in 24 bits, so that the
    reserved byte of the pixel is zero, [UpdateImageProgress] called
    with a value below 256 does what [Update_Image_Progress] does when
    called with that value packed together with the colour of the
    protocol: the same calls in the same order and the same result, the
    rejection of a value above 100 included. *)
Theorem progress_reporters_agree (Completion : Z)
    (fmp : EDKII_FIRMWARE_MANAGEMENT_PROGRESS_PROTOCOL) (st : State W) :
  mFmpProgress st = Some fmp ->
  WatchdogSeconds fmp = PcdCapsuleUpdateWatchdogTimeInSeconds ->
  PcdCapsuleUpdateWatchdogTimeInSeconds <> 0 ->
  0 <= ProgressBarForegroundColor fmp < 2 ^ 24 ->
  0 <= Completion < 2 ^ 8 ->
  UpdateImageProgress Completion st =
  Update_Image_Progress (PackProgress Completion (ProgressBarForegroundColor fmp)) st.
Proof.
  intros Hfmp Hsec Hnz Hcol Hc.
  destruct (PackProgress_fields Completion (ProgressBarForegroundColor fmp) 0 Hc Hcol)
    as [Hlow Hcolor].
  rewrite Z.mul_0_l, Z.add_0_r in Hlow, Hcolor.
  unfold UpdateImageProgress, Update_Image_Progress. rewrite Hlow, Hcolor.
  destruct (100 <? Completion); [reflexivity|].
  unfold bind, gets, SetWatchdogTimer, DisplayUpdateProgress, emit, modify, ret.
  rewrite Hfmp, Hsec.
  destruct (Completion =? 100); simpl negb; cbv iota; [reflexivity|].
  destruct (Z.eqb_spec PcdCapsuleUpdateWatchdogTimeInSeconds 0); [contradiction|].
  reflexivity.
Qed.

(** The colour [Update_Image_Progress] reads from a packed argument
    whose colour is a full 32-bit pixel. *)
Lemma PackProgress_wide (Percentage Color : Z) :
  0 <= Percentage < 2 ^ 8 -> 0 <= Color < 2 ^ 32 ->
  Z.land (PackProgress Percentage Color) 0xFF = Percentage /\
  UINT32 (Z.land (Z.shiftr (PackProgress Percentage Color) 8) 0xFFFFFF)
  = Color mod 2 ^ 24.
Proof.
  intros Hp Hc. rewrite PackProgress_add by lia.
  change 0xFF with (Z.ones 8). change 0xFFFFFF with (Z.ones 24).
  rewrite !Z.land_ones by lia. rewrite Z.shiftr_div_pow2 by lia.
  replace (Color * 2 ^ 8 + Percentage) with (Percentage + Color * 2 ^ 8) by lia.
  split.
  - rewrite Z.mod_add by lia. apply Z.mod_small. lia.
  - rewrite Z.div_add by lia. rewrite (Z.div_small Percentage) by lia.
    rewrite Z.add_0_l. unfold UINT32. apply Z.mod_small.
    pose proof (Z.mod_pos_bound Color (2 ^ 24) ltac:(lia)). lia.
Qed.

(** X20. The two progress reporters do not show the same colour when the
    reserved byte of the colour of the progress protocol is not zero:
    for a percentage up to 100, [UpdateImageProgress] ends with a call
    of [DisplayUpdateProgress] with the whole 32-bit pixel, while
    [Update_Image_Progress], called with that percentage packed with the
    same pixel, ends with a call with the low 24 bits only, which is
    another value. *)
Theorem progress_reporters_differ_on_reserved_byte (Completion : Z)
    (fmp : EDKII_FIRMWARE_MANAGEMENT_PROGRESS_PROTOCOL) (st : State W) :
  mFmpProgress st = Some fmp ->
  2 ^ 24 <= ProgressBarForegroundColor fmp < 2 ^ 32 ->
  0 <= Completion <= 100 ->
  exists s1 st1 s2 st2,
    UpdateImageProgress Completion st = Ok s1 st1 /\
    Update_Image_Progress (PackProgress Completion (ProgressBarForegroundColor fmp)) st
    = Ok s2 st2 /\
    last (trace st1) =
    Some (EvDisplayUpdateProgress Completion (Some (ProgressBarForegroundColor fmp)) s1) /\
    last (trace st2) =
    Some (EvDisplayUpdateProgress Completion
            (Some (ProgressBarForegroundColor fmp mod 2 ^ 24)) s2) /\
    ProgressBarForegroundColor fmp mod 2 ^ 24 <> ProgressBarForegroundColor fmp.
Proof.
  intros Hfmp Hcol Hc.
  destruct (PackProgress_wide Completion (ProgressBarForegroundColor fmp)
              ltac:(lia) ltac:(lia)) as [Hlow Hcolor].
  unfold UpdateImageProgress, Update_Image_Progress. rewrite Hlow, Hcolor.
  destruct (Z.ltb_spec 100 Completion); [lia|].
  unfold bind, gets, SetWatchdogTimer, DisplayUpdateProgress, emit, modify, ret.
  rewrite Hfmp.
  assert (Hne : ProgressBarForegroundColor fmp mod 2 ^ 24 <> ProgressBarForegroundColor fmp).
  { pose proof (Z.mod_pos_bound (ProgressBarForegroundColor fmp) (2 ^ 24) ltac:(lia)). lia. }
  destruct (negb (Completion =? 100)); [destruct (negb (WatchdogSeconds fmp =? 0))|];
    do 4 eexists;
    (split; [reflexivity|]); (split; [reflexivity|]);
    (split; [cbn [trace record]; apply last_snoc|]);
    (split; [cbn [trace record]; apply last_snoc|exact Hne]).
Qed.

End MoreProgress.

(** ** The further properties at sample inputs *)

Ltac wf_tac :=
  split;
  [ vm_compute; reflexivity | vm_compute; reflexivity
  | vm_compute; repeat constructor; intros Heq; discriminate Heq ].

Lemma MixedHobs_boot : boot_state (PF := CheckedPlatform Plain) (BootWithHobs MixedHobs).
Proof. boot_state_tac. Defined.

(** X1 at a HOB list with a capsule, a truncated capsule, a HOB of
    another type and a second capsule. *)
Lemma discovery_collects_valid_capsules_witness :
  exists st1,
    InitCapsulePtr (PF := CheckedPlatform Plain) (BootWithHobs MixedHobs) = Ok tt st1 /\
    mCapsulePtr st1 = [0x2000; 0x4000] /\
    mCapsuleStatusArray st1 = [EFI_NOT_READY; EFI_NOT_READY] /\
    mCapsuleTotalNumber st1 = 2.
Proof.
  destruct (discovery_collects_valid_capsules (PF := CheckedPlatform Plain)
              (BootWithHobs MixedHobs) MixedHobs_boot)
    as (st1 & evs & Hrun & Htr & Hout).
  exists st1. split; [exact Hrun|].
  vm_in Hrun. injection Hrun as <-. repeat split; vm_compute; reflexivity.
Defined.

(** X2 at the same HOB list: the truncated capsule is retyped. *)
Lemma discovery_retypes_invalid_capsule_hobs_witness :
  exists st1,
    InitCapsulePtr (PF := CheckedPlatform Plain) (BootWithHobs MixedHobs) = Ok tt st1 /\
    HobList st1 =
      [CapsuleHobAt 0x2000; mkHob EFI_HOB_TYPE_UNUSED 0x3000 100;
       mkHob 0x0001 0 56; CapsuleHobAt 0x4000].
Proof.
  destruct (discovery_retypes_invalid_capsule_hobs (PF := CheckedPlatform Plain)
              (BootWithHobs MixedHobs) MixedHobs_boot)
    as (st1 & Hrun & Hhobs & _).
  exists st1. split; [exact Hrun|].
  rewrite Hhobs. vm_compute. reflexivity.
Defined.

(** X3 at the three capsules: after a second discovery, six entries of
    which the last three are [NULL]. *)
Lemma discovery_twice_doubles_the_tables_witness :
  exists st1 st2,
    InitCapsulePtr (PF := ScenarioPlatform Mixed) ThreeCapsules = Ok tt st1 /\
    InitCapsulePtr (PF := ScenarioPlatform Mixed) st1 = Ok tt st2 /\
    mCapsuleTotalNumber st2 = 6 /\
    mCapsulePtr st2 = [0x5000; 0x2000; 0x3000; 0; 0; 0].
Proof.
  destruct (discovery_twice_doubles_the_tables (PF := ScenarioPlatform Mixed)
              ThreeCapsules ThreeCapsules_boot)
    as (st1 & st2 & evs & Hrun1 & Hrun2 & Htr & Hout).
  - vm_compute. reflexivity.
  - exists st1, st2. split; [exact Hrun1|]. split; [exact Hrun2|].
    vm_in Hrun1. injection Hrun1 as <-.
    vm_in Hrun2. injection Hrun2 as <-.
    split; vm_compute; reflexivity.
Defined.

Lemma NoCapsule_boot : boot_state (PF := ScenarioPlatform Plain) NoCapsule.
Proof. boot_state_tac. Defined.

(** X4 at a HOB list without a capsule HOB. *)
Lemma no_capsule_no_work_witness :
  exists st',
    ProcessCapsules (PF := ScenarioPlatform Plain) NoCapsule = Ok EFI_SUCCESS st' /\
    trace st' = [EvReportStatusCode EFI_PROGRESS_CODE ProcessCapsulesBegin].
Proof.
  destruct (no_capsule_no_work (PF := ScenarioPlatform Plain) NoCapsule NoCapsule_boot)
    as (st' & _ & Htr & _ & _ & _ & _ & Hall).
  - vm_compute. reflexivity.
  - exists st'. split; [exact Hall | exact Htr].
Defined.

Lemma ThreeCapsulesProcessed_wf : wf ThreeCapsulesProcessed.
Proof. wf_tac. Defined.

(** X5 after the first round over the three capsules, of which the
    third is still [EFI_NOT_READY]. *)
Lemma AreAllImagesProcessed_decides_witness :
  exists b,
    AreAllImagesProcessed ThreeCapsulesProcessed
    = Ok b ThreeCapsulesProcessed /\
    (b = true <-> AllTerminal ThreeCapsulesProcessed).
Proof.
  exact (AreAllImagesProcessed_decides ThreeCapsulesProcessed ThreeCapsulesProcessed_wf).
Defined.

(** X6 at the publishing example. *)
Lemma published_tables_are_distinct_groups_witness :
  exists st' evs,
    PopulateCapsuleInConfigurationTable (PF := ScenarioPlatform Plain) PersistedCapsules
    = Ok tt st' /\
    trace st' = trace PersistedCapsules ++ evs /\
    List.NoDup (map fst (Registered evs)).
Proof.
  destruct (published_tables_are_distinct_groups (PF := ScenarioPlatform Plain)
              PersistedCapsules PersistedCapsules_wf)
    as (st' & evs & Hrun & Htr & Hnd & _).
  exists st', evs. auto.
Defined.

(** X7 at the publishing example, on a platform whose configuration
    table cannot take an entry for [GuidA]: the one entry holds the one
    flagged capsule of [GuidB]. *)
Lemma published_tables_partition_witness :
  exists st' evs,
    PopulateCapsuleInConfigurationTable (PF := NoRoomForGuidA) PersistedCapsules
    = Ok tt st' /\
    trace st' = trace PersistedCapsules ++ evs /\
    existsb InstallFailed evs = true /\
    Permutation (PublishedCapsules evs) [0x4000].
Proof.
  destruct (published_tables_partition (PF := NoRoomForGuidA)
              PersistedCapsules PersistedCapsules_wf)
    as (st' & evs & Hrun & Htr & Hparts & _).
  exists st', evs. split; [exact Hrun|]. split; [exact Htr|].
  vm_in Hrun. injection Hrun as <-. vm_in Htr. subst evs.
  split; [vm_compute; reflexivity|].
  vm_in Hparts. exact Hparts.
Defined.

(** X8 where the second scratch cache cannot be allocated: the first
    one is freed. *)
Lemma publisher_pool_balance_witness :
  exists st' evs,
    PopulateCapsuleInConfigurationTable (PF := ScenarioPlatform NoSecondScratch)
      PersistedCapsules = Ok tt st' /\
    trace st' = trace PersistedCapsules ++ evs /\
    Frees evs = ScratchAllocations evs /\
    evs = [EvAllocatePool ZeroPool 32 true; EvAllocatePool ZeroPool 64 false; EvFreePool].
Proof.
  destruct (publisher_pool_balance (PF := ScenarioPlatform NoSecondScratch)
              PersistedCapsules PersistedCapsules_wf)
    as (st' & evs & Hrun & Htr & Hbal & _).
  exists st', evs. split; [exact Hrun|]. split; [exact Htr|]. split; [exact Hbal|].
  vm_in Hrun. injection Hrun as <-. vm_in Htr. subst evs. reflexivity.
Defined.

(** X9 at a capsule followed by two Windows UX capsules: the first
    Windows UX capsule comes first, the second is never processed. *)
Lemma pass_call_sequence_witness :
  exists st' new,
    ProcessTheseCapsules (PF := ScenarioPlatform Mixed) true TwoUxCapsules
    = Ok EFI_SUCCESS st' /\
    trace st' = trace TwoUxCapsules ++ new /\
    ProcessorCalls new = [(0x1000, false); (0x2000, true)].
Proof.
  destruct (pass_call_sequence (PF := ScenarioPlatform Mixed) true TwoUxCapsules
              TwoUxCapsulesDiscovered TwoUxCapsules_boot)
    as (st' & new & Hrun & Htr & Hcalls).
  - vm_compute. reflexivity.
  - exists st', new. split; [exact Hrun|]. split; [exact Htr|].
    rewrite Hcalls. vm_compute. reflexivity.
Defined.

(** X10 at the three capsules: one capsule is applied, with success. *)
Lemma pass_outcome_reports_witness :
  exists st' new,
    ProcessTheseCapsules (PF := ScenarioPlatform Mixed) true ThreeCapsules
    = Ok EFI_SUCCESS st' /\
    trace st' = trace ThreeCapsules ++ new /\
    TerminalResults new = [EFI_SUCCESS] /\
    OutcomeReports new = [EvReportStatusCode EFI_PROGRESS_CODE UpdateFirmwareSuccess].
Proof.
  destruct (pass_outcome_reports (PF := ScenarioPlatform Mixed) true ThreeCapsules
              ThreeCapsulesDiscovered ThreeCapsules_boot)
    as (st' & new & Hrun & Htr & Hrep).
  - vm_compute. reflexivity.
  - exists st', new. split; [exact Hrun|]. split; [exact Htr|].
    assert (Hterm : TerminalResults new = [EFI_SUCCESS]).
    { vm_in Hrun. injection Hrun as <-. vm_in Htr. subst new. vm_compute. reflexivity. }
    split; [exact Hterm|]. rewrite Hrep, Hterm. vm_compute. reflexivity.
Defined.

(** X11 at the three capsules. *)
Lemma pass_phases_witness :
  exists st' evsD mid Status,
    ProcessTheseCapsules (PF := ScenarioPlatform Mixed) true ThreeCapsules
    = Ok EFI_SUCCESS st' /\
    trace st' =
      trace ThreeCapsules ++ EvReportStatusCode EFI_PROGRESS_CODE ProcessCapsulesBegin ::
      PassCalls false evsD
        (PopulateEvents (PF := ScenarioPlatform Mixed) ThreeCapsulesDiscovered)
        mid Status.
Proof.
  destruct (pass_phases (PF := ScenarioPlatform Mixed) true ThreeCapsules
              ThreeCapsulesDiscovered ThreeCapsules_boot)
    as (st' & evsD & mid & Status & Hrun & Htr & _).
  - vm_compute. reflexivity.
  - exists st', evsD, mid, Status. split; [exact Hrun | exact Htr].
Defined.

(** X12 at a later round over the three capsules. *)
Lemma later_pass_keeps_the_tables_witness :
  exists st',
    ProcessTheseCapsules (PF := ScenarioPlatform Mixed) false ThreeCapsulesProcessed
    = Ok EFI_SUCCESS st' /\
    mCapsulePtr st' = [0x5000; 0x2000; 0x3000] /\ mCapsuleTotalNumber st' = 3.
Proof.
  destruct (later_pass_keeps_the_tables (PF := ScenarioPlatform Mixed)
              ThreeCapsulesProcessed ThreeCapsulesProcessed_wf)
    as (st' & new & Hrun & _ & _ & Hptr & Htot & _).
  exists st'. split; [exact Hrun|].
  rewrite Hptr, Htot. split; vm_compute; reflexivity.
Defined.

(** X13 at the three capsules: the capsule that is applied asks for a
    reset. *)
Lemma reset_decision_witness :
  exists st',
    ProcessCapsules (PF := ScenarioPlatform Mixed) ThreeCapsules =
    NoReturn (replay (PF := ScenarioPlatform Mixed)
                [EvReportStatusCode EFI_PROGRESS_CODE ResettingSystem;
                 EvResetSystemWithSubtype EfiResetCold SampleResetGuid] st').
Proof.
  destruct (reset_decision (PF := ScenarioPlatform Mixed) ThreeCapsules ThreeCapsules_boot)
    as (st' & new & Hrun & Htr & Hreset).
  exists st'. rewrite Hreset.
  assert (Hdemand : existsb (ResetDemand (PF := ScenarioPlatform Mixed) ThreeCapsules) new
                    = true).
  { vm_in Hrun. injection Hrun as <-. vm_in Htr. subst new. vm_compute. reflexivity. }
  rewrite Hdemand, orb_true_r. reflexivity.
Defined.

(** X14 at a later round over the three capsules: the deferred capsule
    is applied and nothing is left pending. *)
Lemma later_pass_settles_everything_witness :
  exists st',
    ProcessTheseCapsules (PF := ScenarioPlatform Mixed) false ThreeCapsulesProcessed
    = Ok EFI_SUCCESS st' /\
    AreAllImagesProcessed st' = Ok true st'.
Proof.
  destruct (later_pass_settles_everything (PF := ScenarioPlatform Mixed)
              ThreeCapsulesProcessed ThreeCapsulesProcessed_wf)
    as (st' & new & Hrun & Htr & Hsettled).
  - vm_compute. repeat constructor.
  - exists st'. split; [exact Hrun|].
    apply Hsettled. intros p w r Hin.
    apply (f_equal (drop (length (trace ThreeCapsulesProcessed)))) in Htr.
    rewrite drop_app_length in Htr.
    vm_in Hrun. injection Hrun as <-. vm_in Htr. subst new.
    vm_in Hin.
    repeat (destruct Hin as [Heq|Hin]; [discriminate Heq|]). exact Hin.
Defined.

(** X15 at 50 percent in green, with a stray bit above the colour. *)
Lemma Update_Image_Progress_unpacks_witness :
  Update_Image_Progress (PF := ScenarioPlatform Plain)
    (PackProgress 50 0x00FF00 + 1 * 2 ^ 32) (BootWith []) =
  ReportOutcome (PF := ScenarioPlatform Plain)
    [EvSetWatchdogTimer 0; EvSetWatchdogTimer 60] 50 (Some 0x00FF00) (BootWith []).
Proof.
  apply (Update_Image_Progress_unpacks (PF := ScenarioPlatform Plain)
           50 0x00FF00 1 (BootWith [])); lia.
Defined.

(** X16 at 50 percent with a green progress protocol. *)
Lemma progress_reporters_agree_witness :
  UpdateImageProgress (PF := ScenarioPlatform Plain) 50
    (WithProgress GreenProgress (BootWith [])) =
  Update_Image_Progress (PF := ScenarioPlatform Plain) (PackProgress 50 0x00FF00)
    (WithProgress GreenProgress (BootWith [])).
Proof.
  apply (progress_reporters_agree (PF := ScenarioPlatform Plain) 50 GreenProgress
           (WithProgress GreenProgress (BootWith [])));
    try reflexivity; try (simpl; lia); discriminate.
Defined.

(** X17 at the publishing example: two GUIDs and at most two pointers
    for four capsules. *)
Lemma publisher_caches_fit_witness :
  exists Cache,
    CollectGuids 4 0 [] PersistedCapsules
    = Ok Cache PersistedCapsules /\
    Z.of_nat (length Cache) <= 4.
Proof.
  destruct (publisher_caches_fit PersistedCapsules PersistedCapsules_wf)
    as (Cache & Hrun & Hle & _).
  exists Cache. split; [exact Hrun | exact Hle].
Defined.

(** X18 at the second of the three capsules, which is applied on the
    first round. *)
Lemma applied_capsule_records_its_result_witness :
  exists st' new r,
    ProcessTheseCapsules (PF := ScenarioPlatform Mixed) true ThreeCapsules
    = Ok EFI_SUCCESS st' /\
    trace st' = trace ThreeCapsules ++ new /\
    In (EvProcessThisCapsuleImage 0x2000 true EFI_SUCCESS r) new /\
    mCapsuleStatusArray st' !! 1%nat = Some EFI_SUCCESS.
Proof.
  destruct (applied_capsule_records_its_result (PF := ScenarioPlatform Mixed)
              true ThreeCapsules ThreeCapsulesDiscovered 1%nat 0x2000)
    as (st' & new & s & r & Hrun & Htr & Hin & Hstatus).
  - exact ThreeCapsules_boot.
  - vm_compute. reflexivity.
  - split; vm_compute; reflexivity.
  - vm_compute. reflexivity.
  - vm_compute. reflexivity.
  - right. vm_compute. reflexivity.
  - exists st', new, r.
    assert (Hs : s = EFI_SUCCESS).
    { pose proof Hrun as Hrun'. vm_in Hrun'. injection Hrun' as <-.
      vm_in Hstatus. injection Hstatus as <-. reflexivity. }
    subst s. auto.
Defined.

(** X19 at the three capsules: a first round and a later round. *)
Lemma pass_keeps_the_tables_well_formed_witness :
  exists st' st'',
    ProcessTheseCapsules (PF := ScenarioPlatform Mixed) true ThreeCapsules
    = Ok EFI_SUCCESS st' /\
    ProcessTheseCapsules (PF := ScenarioPlatform Mixed) false st' = Ok EFI_SUCCESS st'' /\
    wf st''.
Proof.
  destruct (pass_keeps_the_tables_well_formed (PF := ScenarioPlatform Mixed)
              true ThreeCapsules ThreeCapsules_boot)
    as (st' & st'' & Hrun & _ & Hrun2 & Hwf).
  exists st', st''. auto.
Defined.

(** X20 at 50 percent with a green pixel whose reserved byte is [0xFF]:
    the one reporter shows [0xFF00FF00], the other [0x00FF00]. *)
Lemma progress_reporters_differ_on_reserved_byte_witness :
  exists s1 st1 s2 st2,
    UpdateImageProgress (PF := ScenarioPlatform Plain) 50
      (WithProgress OpaqueGreenProgress (BootWith [])) = Ok s1 st1 /\
    Update_Image_Progress (PF := ScenarioPlatform Plain) (PackProgress 50 0xFF00FF00)
      (WithProgress OpaqueGreenProgress (BootWith [])) = Ok s2 st2 /\
    last (trace st1) = Some (EvDisplayUpdateProgress 50 (Some 0xFF00FF00) s1) /\
    last (trace st2) = Some (EvDisplayUpdateProgress 50 (Some 0x00FF00) s2).
Proof.
  destruct (progress_reporters_differ_on_reserved_byte (PF := ScenarioPlatform Plain)
              50 OpaqueGreenProgress (WithProgress OpaqueGreenProgress (BootWith []))
              eq_refl ltac:(simpl; lia) ltac:(lia))
    as (s1 & st1 & s2 & st2 & H1 & H2 & Hl1 & Hl2 & _).
  exists s1, st1, s2, st2. split; [exact H1|]. split; [exact H2|].
  split; [exact Hl1|exact Hl2].
Defined.
